(** * youtube-downloader: the two route handlers and the page

    A shallow embedding of

    - [app/api/video-info/route.ts]  (the Metadata Resolver, [POST]),
    - [app/api/download/route.ts]    (the Stream Bridge, [GET]),
    - [app/page.tsx]                 (the url test, the two button handlers
                                      and the format table),

    followed by the properties of the specification that concern them.

    JavaScript values are modelled by [Js.value].  What the external tool
    returns, what a request body parses to and what the page receives are
    such values, whatever JSON they are; the records of the declared types
    ([Format], [VideoInfo], [VideoFormat], [VideoDetails]) are related to
    them by [asJson].  The external tool, the spawned process and the
    network are oracles held in an environment record; calls to them and to
    [console.error] are recorded in an effect log threaded through a small
    exception-and-log monad. *)

From Stdlib Require Import String Ascii List ZArith Bool Lia Floats.
From stdpp Require Import list strings.
Import ListNotations.

Set Warnings "-register-all".

(** ** JavaScript values, truthiness and exceptions *)

Module Js.

(** A JS [number] is an IEEE-754 double. *)
Definition number := float.

Inductive value :=
| Undefined
| Null
| Bool (b : bool)
| Num (n : number)
| Str (s : string)
| Obj (members : list (string * value))
| Arr (items : list value).

Definition isEmpty (s : string) : bool := String.eqb s "".

(** [ToBoolean] on numbers: [0], [-0] and [NaN] are falsy. *)
Definition truthyNumber (n : number) : bool :=
  negb (PrimFloat.eqb n 0%float || PrimFloat.is_nan n).

(** [ToBoolean]. *)
Definition truthy (v : value) : bool :=
  match v with
  | Undefined | Null => false
  | Bool b => b
  | Num n => truthyNumber n
  | Str s => negb (isEmpty s)
  | Obj _ | Arr _ => true
  end.

(** Truthiness of a [number | undefined]. *)
Definition truthyOptNumber (o : option number) : bool :=
  match o with None => false | Some n => truthyNumber n end.

(** What a [throw] carries: an [Error] instance with its [message], or
    any other value.  [error instanceof Error] is [isError]. *)
Inductive thrown :=
| ErrorObject (message : string)
| NonError (v : value).

Definition isError (e : thrown) : bool :=
  match e with ErrorObject _ => true | NonError _ => false end.

(** The engine's [TypeError]s; the wording is the engine's, the handlers
    never inspect it. *)
Definition TypeError (message : string) : thrown := ErrorObject message.

(** The engine's [URIError], an [Error] as well. *)
Definition URIError (message : string) : thrown := ErrorObject message.

(** Own properties of a parsed JSON object: a repeated key keeps its last
    occurrence. *)
Fixpoint lookupMember (name : string) (members : list (string * value))
  : option value :=
  match members with
  | [] => None
  | (k, v) :: rest =>
      match lookupMember name rest with
      | Some w => Some w
      | None => if String.eqb k name then Some v else None
      end
  end.

(** [String.prototype.includes(searchString)]: does [needle] occur in
    [hay] as a contiguous run?  (Strings are byte strings here; the three
    search strings of the resolver are ASCII, for which the test on UTF-8
    bytes and on UTF-16 code units agree.) *)
Fixpoint startsWith (hay needle : string) {struct needle} : bool :=
  match needle with
  | EmptyString => true
  | String a needle' =>
      match hay with
      | EmptyString => false
      | String b hay' => Ascii.eqb a b && startsWith hay' needle'
      end
  end.

Fixpoint includes (hay needle : string) : bool :=
  startsWith hay needle ||
  match hay with
  | EmptyString => false
  | String _ rest => includes rest needle
  end.

End Js.

(** ** Exceptions and an effect log *)

Module Eff.

Inductive completion (A : Type) :=
| Return (a : A)
| Throw (e : Js.thrown).
Arguments Return {A} a.
Arguments Throw {A} e.

(** A computation appends to the log of effects [L] it is given and
    completes normally or abruptly. *)
Definition M (L A : Type) : Type := list L -> completion A * list L.

Definition ret {L A} (a : A) : M L A := fun log => (Return a, log).

Definition throw {L A} (e : Js.thrown) : M L A := fun log => (Throw e, log).

Definition bind {L A B} (m : M L A) (k : A -> M L B) : M L B :=
  fun log =>
    match m log with
    | (Return a, log') => k a log'
    | (Throw e, log') => (Throw e, log')
    end.

(** [try { body } catch (error) { handler }]. *)
Definition tryCatch {L A} (body : M L A) (handler : Js.thrown -> M L A)
  : M L A :=
  fun log =>
    match body log with
    | (Return a, log') => (Return a, log')
    | (Throw e, log') => handler e log'
    end.

Definition emit {L} (l : L) : M L unit := fun log => (Return tt, log ++ [l]).

(** Lift the outcome of an oracle. *)
Definition lift {L A} (c : completion A) : M L A := fun log => (c, log).

Definition run {L A} (m : M L A) : completion A * list L := m [].

End Eff.

Import Eff.

(** The monad is used through stdpp's [x ← m; k] and [m ;; k]. *)
#[global] Instance M_ret {L} : MRet (M L) := fun A a => ret a.
#[global] Instance M_bind {L} : MBind (M L) := fun A B k m => bind m k.

(** ** HTTP responses *)

(** The record a surviving format is projected to; it is also the page's
    [VideoFormat]. *)
Record VideoFormat := {
  vf_format_id : string;
  vf_format_note : string;
  vf_ext : string;
  vf_resolution : string;
  vf_fps : option Js.number;
  vf_filesize : option Js.number;
  vf_filesize_approx : option Js.number
}.

(** The resolver's success payload, the page's [VideoDetails]. *)
Record VideoDetails := {
  vd_id : string;
  vd_title : string;
  vd_thumbnail : string;
  vd_formats : list VideoFormat
}.

Definition Headers := list (string * string).

(** [headers.set(name, value)]. *)
Fixpoint headersSet (name value : string) (h : Headers) : Headers :=
  match h with
  | [] => [(name, value)]
  | (n, v) :: rest =>
      if String.eqb n name then (n, value) :: rest
      else (n, v) :: headersSet name value rest
  end.

(** [new Response(body, { status, headers })]. *)
Record Response (B : Type) := mkResponse {
  status : Z;
  headers : Headers;
  body : B
}.
Arguments mkResponse {B} status headers body.
Arguments status {B} r.
Arguments headers {B} r.
Arguments body {B} r.

Definition jsonHeaders : Headers := [("Content-Type", "application/json")].

(** ** Reading values parsed from JSON *)

(** Computations that complete normally or throw, without effects. *)
#[global] Instance completion_ret : MRet completion := fun A a => Return a.
#[global] Instance completion_bind : MBind completion :=
  fun A B k m => match m with
                 | Return a => k a
                 | Throw e => Throw e
                 end.

Module Json.

(** [v.name] for a data member: reading a property of [null] or
    [undefined] throws; an object has the members it was parsed with; a
    number, boolean, string or array has no member of the names read in
    this program. *)
Definition property (name : string) (v : Js.value) : completion Js.value :=
  match v with
  | Js.Undefined | Js.Null =>
      Throw (Js.TypeError "Cannot read properties of null or undefined")
  | Js.Obj members =>
      Return (match Js.lookupMember name members with
              | Some w => w
              | None => Js.Undefined
              end)
  | _ => Return Js.Undefined
  end.

(** The member [name] of [v], [undefined] when there is none. *)
Definition member (name : string) (v : Js.value) : Js.value :=
  match v with
  | Js.Obj members =>
      match Js.lookupMember name members with
      | Some w => w
      | None => Js.Undefined
      end
  | _ => Js.Undefined
  end.

(** [v === s] for a string [s]. *)
Definition isString (s : string) (v : Js.value) : bool :=
  match v with
  | Js.Str t => String.eqb t s
  | _ => false
  end.

(** [v.includes(search)] for a string [search]: the substring test on a
    string, the membership test on an array; any other value has no
    callable [includes] and the call throws. *)
Definition includes (v : Js.value) (search : string) : completion bool :=
  match v with
  | Js.Str s => Return (Js.includes s search)
  | Js.Arr items => Return (existsb (isString search) items)
  | _ => Throw (Js.TypeError "includes is not a function")
  end.

(** The elements of [v] when [v] is an array; [v.filter] is callable on
    nothing else. *)
Definition elements (v : Js.value) : completion (list Js.value) :=
  match v with
  | Js.Arr items => Return items
  | _ => Throw (Js.TypeError "filter is not a function")
  end.

(** A number that may be missing, as a member value. *)
Definition ofOptionNumber (n : option Js.number) : Js.value :=
  match n with
  | Some x => Js.Num x
  | None => Js.Undefined
  end.

End Json.

(** ** [app/api/video-info/route.ts] *)

Module VideoInfoRoute.

(** [interface Format]: one encoding record of the tool's JSON output. *)
Record Format := {
  format_id : string;
  format_note : string;
  ext : string;
  resolution : string;
  fps : option Js.number;
  filesize : option Js.number;
  filesize_approx : option Js.number;
  vcodec : string;
  acodec : string
}.

(** [interface VideoInfo]. *)
Record VideoInfo := {
  id : string;
  title : string;
  thumbnail : string;
  formats : list Format
}.

(** The flags object handed to [ytDlp]. *)
Record Flags := {
  dumpSingleJson : bool;
  noWarnings : bool;
  noCallHome : bool;
  noCheckCertificate : bool;
  preferFreeFormats : bool;
  youtubeSkipDashManifest : bool
}.

Record Invocation := {
  target : Js.value;
  flags : Flags
}.

Inductive Effect :=
| YtDlp (call : Invocation)
| ConsoleError (label : string) (error : Js.thrown).

(** The external tool: what [await ytDlp(url, flags)] completes with, the
    value parsed from the tool's JSON output, whatever it is. *)
Record Env := {
  ytDlp : Invocation -> completion Js.value
}.

(** The request: what [await request.json()] completes with (it rejects
    when the body is not JSON). *)
Record Request := {
  json : completion Js.value
}.

(** The object of lines 67-72: the values found in the tool's output. *)
Record Descriptor := {
  d_id : Js.value;
  d_title : Js.value;
  d_thumbnail : Js.value;
  d_formats : list Js.value
}.

Inductive Body :=
| ErrorJson (error : string)
| DetailsJson (details : Descriptor).

(** [NextResponse.json(data, { status })]. *)
Definition NextResponse_json (data : Body) (st : Z) : Response Body :=
  mkResponse st jsonHeaders data.

(** [const { url } = body]: destructuring [null] or [undefined] throws,
    every other value is read for its [url] property. *)
Definition destructure (name : string) (v : Js.value) : completion Js.value :=
  match v with
  | Js.Undefined | Js.Null =>
      Throw (Js.TypeError "Cannot destructure property of null or undefined")
  | Js.Obj members =>
      Return (match Js.lookupMember name members with
              | Some w => w
              | None => Js.Undefined
              end)
  | _ => Return Js.Undefined
  end.

(** The predicate of [.filter(...)], lines 48-54. *)
Definition keep (f : Format) : bool :=
  (negb (String.eqb (vcodec f) "none") && negb (String.eqb (acodec f) "none"))
  || (negb (String.eqb (vcodec f) "none")
      && String.eqb (acodec f) "none"
      && (Js.includes (resolution f) "1920x1080"
          || Js.includes (resolution f) "2560x1440"
          || Js.includes (resolution f) "3840x2160")).

(** The function of [.map(...)], lines 56-64. *)
Definition project (f : Format) : VideoFormat :=
  {| vf_format_id := format_id f;
     vf_format_note := format_note f;
     vf_ext := ext f;
     vf_resolution := resolution f;
     vf_fps := fps f;
     vf_filesize := filesize f;
     vf_filesize_approx := filesize_approx f |}.

Definition filteredFormats (fs : list Format) : list VideoFormat :=
  List.map project (List.filter keep fs).

Definition fallbackMessage : string :=
  "Failed to fetch video details. The video may be private, age-restricted, or the URL is invalid.".

(** The arguments of the call [ytDlp(url, { ... })], lines 34-41. *)
Definition invocation (url : Js.value) : Invocation :=
  {| target := url;
     flags := {| dumpSingleJson := true;
                 noWarnings := true;
                 noCallHome := true;
                 noCheckCertificate := true;
                 preferFreeFormats := true;
                 youtubeSkipDashManifest := true |} |}.

(** *** Lines 46-64 on the value the tool returned

    The tool's output is declared [VideoInfo] but is whatever JSON the tool
    printed; [keep], [project] and [filteredFormats] above are what the
    following do on records of the declared type (see [asJson]). *)

(** [a || b] and [a && b] on conditions that may throw: [b] is evaluated
    only when [a] does not decide. *)
Definition orElse (a b : completion bool) : completion bool :=
  match a with
  | Return true => Return true
  | Return false => b
  | Throw e => Throw e
  end.

Definition andAlso (a b : completion bool) : completion bool :=
  match a with
  | Return true => b
  | Return false => Return false
  | Throw e => Throw e
  end.

(** [f.name !== s] and [f.name === s]. *)
Definition differs (name s : string) (f : Js.value) : completion bool :=
  v ← Json.property name f; Return (negb (Json.isString s v)).

Definition equals (name s : string) (f : Js.value) : completion bool :=
  v ← Json.property name f; Return (Json.isString s v).

(** [f.resolution.includes(s)]. *)
Definition resolutionIncludes (s : string) (f : Js.value) : completion bool :=
  resolution ← Json.property "resolution" f; Json.includes resolution s.

(** The predicate of [.filter(...)] on one element, lines 48-54. *)
Definition keeps (f : Js.value) : completion bool :=
  orElse
    (andAlso (differs "vcodec" "none" f) (differs "acodec" "none" f))
    (andAlso (differs "vcodec" "none" f)
       (andAlso (equals "acodec" "none" f)
          (orElse (resolutionIncludes "1920x1080" f)
             (orElse (resolutionIncludes "2560x1440" f)
                (resolutionIncludes "3840x2160" f))))).

(** The object literal of [.map(...)] on one element. *)
Definition projects (f : Js.value) : completion Js.value :=
  format_id ← Json.property "format_id" f;
  format_note ← Json.property "format_note" f;
  ext ← Json.property "ext" f;
  resolution ← Json.property "resolution" f;
  fps ← Json.property "fps" f;
  filesize ← Json.property "filesize" f;
  filesize_approx ← Json.property "filesize_approx" f;
  Return (Js.Obj [("format_id", format_id);
                ("format_note", format_note);
                ("ext", ext);
                ("resolution", resolution);
                ("fps", fps);
                ("filesize", filesize);
                ("filesize_approx", filesize_approx)]).

(** [items.filter(...)]: the predicate runs on the elements in order. *)
Fixpoint filtering (items : list Js.value) : completion (list Js.value) :=
  match items with
  | [] => Return []
  | f :: rest =>
      keeps f ≫= λ kept : bool,
      filtering rest ≫= λ others,
      Return (if kept then f :: others else others)
  end.

(** [items.map(...)]. *)
Fixpoint mapping (items : list Js.value) : completion (list Js.value) :=
  match items with
  | [] => Return []
  | f :: rest =>
      v ← projects f;
      others ← mapping rest;
      Return (v :: others)
  end.

(** [videoInfo.formats.filter(...).map(...)]. *)
Definition filteredFormatsOf (videoInfo : Js.value)
  : completion (list Js.value) :=
  formats ← Json.property "formats" videoInfo;
  items ← Json.elements formats;
  kept ← filtering items;
  mapping kept.

(** Lines 46-72: the descriptor made from the tool's output. *)
Definition describes (videoInfo : Js.value) : completion Descriptor :=
  filteredFormats ← filteredFormatsOf videoInfo;
  id ← Json.property "id" videoInfo;
  title ← Json.property "title" videoInfo;
  thumbnail ← Json.property "thumbnail" videoInfo;
  Return {| d_id := id;
          d_title := title;
          d_thumbnail := thumbnail;
          d_formats := filteredFormats |}.

(** The success response, lines 67-72. *)
Definition descriptor (details : Descriptor) : Response Body :=
  NextResponse_json (DetailsJson details) 200.

(** Records of the declared types as the values they are parsed from. *)
Definition asJson (f : Format) : Js.value :=
  Js.Obj [("format_id", Js.Str (format_id f));
          ("format_note", Js.Str (format_note f));
          ("ext", Js.Str (ext f));
          ("resolution", Js.Str (resolution f));
          ("fps", Json.ofOptionNumber (fps f));
          ("filesize", Json.ofOptionNumber (filesize f));
          ("filesize_approx", Json.ofOptionNumber (filesize_approx f));
          ("vcodec", Js.Str (vcodec f));
          ("acodec", Js.Str (acodec f))].

Definition projectedAsJson (v : VideoFormat) : Js.value :=
  Js.Obj [("format_id", Js.Str (vf_format_id v));
          ("format_note", Js.Str (vf_format_note v));
          ("ext", Js.Str (vf_ext v));
          ("resolution", Js.Str (vf_resolution v));
          ("fps", Json.ofOptionNumber (vf_fps v));
          ("filesize", Json.ofOptionNumber (vf_filesize v));
          ("filesize_approx", Json.ofOptionNumber (vf_filesize_approx v))].

Definition infoAsJson (videoInfo : VideoInfo) : Js.value :=
  Js.Obj [("id", Js.Str (id videoInfo));
          ("title", Js.Str (title videoInfo));
          ("thumbnail", Js.Str (thumbnail videoInfo));
          ("formats", Js.Arr (List.map asJson (formats videoInfo)))].

(** The response of the [catch] block, lines 76-84. *)
Definition failure (error : Js.thrown) : Response Body :=
  NextResponse_json
    (ErrorJson (match error with
                | Js.ErrorObject message => message
                | Js.NonError _ => fallbackMessage
                end))
    500.

Definition POST (env : Env) (request : Request) : M Effect (Response Body) :=
  tryCatch
    (body ← lift (json request);
     url ← lift (destructure "url" body);
     if negb (Js.truthy url) then
       mret (NextResponse_json (ErrorJson "URL is required") 400)
     else
       emit (YtDlp (invocation url));;
       videoInfo ← lift (ytDlp env (invocation url));
       details ← lift (describes videoInfo);
       mret (descriptor details))
    (fun error =>
       emit (ConsoleError "Error fetching video info:" error);;
       mret (failure error)).

End VideoInfoRoute.

(** ** The format table of [app/page.tsx] *)

Module Page.

(** [.filter((f) => f.filesize || f.filesize_approx)], line 196. *)
Definition hasSize (f : VideoFormat) : bool :=
  Js.truthyOptNumber (vf_filesize f) || Js.truthyOptNumber (vf_filesize_approx f).

Definition tableRows (details : VideoDetails) : list VideoFormat :=
  List.filter hasSize (vd_formats details).

End Page.

(** ** The web [ReadableStream], as far as the bridge uses it *)

Module Stream.

(** A [Buffer]. *)
Definition Chunk := list Byte.byte.

Inductive State :=
| Readable
| Closed
| Errored (reason : Js.thrown).

(** A default controller with its stream: the stream's state, the chunks
    queued and not yet read, and whether [close] was requested. *)
Record Controller := {
  state : State;
  queue : list Chunk;
  closeRequested : bool
}.

Definition fresh : Controller :=
  {| state := Readable; queue := []; closeRequested := false |}.

Definition isReadable (c : Controller) : bool :=
  match state c with Readable => true | _ => false end.

Definition canCloseOrEnqueue (c : Controller) : bool :=
  negb (closeRequested c) && isReadable c.

Definition invalidState : Js.thrown :=
  Js.TypeError "Invalid state: Controller is already closed".

(** [controller.enqueue(chunk)]. *)
Definition enqueue (chunk : Chunk) (c : Controller) : completion Controller :=
  if canCloseOrEnqueue c then
    Return {| state := state c;
              queue := queue c ++ [chunk];
              closeRequested := closeRequested c |}
  else Throw invalidState.

(** [controller.close()]: the stream closes at once when nothing is queued,
    and after the last queued chunk is read otherwise. *)
Definition close (c : Controller) : completion Controller :=
  if canCloseOrEnqueue c then
    Return {| state := match queue c with [] => Closed | _ :: _ => Readable end;
              queue := queue c;
              closeRequested := true |}
  else Throw invalidState.

(** [controller.error(e)]: drops the queue; no effect on a stream that is
    no longer readable. *)
Definition error (e : Js.thrown) (c : Controller) : Controller :=
  if isReadable c then
    {| state := Errored e; queue := []; closeRequested := closeRequested c |}
  else c.

(** What [reader.read()] settles with; [Pending] when nothing is queued on
    a readable stream (the consumer waits). *)
Inductive ReadResult :=
| Value (chunk : Chunk)
| Done
| Rejected (reason : Js.thrown)
| Pending.

Definition read (c : Controller) : ReadResult * Controller :=
  match state c with
  | Closed => (Done, c)
  | Errored e => (Rejected e, c)
  | Readable =>
      match queue c with
      | [] => (Pending, c)
      | chunk :: rest =>
          (Value chunk,
           {| state := match rest with
                       | [] => if closeRequested c then Closed else Readable
                       | _ :: _ => Readable
                       end;
              queue := rest;
              closeRequested := closeRequested c |})
      end
  end.

(** The stream's part of [stream.cancel()]: a readable stream is closed and
    its queue dropped.  The underlying source's [cancel] method, when it has
    one, is called next (see [UnderlyingSource]). *)
Definition cancel (c : Controller) : Controller :=
  if isReadable c then
    {| state := Closed; queue := []; closeRequested := closeRequested c |}
  else c.

(** The object given to [new ReadableStream(...)]: its optional methods
    act on the controller and on some world [W] they close over. *)
Record UnderlyingSource (W : Type) := {
  start : option (Controller -> W -> Controller * W);
  pull : option (Controller -> W -> Controller * W);
  onCancel : option (W -> W)
}.
Arguments start {W} u.
Arguments pull {W} u.
Arguments onCancel {W} u.

(** [new ReadableStream(source)]: [start] runs during construction. *)
Definition construct {W} (source : UnderlyingSource W) (w : W) : Controller * W :=
  match start source with
  | Some f => f fresh w
  | None => (fresh, w)
  end.

End Stream.

(** ** [app/api/download/route.ts] *)

Module DownloadRoute.

Import Stream.

(** The options object handed to [youtubedl.exec]. *)
Record ExecOptions := {
  format : string;
  output : string;
  noWarnings : bool;
  noCheckCertificates : bool;
  preferFreeFormats : bool;
  youtubeSkipDashManifest : bool
}.

(** The spawned process as the handler can act on it: whether it was
    killed, and its standard-output channel ([null] when the process has
    none) with whether that channel was destroyed. *)
Record Channel := {
  destroyed : bool
}.

Record Subprocess := {
  killed : bool;
  stdout : option Channel
}.

(** [subprocess.kill()] and [subprocess.stdout.destroy()], the two calls
    that tear a process down.  The route makes neither; they are here to
    say what the two flags record. *)
Definition kill (p : Subprocess) : Subprocess :=
  {| killed := true; stdout := stdout p |}.

Definition destroyStdout (p : Subprocess) : Subprocess :=
  {| killed := killed p;
     stdout := match stdout p with
               | Some _ => Some {| destroyed := true |}
               | None => None
               end |}.

Inductive Effect :=
| Exec (url : string) (options : ExecOptions)
| ConsoleError (label : string) (error : Js.thrown).

(** The spawn: what [youtubedl.exec(url, options)] completes with. *)
Record Env := {
  exec : string -> ExecOptions -> completion Subprocess
}.

(** [request.nextUrl.searchParams], decoded, in query order. *)
Record NextRequest := {
  searchParams : list (string * string)
}.

(** [searchParams.get(name)]: the first value of that name, or [null]. *)
Fixpoint get (name : string) (params : list (string * string)) : option string :=
  match params with
  | [] => None
  | (k, v) :: rest => if String.eqb k name then Some v else get name rest
  end.

(** What the callbacks of the stream close over: the process, whether the
    three listeners of [start] are attached to its stdout, what
    [console.error] printed, and the exceptions that escaped a listener. *)
Record World := {
  downloadStream : Subprocess;
  listening : bool;
  console : list (string * Js.thrown);
  uncaught : list Js.thrown
}.

(** The reason given to [controller.error] at line 46: a string, not an
    [Error]. *)
Definition failedToGet : Js.thrown :=
  Js.NonError (Js.Str "Failed to get download stream.").

(** [start(controller)], lines 42-62. *)
Definition start (controller : Controller) (w : World) : Controller * World :=
  match stdout (downloadStream w) with
  | None => (error failedToGet controller, w)
  | Some _ =>
      (controller,
       {| downloadStream := downloadStream w;
          listening := true;
          console := console w;
          uncaught := uncaught w |})
  end.

(** The object literal given to [new ReadableStream]: it has a [start]
    method and nothing else. *)
Definition source : UnderlyingSource World :=
  {| Stream.start := Some start; pull := None; onCancel := None |}.

(** A download in flight: the stream, the world behind it and the chunks
    the client has read so far. *)
Record Session := {
  controller : Controller;
  world : World;
  delivered : list Chunk
}.

Definition withController (c : Controller) (s : Session) : Session :=
  {| controller := c; world := world s; delivered := delivered s |}.

Definition withWorld (w : World) (s : Session) : Session :=
  {| controller := controller s; world := w; delivered := delivered s |}.

(** An exception leaving a listener is nobody's to catch. *)
Definition escape (e : Js.thrown) (s : Session) : Session :=
  withWorld {| downloadStream := downloadStream (world s);
               listening := listening (world s);
               console := console (world s);
               uncaught := uncaught (world s) ++ [e] |} s.

Definition consoleError (label : string) (e : Js.thrown) (s : Session) : Session :=
  withWorld {| downloadStream := downloadStream (world s);
               listening := listening (world s);
               console := console (world s) ++ [(label, e)];
               uncaught := uncaught (world s) |} s.

(** The listener on ["data"], lines 50-52. *)
Definition onData (chunk : Chunk) (s : Session) : Session :=
  match enqueue chunk (controller s) with
  | Return c => withController c s
  | Throw e => escape e s
  end.

(** The listener on ["end"], lines 54-56. *)
Definition onEnd (s : Session) : Session :=
  match close (controller s) with
  | Return c => withController c s
  | Throw e => escape e s
  end.

(** The listener on ["error"], lines 58-61. *)
Definition onError (err : Js.thrown) (s : Session) : Session :=
  let s := consoleError "Stream error:" err s in
  withController (error err (controller s)) s.

(** What can happen to a session: stdout emits an event, the client reads
    the next chunk of the response body, or the client goes away and the
    response body is cancelled. *)
Inductive Action :=
| StdoutData (chunk : Chunk)
| StdoutEnd
| StdoutError (err : Js.thrown)
| ClientRead
| ClientCancel.

Definition step (a : Action) (s : Session) : Session :=
  match a with
  | StdoutData chunk => if listening (world s) then onData chunk s else s
  | StdoutEnd => if listening (world s) then onEnd s else s
  | StdoutError err => if listening (world s) then onError err s else s
  | ClientRead =>
      let (result, c) := read (controller s) in
      let s := match pull source with
               | Some f => let (c', w') := f c (world s) in
                           withWorld w' (withController c' s)
               | None => withController c s
               end in
      match result with
      | Value chunk =>
          {| controller := controller s;
             world := world s;
             delivered := delivered s ++ [chunk] |}
      | _ => s
      end
  | ClientCancel =>
      let readable := isReadable (controller s) in
      let s := withController (cancel (controller s)) s in
      match onCancel source with
      | Some f => if readable then withWorld (f (world s)) s else s
      | None => s
      end
  end.

Definition run (trace : list Action) (s : Session) : Session :=
  fold_left (fun s a => step a s) trace s.

Inductive Body :=
| ErrorJson (error : string)
| StreamBody (stream : Session).

Definition dquote : string := String (Ascii.ascii_of_nat 34) EmptyString.

(** The options of the call [youtubedl.exec(url, { ... })], lines 27-38. *)
Definition options (formatId : string) : ExecOptions :=
  {| format := formatId +:+ "+ba";
     output := "-";
     noWarnings := true;
     noCheckCertificates := true;
     preferFreeFormats := true;
     youtubeSkipDashManifest := true |}.

(** [new ReadableStream({ start(controller) { ... } })] over the spawned
    process, lines 41-63, before anything was read. *)
Definition openStream (downloadStream : Subprocess) : Session :=
  let (controller, w) :=
    construct source
      {| downloadStream := downloadStream;
         listening := false;
         console := [];
         uncaught := [] |} in
  {| controller := controller; world := w; delivered := [] |}.

(** The headers of the download response, lines 66-68. *)
Definition downloadHeaders : Headers :=
  let headers := [] in
  let headers := headersSet "Content-Type" "video/mp4" headers in
  headersSet "Content-Disposition"
    ("attachment; filename=" +:+ dquote +:+ "video.mp4" +:+ dquote)
    headers.

(** The response of lines 15-21. *)
Definition badRequest : Response Body :=
  mkResponse 400 jsonHeaders (ErrorJson "URL and Format ID are required").

(** The response of the [catch] block, lines 73-82. *)
Definition failure (error : Js.thrown) : Response Body :=
  mkResponse 500 jsonHeaders
    (ErrorJson (match error with
                | Js.ErrorObject message => message
                | Js.NonError _ => "Failed to start download."
                end)).

(** [new Response(stream, { headers })]: the status defaults to 200. *)
Definition streaming (stream : Session) : Response Body :=
  mkResponse 200 downloadHeaders (StreamBody stream).

(** [!url || !formatId] holds when either is [null] or empty; past the
    test both are non-empty strings. *)
Definition GET (env : Env) (request : NextRequest) : M Effect (Response Body) :=
  tryCatch
    (let url := get "url" (searchParams request) in
     let formatId := get "formatId" (searchParams request) in
     match url, formatId with
     | Some url, Some formatId =>
         if Js.isEmpty url || Js.isEmpty formatId then mret badRequest
         else
           emit (Exec url (options formatId));;
           downloadStream ← lift (exec env url (options formatId));
           let stream := openStream downloadStream in
           mret (streaming stream)
     | _, _ => mret badRequest
     end)
    (fun error =>
       emit (ConsoleError "Download error:" error);;
       mret (failure error)).

End DownloadRoute.

(** ** The specification's wording of the resolver's inclusion policy *)

Module Policy.

Import VideoInfoRoute.

(** A track is present when its codec field is not ["none"]. *)
Definition hasVideo (f : Format) : Prop := vcodec f <> "none".
Definition hasAudio (f : Format) : Prop := acodec f <> "none".

Definition combined (f : Format) : Prop := hasVideo f /\ hasAudio f.
Definition videoOnly (f : Format) : Prop := hasVideo f /\ acodec f = "none".
Definition audioOnly (f : Format) : Prop := vcodec f = "none" /\ hasAudio f.

(** The allowlist read as the specification words it: the resolution tag
    is exactly one of the three. *)
Definition exactlyHighRes (f : Format) : Prop :=
  resolution f = "1920x1080" \/ resolution f = "2560x1440"
  \/ resolution f = "3840x2160".

Definition claimedPolicy (f : Format) : Prop :=
  combined f \/ (videoOnly f /\ exactlyHighRes f).

(** [needle] occurs somewhere inside [hay]. *)
Definition occursIn (needle hay : string) : Prop :=
  exists before after, hay = before +:+ needle +:+ after.

(** The allowlist as a containment test. *)
Definition mentionsHighRes (f : Format) : Prop :=
  occursIn "1920x1080" (resolution f) \/ occursIn "2560x1440" (resolution f)
  \/ occursIn "3840x2160" (resolution f).

Definition policy (f : Format) : Prop :=
  combined f \/ (videoOnly f /\ mentionsHighRes f).

(** The same record with other size fields. *)
Definition withSizes (exact approx : option Js.number) (f : Format) : Format :=
  {| format_id := format_id f;
     format_note := format_note f;
     ext := ext f;
     resolution := resolution f;
     fps := fps f;
     filesize := exact;
     filesize_approx := approx;
     vcodec := vcodec f;
     acodec := acodec f |}.

End Policy.

(** ** Sample inputs *)

Module Samples.

Import VideoInfoRoute.

(** A combined 360p record, as the tool lists it. *)
Definition combined360 : Format :=
  {| format_id := "18";
     format_note := "360p";
     ext := "mp4";
     resolution := "640x360";
     fps := Some 30%float;
     filesize := Some 12345678%float;
     filesize_approx := None;
     vcodec := "avc1.42001E";
     acodec := "mp4a.40.2" |}.

(** A video-only 1080p record without any size. *)
Definition videoOnly1080 : Format :=
  {| format_id := "137";
     format_note := "1080p";
     ext := "mp4";
     resolution := "1920x1080";
     fps := Some 30%float;
     filesize := None;
     filesize_approx := None;
     vcodec := "avc1.640028";
     acodec := "none" |}.

(** A video-only 480p record. *)
Definition videoOnly480 : Format :=
  {| format_id := "135";
     format_note := "480p";
     ext := "mp4";
     resolution := "854x480";
     fps := Some 30%float;
     filesize := Some 4000000%float;
     filesize_approx := None;
     vcodec := "avc1.4d401e";
     acodec := "none" |}.

(** An audio-only record. *)
Definition audioOnly : Format :=
  {| format_id := "140";
     format_note := "medium";
     ext := "m4a";
     resolution := "audio only";
     fps := None;
     filesize := Some 3000000%float;
     filesize_approx := None;
     vcodec := "none";
     acodec := "mp4a.40.2" |}.

(** A video-only record whose resolution tag contains an allowlisted
    resolution without being equal to it. *)
Definition videoOnlyTagged : Format :=
  {| format_id := "299-hdr";
     format_note := "1080p60 HDR";
     ext := "webm";
     resolution := "1920x1080 (HDR)";
     fps := Some 60%float;
     filesize := Some 90000000%float;
     filesize_approx := None;
     vcodec := "vp09.02.40.10";
     acodec := "none" |}.

(** The same codecs and resolution as [videoOnly1080], every other field
    different. *)
Definition videoOnly1080' : Format :=
  {| format_id := "248";
     format_note := "Premium";
     ext := "webm";
     resolution := "1920x1080";
     fps := None;
     filesize := Some 1%float;
     filesize_approx := Some 2%float;
     vcodec := "avc1.640028";
     acodec := "none" |}.

Definition sampleInfo : VideoInfo :=
  {| id := "dQw4w9WgXcQ";
     title := "Sample";
     thumbnail := "https://i.ytimg.com/vi/dQw4w9WgXcQ/default.jpg";
     formats := [audioOnly; combined360; videoOnly480; videoOnly1080] |}.

(** A tool that answers every invocation with [sampleInfo]. *)
Definition answering : VideoInfoRoute.Env :=
  {| ytDlp := fun _ => Return (infoAsJson sampleInfo) |}.

(** The descriptor made from [sampleInfo]: the audio-only and the 480p
    video-only record are left out. *)
Definition sampleDescriptor : VideoInfoRoute.Descriptor :=
  {| d_id := Js.Str "dQw4w9WgXcQ";
     d_title := Js.Str "Sample";
     d_thumbnail := Js.Str "https://i.ytimg.com/vi/dQw4w9WgXcQ/default.jpg";
     d_formats := [projectedAsJson (project combined360);
                   projectedAsJson (project videoOnly1080)] |}.

(** A tool whose output has no [formats] member, as for a playlist. *)
Definition playlistInfo : Js.value :=
  Js.Obj [("id", Js.Str "PL0123456789");
          ("title", Js.Str "Sample list");
          ("_type", Js.Str "playlist");
          ("entries", Js.Arr [])].

Definition answeringPlaylist : VideoInfoRoute.Env :=
  {| ytDlp := fun _ => Return playlistInfo |}.

(** A tool that fails with an [Error] carrying a message, and one that
    fails by throwing a value that is not an [Error]. *)
Definition failing : VideoInfoRoute.Env :=
  {| ytDlp := fun _ => Throw (Js.ErrorObject "ERROR: Video unavailable") |}.

Definition failingOddly : VideoInfoRoute.Env :=
  {| ytDlp := fun _ => Throw (Js.NonError (Js.Num 1%float)) |}.

(** The body [{ url: ... }]. *)
Definition withUrl (url : string) : VideoInfoRoute.Request :=
  {| json := Return (Js.Obj [("url", Js.Str url)]) |}.

Definition watchUrl : string := "https://www.youtube.com/watch?v=dQw4w9WgXcQ".

(** A freshly spawned process with a stdout pipe, and one without. *)
Definition piped : DownloadRoute.Subprocess :=
  {| DownloadRoute.killed := false;
     DownloadRoute.stdout := Some {| DownloadRoute.destroyed := false |} |}.

Definition pipeless : DownloadRoute.Subprocess :=
  {| DownloadRoute.killed := false; DownloadRoute.stdout := None |}.

Definition spawning : DownloadRoute.Env :=
  {| DownloadRoute.exec := fun _ _ => Return piped |}.

Definition spawningPipeless : DownloadRoute.Env :=
  {| DownloadRoute.exec := fun _ _ => Return pipeless |}.

Definition notSpawning : DownloadRoute.Env :=
  {| DownloadRoute.exec := fun _ _ => Throw (Js.ErrorObject "spawn ENOENT") |}.

(** [GET /download?url=...&formatId=137]. *)
Definition download137 : DownloadRoute.NextRequest :=
  {| DownloadRoute.searchParams := [("url", watchUrl); ("formatId", "137")] |}.

(** [GET /download?url=...&formatId=]. *)
Definition downloadNoFormat : DownloadRoute.NextRequest :=
  {| DownloadRoute.searchParams := [("url", watchUrl); ("formatId", "")] |}.

Definition chunkA : Stream.Chunk := [Byte.x00; Byte.x00; Byte.x00; Byte.x18].
Definition chunkB : Stream.Chunk := [Byte.x66; Byte.x74; Byte.x79; Byte.x70].
Definition chunkC : Stream.Chunk := [Byte.x69; Byte.x73; Byte.x6f; Byte.x6d].

End Samples.

(** ** The request shapes the interface declares *)

Module Wire.

(** A parameter is missing ([null], no such member) or the empty string. *)
Definition missingOrEmpty (parameter : option string) : Prop :=
  parameter = None \/ parameter = Some "".

(** What a request to [POST /video-info] supplies as its url: the [url]
    member of the body, [undefined] when the body has none or is no JSON. *)
Definition suppliedUrl (request : VideoInfoRoute.Request) : Js.value :=
  match VideoInfoRoute.json request with
  | Return payload => Json.member "url" payload
  | Throw _ => Js.Undefined
  end.

(** The supplied url is missing or the empty string. *)
Definition urlMissingOrEmpty (request : VideoInfoRoute.Request) : Prop :=
  suppliedUrl request = Js.Undefined \/ suppliedUrl request = Js.Str "".

(** The [url] member of a body that can be read for it: one that parsed as
    JSON to a value other than [null]. *)
Definition urlMember (request : VideoInfoRoute.Request) : option Js.value :=
  match VideoInfoRoute.json request with
  | Return Js.Null | Return Js.Undefined | Throw _ => None
  | Return payload => Some (Json.member "url" payload)
  end.

(** A record and its projection carry the same seven values. *)
Definition copiedVerbatim (f : VideoInfoRoute.Format) (v : VideoFormat) : Prop :=
  vf_format_id v = VideoInfoRoute.format_id f
  /\ vf_format_note v = VideoInfoRoute.format_note f
  /\ vf_ext v = VideoInfoRoute.ext f
  /\ vf_resolution v = VideoInfoRoute.resolution f
  /\ vf_fps v = VideoInfoRoute.fps f
  /\ vf_filesize v = VideoInfoRoute.filesize f
  /\ vf_filesize_approx v = VideoInfoRoute.filesize_approx f.

(** The values [!v] holds of: a member that is missing, [null], [false],
    a number that is zero or not a number, and the empty string. *)
Inductive falsy : Js.value -> Prop :=
| falsy_missing : falsy Js.Undefined
| falsy_null : falsy Js.Null
| falsy_false : falsy (Js.Bool false)
| falsy_zero n : PrimFloat.eqb n 0%float = true -> falsy (Js.Num n)
| falsy_nan n : PrimFloat.is_nan n = true -> falsy (Js.Num n)
| falsy_empty : falsy (Js.Str "").

(** A track of an element of the tool's list is present when the codec
    member is not the string ["none"]. *)
Definition present (codec : string) (f : Js.value) : Prop :=
  Json.member codec f <> Js.Str "none".

(** A resolution member mentions [s]: it is a string that contains [s], or
    an array with the string [s] among its elements. *)
Definition mentions (s : string) (resolution : Js.value) : Prop :=
  (exists tag, resolution = Js.Str tag /\ Policy.occursIn s tag)
  \/ (exists items, resolution = Js.Arr items /\ In (Js.Str s) items).

(** The inclusion policy on an element of the tool's list. *)
Definition survives (f : Js.value) : Prop :=
  (present "vcodec" f /\ present "acodec" f)
  \/ (present "vcodec" f
      /\ Json.member "acodec" f = Js.Str "none"
      /\ (mentions "1920x1080" (Json.member "resolution" f)
          \/ mentions "2560x1440" (Json.member "resolution" f)
          \/ mentions "3840x2160" (Json.member "resolution" f))).

(** [kept] is [items] without the elements that do not survive, in the
    same order. *)
Inductive selected : list Js.value -> list Js.value -> Prop :=
| selected_nil : selected [] []
| selected_keep f items kept :
    survives f -> selected items kept -> selected (f :: items) (f :: kept)
| selected_drop f items kept :
    ~ survives f -> selected items kept -> selected (f :: items) kept.

(** The record returned for an element: its seven members of these names,
    as they are, and nothing else. *)
Definition projection (f : Js.value) : Js.value :=
  Js.Obj [("format_id", Json.member "format_id" f);
          ("format_note", Json.member "format_note" f);
          ("ext", Json.member "ext" f);
          ("resolution", Json.member "resolution" f);
          ("fps", Json.member "fps" f);
          ("filesize", Json.member "filesize" f);
          ("filesize_approx", Json.member "filesize_approx" f)].

End Wire.


(** ** Vocabulary for traces of a download session *)

Module Traces.

Import DownloadRoute.

Definition isRead (a : Action) : bool :=
  match a with ClientRead => true | _ => false end.

(** Stdout is producing and the client is reading; nothing else happens. *)
Definition isDataOrRead (a : Action) : bool :=
  match a with StdoutData _ | ClientRead => true | _ => false end.

(** The chunks stdout emitted along a trace, in the order of emission. *)
Fixpoint chunks (trace : list Action) : list Stream.Chunk :=
  match trace with
  | [] => []
  | StdoutData chunk :: rest => chunk :: chunks rest
  | _ :: rest => chunks rest
  end.

(** A stream that is not readable has nothing queued. *)
Definition drained (c : Stream.Controller) : Prop :=
  Stream.isReadable c = false -> Stream.queue c = [].

(** [close] was requested: the stream is closed and empty, or still
    readable with chunks left to read. *)
Definition closing (c : Stream.Controller) : Prop :=
  Stream.closeRequested c = true
  /\ ((Stream.state c = Stream.Closed /\ Stream.queue c = [])
      \/ (Stream.state c = Stream.Readable /\ Stream.queue c <> [])).

(** Stdout is attached and has not ended or failed. *)
Definition flowing (s : Session) : Prop :=
  listening (world s) = true
  /\ Stream.state (controller s) = Stream.Readable
  /\ Stream.closeRequested (controller s) = false.

(** The bytes of a sequence of chunks. *)
Definition bytes (cs : list Stream.Chunk) : list Byte.byte := concat cs.

End Traces.


(** ** More vocabulary for traces *)

Module Events.

Import DownloadRoute.

(** A stdout event whose listener calls [enqueue] or [close]. *)
Definition feeds (a : Action) : bool :=
  match a with StdoutData _ | StdoutEnd => true | _ => false end.

Definition countFeeds (trace : list Action) : nat :=
  length (List.filter feeds trace).

(** Anything but the end of stdout and a cancel by the client. *)
Definition keepsOpen (a : Action) : bool :=
  match a with StdoutEnd | ClientCancel => false | _ => true end.

(** The stream takes no more chunks: [close] was requested or the stream is
    closed or errored. *)
Definition sealed (s : Session) : Prop :=
  Stream.canCloseOrEnqueue (controller s) = false.

End Events.


(** ** Reading effect logs and headers *)

Module Logs.

(** The invocations of the tool in a log of the resolve handler. *)
Definition invocations (log : list VideoInfoRoute.Effect)
  : list VideoInfoRoute.Invocation :=
  omap (fun e => match e with
                 | VideoInfoRoute.YtDlp call => Some call
                 | VideoInfoRoute.ConsoleError _ _ => None
                 end) log.

(** What the resolve handler printed with [console.error]. *)
Definition printed (log : list VideoInfoRoute.Effect)
  : list (string * Js.thrown) :=
  omap (fun e => match e with
                 | VideoInfoRoute.YtDlp _ => None
                 | VideoInfoRoute.ConsoleError label error => Some (label, error)
                 end) log.

(** The spawns in a log of the download handler. *)
Definition spawns (log : list DownloadRoute.Effect)
  : list (string * DownloadRoute.ExecOptions) :=
  omap (fun e => match e with
                 | DownloadRoute.Exec url options => Some (url, options)
                 | DownloadRoute.ConsoleError _ _ => None
                 end) log.

(** [headers.get(name)]. *)
Fixpoint headersGet (name : string) (h : Headers) : option string :=
  match h with
  | [] => None
  | (n, v) :: rest => if String.eqb n name then Some v else headersGet name rest
  end.

(** The six flags of the resolver's invocation are all on. *)
Definition allFlagsOn (f : VideoInfoRoute.Flags) : Prop :=
  VideoInfoRoute.dumpSingleJson f = true
  /\ VideoInfoRoute.noWarnings f = true
  /\ VideoInfoRoute.noCallHome f = true
  /\ VideoInfoRoute.noCheckCertificate f = true
  /\ VideoInfoRoute.preferFreeFormats f = true
  /\ VideoInfoRoute.youtubeSkipDashManifest f = true.

End Logs.


(** ** The component of [app/page.tsx] *)

Module Home.

(** The five [useState] cells.  [videoDetails] is declared
    [VideoDetails | null]; what it holds after a fetch is the value the
    answer's body parsed to, whatever that is. *)
Record State := {
  url : string;
  videoDetails : Js.value;
  isLoading : bool;
  error : option string;
  downloadingMessage : option string
}.

Definition initial : State :=
  {| url := "";
     videoDetails := Js.Null;
     isLoading := false;
     error := None;
     downloadingMessage := None |}.

Definition setUrl (v : string) (st : State) : State :=
  {| url := v;
     videoDetails := videoDetails st;
     isLoading := isLoading st;
     error := error st;
     downloadingMessage := downloadingMessage st |}.

Definition setVideoDetails (v : Js.value) (st : State) : State :=
  {| url := url st;
     videoDetails := v;
     isLoading := isLoading st;
     error := error st;
     downloadingMessage := downloadingMessage st |}.

Definition setIsLoading (v : bool) (st : State) : State :=
  {| url := url st;
     videoDetails := videoDetails st;
     isLoading := v;
     error := error st;
     downloadingMessage := downloadingMessage st |}.

Definition setError (v : option string) (st : State) : State :=
  {| url := url st;
     videoDetails := videoDetails st;
     isLoading := isLoading st;
     error := v;
     downloadingMessage := downloadingMessage st |}.

Definition setDownloadingMessage (v : option string) (st : State) : State :=
  {| url := url st;
     videoDetails := videoDetails st;
     isLoading := isLoading st;
     error := error st;
     downloadingMessage := v |}.

(** *** [formatFileSize], lines 36-45 *)

(** The text returned: ["N/A"], ["0 Bytes"], or the text lines 41-44
    compute from the number with [Math.log], [Math.pow] and [toFixed],
    which is kept as the number it is computed from. *)
Inductive SizeText :=
| NotAvailable
| ZeroBytes
| Scaled (bytes : Js.number).

Definition formatFileSize (bytes : option Js.number) : SizeText :=
  match bytes with
  | None => NotAvailable
  | Some b => if PrimFloat.eqb b 0%float then ZeroBytes else Scaled b
  end.

(** *** The url test of line 57 *)

Definition lineFeed : string := String (Ascii.ascii_of_nat 10) "".
Definition carriageReturn : string := String (Ascii.ascii_of_nat 13) "".

(** U+2028 and U+2029, as UTF-8. *)
Definition lineSeparator : string :=
  String (Ascii.ascii_of_nat 226)
    (String (Ascii.ascii_of_nat 128) (String (Ascii.ascii_of_nat 168) "")).
Definition paragraphSeparator : string :=
  String (Ascii.ascii_of_nat 226)
    (String (Ascii.ascii_of_nat 128) (String (Ascii.ascii_of_nat 169) "")).

Definition hasLineTerminator (s : string) : bool :=
  Js.includes s lineFeed || Js.includes s carriageReturn
  || Js.includes s lineSeparator || Js.includes s paragraphSeparator.

(** [.+$]: one character or more, none of them a line terminator, up to
    the end of the input. *)
Definition anyToEnd (s : string) : bool :=
  negb (Js.isEmpty s) && negb (hasLineTerminator s).

(** [s] without its prefix [prefix], when it has that prefix. *)
Fixpoint dropPrefix (prefix s : string) {struct prefix} : option string :=
  match prefix with
  | EmptyString => Some s
  | String a prefix' =>
      match s with
      | EmptyString => None
      | String b s' => if Ascii.eqb a b then dropPrefix prefix' s' else None
      end
  end.

(** [(https?:\/\/)?], [(www\.)?] and [(youtube\.com|youtu\.?be)]: the
    strings each group can match. *)
Definition schemes : list string := ["https://"; "http://"; ""].
Definition wwws : list string := ["www."; ""].
Definition hosts : list string := ["youtube.com"; "youtu.be"; "youtube"].

(** What the pattern can match up to and including the [\/]. *)
Definition heads : list string :=
  flat_map (fun scheme =>
    flat_map (fun www =>
      List.map (fun host => scheme +:+ www +:+ host +:+ "/") hosts)
      wwws)
    schemes.

(** [/^(https?:\/\/)?(www\.)?(youtube\.com|youtu\.?be)\/.+$/.test(url)]. *)
Definition isYoutubeUrl (url : string) : bool :=
  existsb (fun head =>
             match dropPrefix head url with
             | Some rest => anyToEnd rest
             | None => false
             end)
    heads.

(** *** [handleFetchDetails], lines 48-87 *)

(** What [fetch] resolves with: [response.ok], and what
    [await response.json()] completes with (it rejects when the body is no
    JSON). *)
Record FetchResponse := {
  ok : bool;
  json : completion Js.value
}.

Inductive Effect :=
| Fetch (path : string) (body : Js.value)
| Navigate (href : string) (download : string)
| SetTimeout (milliseconds : Z).

(** The page's surroundings: the network, that is what
    [await fetch(path, { method: "POST", body })] completes with, [body]
    being the value the JSON text denotes; and the engine's [ToString] on a
    value that is not a string, which the page does not compute itself and
    which can throw. *)
Record Env := {
  fetch : string -> Js.value -> completion FetchResponse;
  toString : Js.value -> completion string
}.

(** [a || b] on strings. *)
Definition orString (a b : string) : string :=
  if Js.isEmpty a then b else a.

(** [a || b]. *)
Definition orValue (a b : Js.value) : Js.value :=
  if Js.truthy a then a else b.

(** [a || b] on numbers that may be missing. *)
Definition orNumber (a b : option Js.number) : option Js.number :=
  if Js.truthyOptNumber a then a else b.

(** [new Error(message)]: the message is [message] as a string. *)
Definition newError (env : Env) (message : Js.value) : completion Js.thrown :=
  match message with
  | Js.Str text => Return (Js.ErrorObject text)
  | _ => text ← toString env message; Return (Js.ErrorObject text)
  end.

Definition handleFetchDetails (env : Env) (st : State) : M Effect State :=
  let st := setVideoDetails Js.Null st in
  let st := setError None st in
  let st := setDownloadingMessage None st in
  if Js.isEmpty (url st) || negb (isYoutubeUrl (url st)) then
    mret (setError (Some "Please enter a valid YouTube URL.") st)
  else
    let st := setIsLoading true st in
    st ← tryCatch
           (emit (Fetch "/api/video-info" (Js.Obj [("url", Js.Str (url st))]));;
            response ← lift (fetch env "/api/video-info"
                               (Js.Obj [("url", Js.Str (url st))]));
            if negb (ok response) then
              errorData ← lift (json response);
              error ← lift (Json.property "error" errorData);
              err ← lift (newError env
                            (orValue error
                               (Js.Str "Failed to fetch video details.")));
              throw err
            else
              data ← lift (json response);
              mret (setVideoDetails data st))
           (fun err =>
              let st :=
                setError (Some (match err with
                                | Js.ErrorObject message => message
                                | Js.NonError _ => "An unknown error occurred."
                                end)) st in
              mret (setVideoDetails Js.Null st));
    mret (setIsLoading false st).

(** *** The table, lines 195-226 *)

(** One row: its key, the three cells, and the arguments its button gives
    to [handleDownload]. *)
Record Row := {
  key : string;
  quality : string;
  fpsCell : option Js.number;
  sizeCell : SizeText;
  onClick : string * string * string
}.

(** The FPS cell is [format.fps || "N/A"]: [None] stands for ["N/A"]. *)
Definition row (format : VideoFormat) : Row :=
  {| key := vf_format_id format;
     quality := orString (vf_format_note format) (vf_resolution format);
     fpsCell := if Js.truthyOptNumber (vf_fps format) then vf_fps format
                else None;
     sizeCell := formatFileSize
                   (orNumber (vf_filesize format) (vf_filesize_approx format));
     onClick := (vf_format_id format, vf_ext format,
                 orString (vf_format_note format) (vf_resolution format)) |}.

Definition table (details : VideoDetails) : list Row :=
  List.map row (Page.tableRows details).

End Home.


(** ** The page's requests to the resolve handler *)

Module Network.

(** A number through [JSON.stringify] and [JSON.parse]: [NaN] and the
    infinities come back as [null], [-0] as [0], any other number as it
    was. *)
Definition numberThroughJson (n : Js.number) : Js.value :=
  if PrimFloat.is_nan n || PrimFloat.is_infinity n then Js.Null
  else Js.Num (if PrimFloat.eqb n 0%float then 0%float else n).

(** A value through [JSON.stringify] and [JSON.parse]: a member that is
    [undefined] is left out, an element that is [undefined] comes back as
    [null], numbers as above, everything else as it was.  (An object has
    each of its names once; of a repeated key of the list the last
    occurrence counts, as in [Js.lookupMember].) *)
Fixpoint throughJson (v : Js.value) : Js.value :=
  match v with
  | Js.Undefined | Js.Null => Js.Null
  | Js.Bool b => Js.Bool b
  | Js.Num n => numberThroughJson n
  | Js.Str s => Js.Str s
  | Js.Arr items => Js.Arr (List.map throughJson items)
  | Js.Obj members =>
      Js.Obj
        ((fix through (members : list (string * Js.value)) :=
            match members with
            | [] => []
            | (name, w) :: rest =>
                match Js.lookupMember name rest, w with
                | Some _, _ | None, Js.Undefined => through rest
                | None, _ => (name, throughJson w) :: through rest
                end
            end) members)
  end.

(** The object [NextResponse.json] is given. *)
Definition bodyValue (b : VideoInfoRoute.Body) : Js.value :=
  match b with
  | VideoInfoRoute.ErrorJson text => Js.Obj [("error", Js.Str text)]
  | VideoInfoRoute.DetailsJson details =>
      Js.Obj [("id", VideoInfoRoute.d_id details);
              ("title", VideoInfoRoute.d_title details);
              ("thumbnail", VideoInfoRoute.d_thumbnail details);
              ("formats", Js.Arr (VideoInfoRoute.d_formats details))]
  end.

(** [response.ok]: the status is in the range 200-299. *)
Definition okStatus (st : Z) : bool := (200 <=? st)%Z && (st <=? 299)%Z.

(** An answer of the resolve handler as the page receives it. *)
Definition received (r : Response VideoInfoRoute.Body) : Home.FetchResponse :=
  {| Home.ok := okStatus (status r);
     Home.json := Return (throughJson (bodyValue (body r))) |}.

(** The page's [fetch] of [/api/video-info] is answered by the resolve
    handler running over [backend]. *)
Definition reaches (env : Home.Env) (backend : VideoInfoRoute.Env) : Prop :=
  forall payload response log,
    run (VideoInfoRoute.POST backend {| VideoInfoRoute.json := Return payload |})
    = (Return response, log) ->
    Home.fetch env "/api/video-info" payload = Return (received response).

(** An engine whose [ToString] throws on every value that is no string;
    the samples below never get that far. *)
Definition noToString (v : Js.value) : completion string :=
  Throw (Js.TypeError "Cannot convert object to primitive value").

(** A network that hands every request to the resolve handler over
    [backend]. *)
Definition over (backend : VideoInfoRoute.Env) : Home.Env :=
  {| Home.fetch := fun _ payload =>
       match fst (run (VideoInfoRoute.POST backend
                         {| VideoInfoRoute.json := Return payload |})) with
       | Return response => Return (received response)
       | Throw e => Throw e
       end;
     Home.toString := noToString |}.

(** A network whose answer is ok with the body [null]. *)
Definition answeringNull : Home.Env :=
  {| Home.fetch := fun _ _ =>
       Return {| Home.ok := true; Home.json := Return Js.Null |};
     Home.toString := noToString |}.

(** What the page shows for a failure the resolve handler answered 500
    for. *)
Definition shownFor (thrown : Js.thrown) : string :=
  match thrown with
  | Js.ErrorObject message => Home.orString message "Failed to fetch video details."
  | Js.NonError _ => VideoInfoRoute.fallbackMessage
  end.

(** The page with a url typed in. *)
Definition typed (url : string) : Home.State := Home.setUrl url Home.initial.

End Network.


(** ** Sample inputs for the page *)

Module PageSamples.

(** What the resolve handler answers for [Samples.sampleInfo]. *)
Definition sampleDetails : VideoDetails :=
  {| vd_id := VideoInfoRoute.id Samples.sampleInfo;
     vd_title := VideoInfoRoute.title Samples.sampleInfo;
     vd_thumbnail := VideoInfoRoute.thumbnail Samples.sampleInfo;
     vd_formats :=
       VideoInfoRoute.filteredFormats
         (VideoInfoRoute.formats Samples.sampleInfo) |}.

(** The page after a successful fetch for [Samples.watchUrl]. *)
Definition loaded : Home.State :=
  {| Home.url := Samples.watchUrl;
     Home.videoDetails :=
       Network.throughJson
         (Network.bodyValue
            (VideoInfoRoute.DetailsJson Samples.sampleDescriptor));
     Home.isLoading := false;
     Home.error := None;
     Home.downloadingMessage := None |}.

(** A url the page's test accepts that ends in a surrogate code unit
    without its pair. *)
Definition unpairedUrl : string :=
  "https://youtu.be/"
  +:+ String (Ascii.ascii_of_nat 237)
        (String (Ascii.ascii_of_nat 160) (String (Ascii.ascii_of_nat 128) "")).

(** The page with details and that url in the box. *)
Definition loadedUnpaired : Home.State := Home.setUrl unpairedUrl loaded.

(** The page after an answer that was ok with a descriptor that has no
    title. *)
Definition loadedUntitled : Home.State :=
  Home.setVideoDetails
    (Js.Obj [("id", Js.Str "dQw4w9WgXcQ"); ("formats", Js.Arr [])]) loaded.

End PageSamples.


(** ** Percent-encoding: [encodeURIComponent] and the query parser *)

Module Uri.

Definition between (lo hi : nat) (c : ascii) : bool :=
  (lo <=? Ascii.nat_of_ascii c) && (Ascii.nat_of_ascii c <=? hi).

Definition isDigit (c : ascii) : bool := between 48 57 c.
Definition isUpper (c : ascii) : bool := between 65 90 c.
Definition isLower (c : ascii) : bool := between 97 122 c.
Definition isAlnum (c : ascii) : bool := isLower c || isUpper c || isDigit c.

(** The characters [encodeURIComponent] leaves as they are: letters,
    digits and [- _ . ! ~ * ' ( )]. *)
Definition isUnreserved (c : ascii) : bool :=
  isAlnum c
  || existsb (Ascii.eqb c) (String.list_ascii_of_string "-_.!~*'()").

Definition hexDigit (n : nat) : ascii :=
  nth n (String.list_ascii_of_string "0123456789ABCDEF") "0"%char.

(** [%XX], in upper case. *)
Definition escape (c : ascii) : string :=
  String "%"
    (String (hexDigit (Ascii.nat_of_ascii c / 16))
       (String (hexDigit (Ascii.nat_of_ascii c mod 16)) "")).

(** The text [encodeURIComponent(s)] returns: every byte of the UTF-8
    form of [s] that is not unreserved is escaped.  The call itself, which
    throws on a string that has no UTF-8 form, is [encode] below. *)
Fixpoint encodeURIComponent (s : string) : string :=
  match s with
  | EmptyString => ""
  | String c rest =>
      (if isUnreserved c then String c "" else escape c)
      +:+ encodeURIComponent rest
  end.

(** A string is kept as the bytes of its UTF-8 form.  A surrogate code
    unit that is not part of a pair has no UTF-8 form; it is kept as the
    three bytes the same scheme gives its code point, [ED A0..BF 80..BF],
    which no character has.  [hasLoneSurrogate] goes through the
    characters of [s] by the length their first byte announces. *)
Fixpoint hasLoneSurrogate (s : string) : bool :=
  match s with
  | EmptyString => false
  | String c rest =>
      if Ascii.nat_of_ascii c <? 128 then hasLoneSurrogate rest
      else if Ascii.nat_of_ascii c <? 224 then
        match rest with
        | String _ rest' => hasLoneSurrogate rest'
        | EmptyString => false
        end
      else if Ascii.nat_of_ascii c <? 240 then
        match rest with
        | String b1 (String _ rest') =>
            ((Ascii.nat_of_ascii c =? 237) && (160 <=? Ascii.nat_of_ascii b1))
            || hasLoneSurrogate rest'
        | _ => false
        end
      else
        match rest with
        | String _ (String _ (String _ rest')) => hasLoneSurrogate rest'
        | _ => false
        end
  end.

(** The call [encodeURIComponent(s)]: it throws a [URIError] when [s] has
    a lone surrogate. *)
Definition encode (s : string) : completion string :=
  if hasLoneSurrogate s then Throw (Js.URIError "URI malformed")
  else Return (encodeURIComponent s).

Definition hexValue (c : ascii) : option nat :=
  if isDigit c then Some (Ascii.nat_of_ascii c - 48)
  else if between 65 70 c then Some (Ascii.nat_of_ascii c - 55)
  else if between 97 102 c then Some (Ascii.nat_of_ascii c - 87)
  else None.

(** Percent-decoding: [%] followed by two hexadecimal digits is the byte
    they denote; any other [%] stands for itself. *)
Fixpoint percentDecode (s : string) : string :=
  match s with
  | EmptyString => ""
  | String c rest =>
      if Ascii.eqb c "%" then
        match rest with
        | String h1 (String h2 rest') =>
            match hexValue h1, hexValue h2 with
            | Some a, Some b =>
                String (Ascii.ascii_of_nat (16 * a + b)) (percentDecode rest')
            | _, _ => String c (percentDecode rest)
            end
        | _ => String c (percentDecode rest)
        end
      else String c (percentDecode rest)
  end.



Fixpoint plusToSpace (s : string) : string :=
  match s with
  | EmptyString => ""
  | String c rest =>
      String (if Ascii.eqb c "+" then " "%char else c) (plusToSpace rest)
  end.


(** [sep] does not occur in [s]. *)
Fixpoint lacks (sep : ascii) (s : string) : bool :=
  match s with
  | EmptyString => true
  | String c rest => negb (Ascii.eqb c sep) && lacks sep rest
  end.

(** What [encodeURIComponent] can produce: unreserved characters and the
    [%] of an escape (the digits of an escape are unreserved). *)
Definition isSafe (c : ascii) : bool := isUnreserved c || Ascii.eqb c "%".

Fixpoint allSafe (s : string) : bool :=
  match s with
  | EmptyString => true
  | String c rest => isSafe c && allSafe rest
  end.



End Uri.


(** ** [handleDownload], lines 90-133 of [app/page.tsx] *)

Module HomeDownload.

Import Home.

(** The ASCII characters [\s] matches: tab, line feed, vertical tab, form
    feed, carriage return and space. *)
Definition isAsciiSpace (c : ascii) : bool :=
  Uri.between 9 13 c || Ascii.eqb c " ".

(** The ASCII characters the class [[a-zA-Z0-9\s]] matches. *)
Definition keptAscii (c : ascii) : bool := Uri.isAlnum c || isAsciiSpace c.

(** The other characters [\s] matches, as UTF-8: U+00A0 in two bytes, and
    U+1680, U+2000 to U+200A, U+2028, U+2029, U+202F, U+205F, U+3000 and
    U+FEFF in three. *)
Definition isSpace2 (c b : ascii) : bool :=
  (Ascii.nat_of_ascii c =? 194) && (Ascii.nat_of_ascii b =? 160).

Definition isSpace3 (c b1 b2 : ascii) : bool :=
  let c := Ascii.nat_of_ascii c in
  let b1 := Ascii.nat_of_ascii b1 in
  let b2 := Ascii.nat_of_ascii b2 in
  ((c =? 225) && (b1 =? 154) && (b2 =? 128))
  || ((c =? 226) && (b1 =? 128)
      && (((128 <=? b2) && (b2 <=? 138))
          || (b2 =? 168) || (b2 =? 169) || (b2 =? 175)))
  || ((c =? 226) && (b1 =? 129) && (b2 =? 159))
  || ((c =? 227) && (b1 =? 128) && (b2 =? 128))
  || ((c =? 239) && (b1 =? 187) && (b2 =? 191)).

(** [title.replace(/[^a-zA-Z0-9\s]/g, "")] on the UTF-8 form of a title:
    a character of one byte stays when the class matches it; a character
    of two or three bytes stays when it is one of the spaces above; a
    character of four bytes, two code units to the pattern, goes. *)
Fixpoint sanitize (s : string) : string :=
  match s with
  | EmptyString => ""
  | String c rest =>
      if Ascii.nat_of_ascii c <? 128 then
        if keptAscii c then String c (sanitize rest) else sanitize rest
      else if Ascii.nat_of_ascii c <? 224 then
        match rest with
        | String b rest' =>
            if isSpace2 c b then String c (String b (sanitize rest'))
            else sanitize rest'
        | EmptyString => ""
        end
      else if Ascii.nat_of_ascii c <? 240 then
        match rest with
        | String b1 (String b2 rest') =>
            if isSpace3 c b1 b2 then
              String c (String b1 (String b2 (sanitize rest')))
            else sanitize rest'
        | _ => ""
        end
      else
        match rest with
        | String _ (String _ (String _ rest')) => sanitize rest'
        | _ => ""
        end
  end.

(** The address the anchor is given, lines 102-104, for a url that
    [encodeURIComponent] accepts. *)
Definition downloadUrl (url formatId : string) : string :=
  "/api/download?url=" +:+ Uri.encodeURIComponent url
  +:+ "&formatId=" +:+ formatId.

(** Lines 102-104: building the address throws when the url has a lone
    surrogate. *)
Definition buildDownloadUrl (url formatId : string) : completion string :=
  encoded ← Uri.encode url;
  Return ("/api/download?url=" +:+ encoded +:+ "&formatId=" +:+ formatId).

(** [v.replace(/[^a-zA-Z0-9\s]/g, "")]: a string has the method; reading
    it off [undefined] or [null] throws, and so does calling it on a value
    of another type, which has no such method. *)
Definition replaceOutsideClass (v : Js.value) : completion string :=
  match v with
  | Js.Str title => Return (sanitize title)
  | Js.Undefined | Js.Null =>
      Throw (Js.TypeError "Cannot read properties of undefined")
  | _ => Throw (Js.TypeError "replace is not a function")
  end.

(** The file name the anchor suggests, lines 111-114. *)
Definition buildDownloadName (videoDetails : Js.value) (ext : string)
  : completion string :=
  title ← Json.property "title" videoDetails;
  stem ← replaceOutsideClass title;
  Return (stem +:+ "." +:+ ext).

Definition handleDownload (formatId ext formatNote : string) (st : State)
  : M Effect State :=
  if negb (Js.truthy (videoDetails st)) then mret st
  else
    let st :=
      setDownloadingMessage
        (Some ("Downloading: " +:+ formatNote +:+ "... Please wait.")) st in
    let st := setError None st in
    tryCatch
      (href ← lift (buildDownloadUrl (url st) formatId);
       download ← lift (buildDownloadName (videoDetails st) ext);
       emit (Navigate href download);;
       emit (SetTimeout 2000);;
       mret st)
      (fun err =>
         let st :=
           setError (Some (match err with
                           | Js.ErrorObject message => message
                           | Js.NonError _ =>
                               "Download failed. Please try again."
                           end)) st in
         mret (setDownloadingMessage None st)).

(** The callback of the timer, lines 120-124. *)
Definition onTimeout (st : State) : State :=
  setDownloadingMessage
    (Some "Download started! Check your browser downloads.") st.

(** No ASCII character of [s] is outside the class. *)
Definition asciiClean (s : string) : Prop :=
  Forall (fun c => Ascii.nat_of_ascii c < 128 -> keptAscii c = true)
    (String.list_ascii_of_string s).

End HomeDownload.


(** * Properties *)

(** ** Strings *)

Section Strings.

Lemma append_cons (x : ascii) (a b : string) :
  String x a +:+ b = String x (a +:+ b).
Proof. reflexivity. Qed.

Lemma append_nil (b : string) : "" +:+ b = b.
Proof. reflexivity. Qed.

Lemma append_empty_r (a : string) : a +:+ "" = a.
Proof.
  induction a as [|x a IH]; [reflexivity|]. now rewrite append_cons, IH.
Qed.

Lemma length_append (a b : string) :
  String.length (a +:+ b) = String.length a + String.length b.
Proof.
  induction a as [|x a IH]; [reflexivity|].
  rewrite append_cons. cbn [String.length]. now rewrite IH.
Qed.

Lemma append_inj_r (a b c : string) : a +:+ c = b +:+ c -> a = b.
Proof.
  intros H.
  assert (L : String.length a = String.length b).
  { apply (f_equal String.length) in H.
    rewrite !length_append in H. lia. }
  revert b H L. induction a as [|x a IH]; intros [|y b] H L;
    cbn [String.length] in L; try discriminate; [reflexivity|].
  rewrite !append_cons in H. injection H as -> H.
  f_equal. apply IH; [assumption | lia].
Qed.

Lemma startsWith_spec (hay needle : string) :
  Js.startsWith hay needle = true <-> exists after, hay = needle +:+ after.
Proof.
  revert hay.
  induction needle as [|x needle IH]; intros hay; cbn [Js.startsWith].
  - split; [intros _; now exists hay | reflexivity].
  - destruct hay as [|y hay].
    + split; [discriminate | intros [after H]; discriminate].
    + rewrite andb_true_iff, Ascii.eqb_eq, IH. split.
      * intros [-> [after H]]. exists after. now rewrite append_cons, H.
      * intros [after H]. rewrite append_cons in H. injection H as -> H.
        split; [reflexivity | now exists after].
Qed.

Lemma includes_spec (hay needle : string) :
  Js.includes hay needle = true <-> Policy.occursIn needle hay.
Proof.
  unfold Policy.occursIn. induction hay as [|c hay IH].
  - cbn [Js.includes]. rewrite orb_false_r, startsWith_spec. split.
    + intros [after H]. now exists "", after.
    + intros [[|x before] [after H]]; [now exists after | discriminate].
  - cbn [Js.includes]. rewrite orb_true_iff, startsWith_spec, IH. split.
    + intros [[after H] | (before & after & H)].
      * now exists "", after.
      * exists (String c before), after. now rewrite append_cons, H.
    + intros [[|x before] [after H]].
      * left. now exists after.
      * right. rewrite append_cons in H. injection H as _ H.
        now exists before, after.
Qed.

Lemma isEmpty_spec (s : string) : Js.isEmpty s = true <-> s = "".
Proof. unfold Js.isEmpty. apply String.eqb_eq. Qed.

Lemma isEmpty_false (s : string) : Js.isEmpty s = false <-> s <> "".
Proof. unfold Js.isEmpty. apply String.eqb_neq. Qed.

End Strings.

(** ** The resolver's filter and projection *)

Section Resolver.

Import VideoInfoRoute Policy.

Lemma keep_policy (f : Format) : keep f = true <-> policy f.
Proof.
  unfold keep, policy, combined, videoOnly, hasVideo, hasAudio, mentionsHighRes.
  rewrite !orb_true_iff, !andb_true_iff, !negb_true_iff, !orb_true_iff.
  rewrite !String.eqb_neq, String.eqb_eq, !includes_spec. tauto.
Qed.

Lemma policy_dec (f : Format) : policy f \/ ~ policy f.
Proof.
  destruct (keep f) eqn:K.
  - left. now apply keep_policy.
  - right. intros P. apply keep_policy in P. congruence.
Qed.

Lemma filteredFormats_app (a b : list Format) :
  filteredFormats (a ++ b) = filteredFormats a ++ filteredFormats b.
Proof. unfold filteredFormats. now rewrite List.filter_app, List.map_app. Qed.

Lemma filteredFormats_cons (f : Format) (fs : list Format) :
  filteredFormats (f :: fs) =
  (if keep f then [project f] else []) ++ filteredFormats fs.
Proof. unfold filteredFormats. cbn [List.filter]. now destruct (keep f). Qed.

Lemma filter_sublist {A} (p : A -> bool) (l : list A) :
  List.filter p l `sublist_of` l.
Proof.
  induction l as [|x l IH]; cbn [List.filter].
  - constructor.
  - destruct (p x); now constructor.
Qed.

(** Changing the size fields only does not change the filter's answer. *)
Lemma keep_withSizes (exact approx : option Js.number) (f : Format) :
  keep (withSizes exact approx f) = keep f.
Proof. reflexivity. Qed.

(** C1, as the code has it: a record of the tool's list contributes its
    projection to the returned list, at its place, exactly when it is
    combined (both codecs present), or video-only with a resolution tag that
    contains one of 1920x1080, 2560x1440, 3840x2160; every other record
    (audio-only, other video-only, no track at all) contributes nothing. *)
Theorem resolver_inclusion_policy (pre post : list Format) (f : Format) :
  (policy f ->
   filteredFormats (pre ++ f :: post) =
   filteredFormats pre ++ project f :: filteredFormats post) /\
  (~ policy f ->
   filteredFormats (pre ++ f :: post) =
   filteredFormats pre ++ filteredFormats post).
Proof.
  rewrite filteredFormats_app, filteredFormats_cons.
  split; intros P.
  - apply keep_policy in P. now rewrite P.
  - destruct (keep f) eqn:K; [|reflexivity].
    apply keep_policy in K. contradiction.
Qed.

Lemma resolver_inclusion_policy_witness :
  (policy Samples.videoOnly1080 /\
   filteredFormats ([Samples.audioOnly] ++ Samples.videoOnly1080 :: [Samples.combined360]) =
   filteredFormats [Samples.audioOnly]
   ++ project Samples.videoOnly1080 :: filteredFormats [Samples.combined360])
  /\
  (~ policy Samples.audioOnly /\
   filteredFormats ([Samples.combined360] ++ Samples.audioOnly :: [Samples.videoOnly1080]) =
   filteredFormats [Samples.combined360] ++ filteredFormats [Samples.videoOnly1080]).
Proof.
  assert (P : policy Samples.videoOnly1080).
  { right. split; [split; [discriminate | reflexivity]|].
    left. now exists "", "". }
  assert (N : ~ policy Samples.audioOnly).
  { intros [[V _] | [[V _] _]]; now apply V. }
  split; split; try assumption.
  - now apply (resolver_inclusion_policy [Samples.audioOnly] [Samples.combined360]
                 Samples.videoOnly1080).
  - now apply (resolver_inclusion_policy [Samples.combined360] [Samples.videoOnly1080]
                 Samples.audioOnly).
Defined.

(** C1 as stated fails: a video-only record whose resolution tag merely
    contains 1920x1080 is returned, although the tag is none of the three
    allowlisted values. *)
Lemma resolver_exact_allowlist_counterexample :
  filteredFormats [Samples.videoOnlyTagged] = [project Samples.videoOnlyTagged]
  /\ ~ claimedPolicy Samples.videoOnlyTagged.
Proof.
  split; [reflexivity|].
  intros [[_ A] | [_ [R | [R | R]]]]; [now apply A | | |]; discriminate R.
Qed.

(** C10: the filter's answer is a function of the video codec, the audio
    codec and the resolution tag alone: two records that agree on these
    three are both returned or both left out, whatever their other fields. *)
Theorem keep_depends_on_codecs_and_resolution (f g : Format) :
  vcodec f = vcodec g ->
  acodec f = acodec g ->
  resolution f = resolution g ->
  keep f = keep g
  /\ (filteredFormats [f] = [project f] <-> filteredFormats [g] = [project g])
  /\ (filteredFormats [f] = [] <-> filteredFormats [g] = []).
Proof.
  intros V A R.
  assert (K : keep f = keep g) by (unfold keep; now rewrite V, A, R).
  split; [exact K|].
  rewrite !(filteredFormats_cons _ []), K.
  destruct (keep g); cbn; split; split; intros H;
    reflexivity || discriminate H.
Qed.

Lemma keep_depends_on_codecs_and_resolution_witness :
  keep Samples.videoOnly1080 = keep Samples.videoOnly1080'
  /\ (filteredFormats [Samples.videoOnly1080] = [project Samples.videoOnly1080]
      <-> filteredFormats [Samples.videoOnly1080'] = [project Samples.videoOnly1080'])
  /\ (filteredFormats [Samples.videoOnly1080] = []
      <-> filteredFormats [Samples.videoOnly1080'] = []).
Proof.
  apply (keep_depends_on_codecs_and_resolution
           Samples.videoOnly1080 Samples.videoOnly1080'); reflexivity.
Defined.

End Resolver.

(** ** The resolve handler *)

Section ResolveHandler.

Import VideoInfoRoute Policy.

Ltac unfold_handler :=
  unfold run, tryCatch, mbind, M_bind, bind, lift, emit, mret, M_ret, ret.

(** The handler, one outcome per path through it. *)
Lemma POST_run (env : Env) (request : Request) :
  run (POST env request) =
  match json request with
  | Throw e => (Return (failure e), [ConsoleError "Error fetching video info:" e])
  | Return body =>
      match destructure "url" body with
      | Throw e =>
          (Return (failure e), [ConsoleError "Error fetching video info:" e])
      | Return url =>
          if Js.truthy url then
            match ytDlp env (invocation url) with
            | Throw e =>
                (Return (failure e),
                 [YtDlp (invocation url);
                  ConsoleError "Error fetching video info:" e])
            | Return videoInfo =>
                match describes videoInfo with
                | Throw e =>
                    (Return (failure e),
                     [YtDlp (invocation url);
                      ConsoleError "Error fetching video info:" e])
                | Return details =>
                    (Return (descriptor details), [YtDlp (invocation url)])
                end
            end
          else (Return (NextResponse_json (ErrorJson "URL is required") 400), [])
      end
  end.
Proof.
  unfold POST. unfold_handler.
  destruct (json request) as [body|e]; [|reflexivity].
  destruct (destructure "url" body) as [url|e]; [|reflexivity].
  destruct (Js.truthy url); [|reflexivity].
  cbn [negb app].
  destruct (ytDlp env (invocation url)) as [videoInfo|e]; [|reflexivity].
  destruct (describes videoInfo); reflexivity.
Qed.

(** The handler always answers: no exception leaves it. *)
Lemma POST_total (env : Env) (request : Request) :
  exists response, fst (run (POST env request)) = Return response.
Proof.
  rewrite POST_run.
  destruct (json request) as [body|e]; [|eauto].
  destruct (destructure "url" body) as [url|e]; [|eauto].
  destruct (Js.truthy url); [|eauto].
  destruct (ytDlp env (invocation url)) as [videoInfo|e]; [|eauto].
  destruct (describes videoInfo); eauto.
Qed.

(** *** Truthiness *)

Lemma truthy_falsy (v : Js.value) : Js.truthy v = false <-> Wire.falsy v.
Proof.
  split.
  - destruct v as [| |b|n|s|ms|items]; cbn; intros H; try discriminate H.
    + constructor.
    + constructor.
    + subst b. constructor.
    + unfold Js.truthyNumber in H. apply negb_false_iff, orb_true_iff in H.
      destruct H as [H|H]; [now apply Wire.falsy_zero | now apply Wire.falsy_nan].
    + apply negb_false_iff, isEmpty_spec in H. subst s. constructor.
  - intros F. destruct F; cbn; try reflexivity;
      unfold Js.truthyNumber; apply negb_false_iff, orb_true_iff; auto.
Qed.

(** *** Reading members *)

Lemma property_member (name : string) (v w : Js.value) :
  Json.property name v = Return w -> w = Json.member name v.
Proof.
  destruct v; cbn; intros H; try discriminate H; now injection H as <-.
Qed.

Lemma property_defined (name name' : string) (v w : Js.value) :
  Json.property name v = Return w ->
  Json.property name' v = Return (Json.member name' v).
Proof. destruct v; cbn; intros H; try discriminate H; reflexivity. Qed.

Lemma isString_spec (s : string) (v : Js.value) :
  Json.isString s v = true <-> v = Js.Str s.
Proof.
  destruct v; cbn; try (split; discriminate).
  rewrite String.eqb_eq. split; [now intros -> | now intros [= ->]].
Qed.

Lemma existsb_isString (s : string) (items : list Js.value) :
  existsb (Json.isString s) items = true <-> In (Js.Str s) items.
Proof.
  rewrite existsb_exists. split.
  - intros (v & I & E). apply isString_spec in E. now subst v.
  - intros I. exists (Js.Str s). split; [exact I | now apply isString_spec].
Qed.

Lemma includes_mentions (s : string) (r : Js.value) (b : bool) :
  Json.includes r s = Return b -> (b = true <-> Wire.mentions s r).
Proof.
  unfold Wire.mentions.
  destruct r as [| |x|n|tag|ms|items]; cbn; intros H; try discriminate H;
    injection H as <-.
  - rewrite includes_spec. split.
    + intros O. left. now exists tag.
    + intros [(t & [= <-] & O) | (l & E & _)]; [exact O | discriminate E].
  - rewrite existsb_isString. split.
    + intros I. right. now exists items.
    + intros [(t & E & _) | (l & [= <-] & I)]; [discriminate E | exact I].
Qed.

Lemma includes_throws (s s' : string) (r : Js.value) (e : Js.thrown) :
  Json.includes r s = Throw e -> Json.includes r s' = Throw e.
Proof.
  destruct r; cbn; intros H; try discriminate H; exact H.
Qed.

(** *** The filter predicate on an element *)

(** When the predicate completes on an element, its answer is the
    inclusion policy on that element. *)
Lemma keeps_survives (f : Js.value) (b : bool) :
  keeps f = Return b -> (b = true <-> Wire.survives f).
Proof.
  unfold keeps, differs, equals, resolutionIncludes, Wire.survives, Wire.present.
  destruct (Json.property "vcodec" f) as [vcodec|e] eqn:V;
    [|cbn; discriminate].
  rewrite (property_defined _ "acodec" _ _ V),
          (property_defined _ "resolution" _ _ V).
  apply property_member in V. subst vcodec.
  set (vcodec := Json.member "vcodec" f).
  set (acodec := Json.member "acodec" f).
  set (resolution := Json.member "resolution" f).
  cbn [mbind completion_bind orElse andAlso].
  destruct (Json.isString "none" vcodec) eqn:NV; cbn [negb orElse andAlso].
  { apply isString_spec in NV. intros [= <-].
    split; [discriminate|]. intros [[P _] | [P _]]; now elim P. }
  assert (PV : vcodec <> Js.Str "none").
  { intros E. apply isString_spec in E. congruence. }
  destruct (Json.isString "none" acodec) eqn:NA; cbn [negb orElse andAlso].
  2:{ intros [= <-]. split; [|reflexivity]. intros _. left. split; [exact PV|].
      intros E. apply isString_spec in E. congruence. }
  apply isString_spec in NA.
  assert (Q : forall c, c = true <->
                (Wire.mentions "1920x1080" resolution
                 \/ Wire.mentions "2560x1440" resolution
                 \/ Wire.mentions "3840x2160" resolution) ->
              c = true <->
              (vcodec <> Js.Str "none" /\ acodec <> Js.Str "none")
              \/ (vcodec <> Js.Str "none" /\ acodec = Js.Str "none"
                  /\ (Wire.mentions "1920x1080" resolution
                      \/ Wire.mentions "2560x1440" resolution
                      \/ Wire.mentions "3840x2160" resolution))).
  { intros c H. rewrite H. split; [intros M; right; auto|].
    intros [[_ N] | (_ & _ & M)]; [now elim N | exact M]. }
  destruct (Json.includes resolution "1920x1080") as [a|e] eqn:I1;
    [|discriminate].
  destruct (Json.includes resolution "2560x1440") as [a'|e] eqn:I2;
    [|rewrite (includes_throws _ "1920x1080" _ _ I2) in I1; discriminate I1].
  destruct (Json.includes resolution "3840x2160") as [a''|e] eqn:I3;
    [|rewrite (includes_throws _ "1920x1080" _ _ I3) in I1; discriminate I1].
  apply includes_mentions in I1, I2, I3.
  intros H. apply Q.
  destruct a; cbn in H; [injection H as <-; tauto|].
  destruct a'; cbn in H; [injection H as <-; tauto|].
  injection H as <-.
  assert (N1 : ~ Wire.mentions "1920x1080" resolution)
    by (intros M; apply I1 in M; discriminate M).
  assert (N2 : ~ Wire.mentions "2560x1440" resolution)
    by (intros M; apply I2 in M; discriminate M).
  tauto.
Qed.

Lemma keeps_projects (f : Js.value) (b : bool) :
  keeps f = Return b -> projects f = Return (Wire.projection f).
Proof.
  unfold keeps, differs. intros K.
  destruct (Json.property "vcodec" f) as [vcodec|e] eqn:V;
    [|cbn in K; discriminate K].
  unfold projects.
  rewrite (property_defined _ "format_id" _ _ V),
          (property_defined _ "format_note" _ _ V),
          (property_defined _ "ext" _ _ V),
          (property_defined _ "resolution" _ _ V),
          (property_defined _ "fps" _ _ V),
          (property_defined _ "filesize" _ _ V),
          (property_defined _ "filesize_approx" _ _ V).
  reflexivity.
Qed.

(** *** The filter and the map on the list *)

Lemma filtering_selected (items kept : list Js.value) :
  filtering items = Return kept ->
  Wire.selected items kept
  /\ Forall (fun f => keeps f = Return true) kept.
Proof.
  revert kept. induction items as [|f items IH]; intros kept; cbn [filtering].
  - intros [= <-]. split; constructor.
  - destruct (keeps f) as [b|e] eqn:K; [|discriminate].
    cbn [mbind completion_bind].
    destruct (filtering items) as [others|e]; [|discriminate].
    destruct (IH others eq_refl) as [S F].
    pose proof (keeps_survives f b K) as P.
    destruct b; intros [= <-].
    + split; [|now constructor]. constructor; [now apply P | exact S].
    + split; [|exact F]. apply Wire.selected_drop; [|exact S].
      intros M. apply P in M. discriminate M.
Qed.

Lemma mapping_kept (kept : list Js.value) :
  Forall (fun f => keeps f = Return true) kept ->
  mapping kept = Return (List.map Wire.projection kept).
Proof.
  induction 1 as [|f kept K _ IH]; [reflexivity|].
  cbn [mapping List.map]. rewrite (keeps_projects f true K).
  cbn [mbind completion_bind]. now rewrite IH.
Qed.

Lemma selected_sublist (items kept : list Js.value) :
  Wire.selected items kept -> kept `sublist_of` items.
Proof. induction 1; now constructor. Qed.

(** What a descriptor is made of. *)
Lemma describes_returns (videoInfo : Js.value) (details : Descriptor) :
  describes videoInfo = Return details ->
  exists items kept,
    Json.member "formats" videoInfo = Js.Arr items
    /\ Wire.selected items kept
    /\ d_formats details = List.map Wire.projection kept
    /\ d_id details = Json.member "id" videoInfo
    /\ d_title details = Json.member "title" videoInfo
    /\ d_thumbnail details = Json.member "thumbnail" videoInfo.
Proof.
  unfold describes, filteredFormatsOf.
  destruct (Json.property "formats" videoInfo) as [formats|e] eqn:F;
    [|discriminate].
  rewrite (property_defined _ "id" _ _ F), (property_defined _ "title" _ _ F),
          (property_defined _ "thumbnail" _ _ F).
  apply property_member in F. subst formats.
  cbn [mbind completion_bind].
  destruct (Json.member "formats" videoInfo) as [| |b|n|s|ms|items] eqn:M;
    try discriminate.
  cbn [Json.elements mbind completion_bind].
  destruct (filtering items) as [kept|e] eqn:K; [|discriminate].
  destruct (filtering_selected items kept K) as [S A].
  cbn [mbind completion_bind]. rewrite (mapping_kept kept A). cbn [mbind completion_bind].
  intros [= <-]. now exists items, kept.
Qed.

(** *** Records of the declared types *)

Lemma keeps_asJson (f : Format) : keeps (asJson f) = Return (keep f).
Proof.
  unfold keeps, differs, equals, resolutionIncludes, keep. cbn.
  destruct (String.eqb (vcodec f) "none"), (String.eqb (acodec f) "none");
    cbn; try reflexivity.
  destruct (Js.includes (resolution f) "1920x1080"); cbn; [reflexivity|].
  destruct (Js.includes (resolution f) "2560x1440"); reflexivity.
Qed.

Lemma projection_asJson (f : Format) :
  Wire.projection (asJson f) = projectedAsJson (project f).
Proof. reflexivity. Qed.

Lemma survives_asJson (f : Format) : Wire.survives (asJson f) <-> policy f.
Proof.
  rewrite <- keep_policy.
  symmetry. apply (keeps_survives (asJson f) (keep f)), keeps_asJson.
Qed.

Lemma filtering_asJson (fs : list Format) :
  filtering (List.map asJson fs)
  = Return (List.map asJson (List.filter keep fs)).
Proof.
  induction fs as [|f fs IH]; [reflexivity|].
  cbn [List.map filtering List.filter]. rewrite keeps_asJson, IH.
  cbn [mbind completion_bind]. now destruct (keep f).
Qed.

(** On an output of the declared type the handler's lines 46-72 are
    [filteredFormats]. *)
Lemma describes_infoAsJson (videoInfo : VideoInfo) :
  describes (infoAsJson videoInfo)
  = Return {| d_id := Js.Str (id videoInfo);
              d_title := Js.Str (title videoInfo);
              d_thumbnail := Js.Str (thumbnail videoInfo);
              d_formats :=
                List.map projectedAsJson (filteredFormats (formats videoInfo)) |}.
Proof.
  unfold describes, filteredFormatsOf. cbn.
  rewrite filtering_asJson. cbn [mbind completion_bind].
  rewrite mapping_kept.
  - cbn [mbind completion_bind]. unfold filteredFormats.
    rewrite !List.map_map. reflexivity.
  - apply List.Forall_forall. intros v I. apply in_map_iff in I as (f & <- & I).
    apply filter_In in I as [_ K]. now rewrite keeps_asJson, K.
Qed.

(** C4: the filter never tests the size fields: its answer on any record
    is the same whatever the two size fields hold, and so is the inclusion
    policy.  A record that meets the inclusion policy and has neither an
    exact nor an approximate size is therefore returned, at its place, as a
    record with the same seven values, both sizes absent; the handler, run
    on an output of the tool that lists it, completes with a descriptor
    that has the record of its seven members in its list; and it is the
    page's table filter that rejects such a record, so that it is a row of
    no table. *)
Theorem resolver_keeps_sizeless (pre post : list Format) (f : Format) :
  (forall exact approx,
     keep (withSizes exact approx f) = keep f
     /\ keeps (asJson (withSizes exact approx f)) = keeps (asJson f)
     /\ (policy (withSizes exact approx f) <-> policy f))
  /\ (policy f ->
      filesize f = None ->
      filesize_approx f = None ->
      (exists v,
         filteredFormats (pre ++ f :: post)
         = filteredFormats pre ++ v :: filteredFormats post
         /\ Wire.copiedVerbatim f v
         /\ vf_filesize v = None
         /\ vf_filesize_approx v = None
         /\ Page.hasSize v = false
         /\ (forall details, ~ In v (Page.tableRows details)))
      /\ (forall videoInfo,
            formats videoInfo = pre ++ f :: post ->
            exists details,
              describes (infoAsJson videoInfo) = Return details
              /\ In (Wire.projection (asJson f)) (d_formats details)
              /\ Json.member "filesize" (Wire.projection (asJson f))
                 = Js.Undefined
              /\ Json.member "filesize_approx" (Wire.projection (asJson f))
                 = Js.Undefined)).
Proof.
  split.
  - intros exact approx. split; [apply keep_withSizes|].
    split; [now rewrite !keeps_asJson, keep_withSizes|].
    rewrite <- !keep_policy. now rewrite keep_withSizes.
  - intros P E A. apply keep_policy in P. split.
    + exists (project f).
      assert (H : Page.hasSize (project f) = false).
      { unfold Page.hasSize. cbn [project vf_filesize vf_filesize_approx].
        now rewrite E, A. }
      split; [now rewrite filteredFormats_app, filteredFormats_cons, P|].
      split; [unfold Wire.copiedVerbatim; now cbn|].
      split; [exact E|]. split; [exact A|]. split; [exact H|].
      intros details I. unfold Page.tableRows in I.
      apply filter_In in I as [_ I]. congruence.
    + intros videoInfo L. eexists. split; [apply describes_infoAsJson|].
      cbn [d_formats]. rewrite L, projection_asJson.
      split; [|cbn; now rewrite E, A].
      apply in_map. rewrite filteredFormats_app, filteredFormats_cons, P.
      apply in_or_app. right. now left.
Qed.

Lemma resolver_keeps_sizeless_witness :
  policy Samples.videoOnly1080
  /\ filesize Samples.videoOnly1080 = None
  /\ filesize_approx Samples.videoOnly1080 = None
  /\ (exists v,
        filteredFormats
          ([Samples.combined360] ++ Samples.videoOnly1080 :: [Samples.audioOnly])
        = filteredFormats [Samples.combined360]
          ++ v :: filteredFormats [Samples.audioOnly]
        /\ Wire.copiedVerbatim Samples.videoOnly1080 v
        /\ vf_filesize v = None
        /\ vf_filesize_approx v = None
        /\ Page.hasSize v = false
        /\ (forall details, ~ In v (Page.tableRows details)))
  /\ (forall videoInfo,
        formats videoInfo
        = [Samples.combined360] ++ Samples.videoOnly1080 :: [Samples.audioOnly] ->
        exists details,
          describes (infoAsJson videoInfo) = Return details
          /\ In (Wire.projection (asJson Samples.videoOnly1080))
               (d_formats details)
          /\ Json.member "filesize"
               (Wire.projection (asJson Samples.videoOnly1080))
             = Js.Undefined
          /\ Json.member "filesize_approx"
               (Wire.projection (asJson Samples.videoOnly1080))
             = Js.Undefined).
Proof.
  assert (P : policy Samples.videoOnly1080).
  { right. split; [split; [discriminate | reflexivity]|].
    left. now exists "", "". }
  split; [exact P|]. split; [reflexivity|]. split; [reflexivity|].
  exact (proj2 (resolver_keeps_sizeless [Samples.combined360]
                  [Samples.audioOnly] Samples.videoOnly1080)
           P eq_refl eq_refl).
Defined.

(** The typed filter on the sample listing: the audio-only and the 480p
    video-only records are left out, the other two are returned in the
    tool's order. *)
Example resolve_sample :
  filteredFormats (formats Samples.sampleInfo)
  = [project Samples.combined360; project Samples.videoOnly1080].
Proof. reflexivity. Qed.

Lemma urlMember_destructure (request : Request) (url : Js.value) :
  Wire.urlMember request = Some url <->
  exists payload,
    json request = Return payload /\ destructure "url" payload = Return url.
Proof.
  unfold Wire.urlMember. destruct (json request) as [payload|e].
  - destruct payload; cbn; split;
      try (intros [= <-]; eexists; split; reflexivity);
      try discriminate;
      intros (payload & [= <-] & D); cbn in D; try discriminate D;
      now injection D as <-.
  - split; [discriminate|]. intros (payload & J & _). discriminate J.
Qed.

Lemma urlMember_none (request : Request) :
  Wire.urlMember request = None ->
  (exists e, json request = Throw e)
  \/ exists payload e,
       json request = Return payload /\ destructure "url" payload = Throw e.
Proof.
  unfold Wire.urlMember. destruct (json request) as [payload|e]; [|eauto].
  destruct payload; try discriminate; intros _; right; do 2 eexists;
    (split; reflexivity).
Qed.

(** C9: whenever the handler answers with a descriptor, the status is 200
    and the tool was invoked once and returned some output; the
    descriptor's id, title and thumbnail are that output's members, as they
    are; the output's [formats] member is a list, and the descriptor's
    list is made from it by leaving out the elements that do not meet the
    inclusion policy, keeping the others in their order, and replacing
    each by the record of its seven members [format_id], [format_note],
    [ext], [resolution], [fps], [filesize], [filesize_approx], as they are,
    and nothing else. *)
Theorem resolve_success_shape
  (env : Env) (request : Request) (response : Response Body)
  (log : list Effect) (details : Descriptor) :
  run (POST env request) = (Return response, log) ->
  body response = DetailsJson details ->
  exists url videoInfo items kept,
    log = [YtDlp (invocation url)]
    /\ ytDlp env (invocation url) = Return videoInfo
    /\ status response = 200%Z
    /\ d_id details = Json.member "id" videoInfo
    /\ d_title details = Json.member "title" videoInfo
    /\ d_thumbnail details = Json.member "thumbnail" videoInfo
    /\ Json.member "formats" videoInfo = Js.Arr items
    /\ Wire.selected items kept
    /\ kept `sublist_of` items
    /\ d_formats details = List.map Wire.projection kept.
Proof.
  rewrite POST_run. intros R B.
  destruct (json request) as [payload|e];
    [|injection R as <- _; discriminate B].
  destruct (destructure "url" payload) as [url|e];
    [|injection R as <- _; discriminate B].
  destruct (Js.truthy url); [|injection R as <- _; discriminate B].
  destruct (ytDlp env (invocation url)) as [videoInfo|e] eqn:T;
    [|injection R as <- _; discriminate B].
  destruct (describes videoInfo) as [made|e] eqn:D;
    [|injection R as <- _; discriminate B].
  injection R as <- <-. cbn in B. injection B as ->.
  destruct (describes_returns videoInfo details D)
    as (items & kept & M & S & F & I & N & H).
  exists url, videoInfo, items, kept.
  repeat split; try reflexivity; try assumption.
  now apply selected_sublist.
Qed.

Lemma resolve_success_shape_witness :
  run (POST Samples.answering (Samples.withUrl Samples.watchUrl))
  = (Return (descriptor Samples.sampleDescriptor),
     [YtDlp (invocation (Js.Str Samples.watchUrl))])
  /\ body (descriptor Samples.sampleDescriptor)
     = DetailsJson Samples.sampleDescriptor
  /\ exists url videoInfo items kept,
       [YtDlp (invocation (Js.Str Samples.watchUrl))] = [YtDlp (invocation url)]
       /\ ytDlp Samples.answering (invocation url) = Return videoInfo
       /\ status (descriptor Samples.sampleDescriptor) = 200%Z
       /\ d_id Samples.sampleDescriptor = Json.member "id" videoInfo
       /\ d_title Samples.sampleDescriptor = Json.member "title" videoInfo
       /\ d_thumbnail Samples.sampleDescriptor
          = Json.member "thumbnail" videoInfo
       /\ Json.member "formats" videoInfo = Js.Arr items
       /\ Wire.selected items kept
       /\ kept `sublist_of` items
       /\ d_formats Samples.sampleDescriptor = List.map Wire.projection kept.
Proof.
  split; [reflexivity|]. split; [reflexivity|].
  apply (resolve_success_shape Samples.answering
           (Samples.withUrl Samples.watchUrl)
           (descriptor Samples.sampleDescriptor)
           [YtDlp (invocation (Js.Str Samples.watchUrl))]
           Samples.sampleDescriptor);
    reflexivity.
Defined.

(** C8, as the code has it: the handler always answers; the answer is 400
    exactly when the body parsed as JSON to a value other than [null] and
    its [url] member is falsy (missing, the empty string, [null], [false],
    zero or [NaN]); a body that is no JSON, or is [null], is answered 500
    without touching the tool; and when the [url] member is truthy and the
    tool's invocation throws, the answer is 500 with the thrown [Error]'s
    message, or with the fixed fallback text when what was thrown is not an
    [Error], after one invocation of the tool and no second one. *)
Theorem resolve_error_contract (env : Env) (request : Request) :
  exists response log,
    run (POST env request) = (Return response, log)
    /\ (status response = 400%Z
        <-> exists url, Wire.urlMember request = Some url /\ Wire.falsy url)
    /\ (Wire.urlMember request = None ->
        status response = 500%Z
        /\ exists e, log = [ConsoleError "Error fetching video info:" e])
    /\ (forall url e,
          Wire.urlMember request = Some url ->
          ~ Wire.falsy url ->
          ytDlp env (invocation url) = Throw e ->
          status response = 500%Z
          /\ body response =
             ErrorJson (match e with
                        | Js.ErrorObject message => message
                        | Js.NonError _ => fallbackMessage
                        end)
          /\ log = [YtDlp (invocation url);
                    ConsoleError "Error fetching video info:" e]).
Proof.
  rewrite POST_run.
  destruct (Wire.urlMember request) as [url|] eqn:U.
  - apply urlMember_destructure in U as (payload & J & D). rewrite J, D.
    destruct (Js.truthy url) eqn:Y.
    + assert (N : ~ Wire.falsy url).
      { intros F. apply truthy_falsy in F. congruence. }
      destruct (ytDlp env (invocation url)) as [videoInfo|e] eqn:T.
      * destruct (describes videoInfo) as [details|e];
          do 2 eexists; (split; [reflexivity|]); cbn [status NextResponse_json descriptor failure];
          (split; [split; [discriminate|];
                   intros (url' & [= <-] & F); contradiction|]);
          (split; [discriminate|]);
          intros url' e' [= <-] _ T'; congruence.
      * do 2 eexists. split; [reflexivity|].
        cbn [status failure NextResponse_json].
        split; [split; [discriminate|];
                intros (url' & [= <-] & F); contradiction|].
        split; [discriminate|].
        intros url' e' [= <-] _ T'. rewrite T in T'. injection T' as <-.
        now repeat split.
    + apply truthy_falsy in Y.
      do 2 eexists. split; [reflexivity|]. cbn [status NextResponse_json].
      split; [split; [intros _; now exists url | reflexivity]|].
      split; [discriminate|].
      intros url' e [= <-] N. contradiction.
  - destruct (urlMember_none request U) as [(e & J) | (payload & e & J & D)];
      rewrite J; [|rewrite D];
      do 2 eexists; (split; [reflexivity|]);
      cbn [status failure NextResponse_json];
      (split; [split; [discriminate | intros (url & H & _); discriminate H]|]);
      (split; [intros _; split; [reflexivity | now exists e]|]);
      intros url e' H; discriminate H.
Qed.

Lemma resolve_error_contract_witness :
  exists response log,
    run (POST Samples.failing (Samples.withUrl Samples.watchUrl))
    = (Return response, log)
    /\ (status response = 400%Z
        <-> exists url,
              Wire.urlMember (Samples.withUrl Samples.watchUrl) = Some url
              /\ Wire.falsy url)
    /\ (Wire.urlMember (Samples.withUrl Samples.watchUrl) = None ->
        status response = 500%Z
        /\ exists e, log = [ConsoleError "Error fetching video info:" e])
    /\ (forall url e,
          Wire.urlMember (Samples.withUrl Samples.watchUrl) = Some url ->
          ~ Wire.falsy url ->
          ytDlp Samples.failing (invocation url) = Throw e ->
          status response = 500%Z
          /\ body response =
             ErrorJson (match e with
                        | Js.ErrorObject message => message
                        | Js.NonError _ => fallbackMessage
                        end)
          /\ log = [YtDlp (invocation url);
                    ConsoleError "Error fetching video info:" e]).
Proof.
  exact (resolve_error_contract Samples.failing
           (Samples.withUrl Samples.watchUrl)).
Defined.

(** C8 as stated fails in both directions: a request whose body is [null]
    supplies no url, yet it is answered 500, not 400; and a request whose
    [url] member is the number zero supplies a url that is neither missing
    nor empty, yet it is answered 400. *)
Lemma resolve_error_contract_counterexample :
  (Wire.urlMissingOrEmpty {| json := Return Js.Null |}
   /\ exists response log,
        run (POST Samples.answering {| json := Return Js.Null |})
        = (Return response, log)
        /\ status response = 500%Z)
  /\ (~ Wire.urlMissingOrEmpty
         {| json := Return (Js.Obj [("url", Js.Num 0%float)]) |}
      /\ exists response log,
           run (POST Samples.answering
                  {| json := Return (Js.Obj [("url", Js.Num 0%float)]) |})
           = (Return response, log)
           /\ status response = 400%Z).
Proof.
  split; split.
  - now left.
  - do 2 eexists. split; reflexivity.
  - intros [H|H]; discriminate H.
  - do 2 eexists. split; reflexivity.
Qed.

End ResolveHandler.
(** ** The download handler *)

Section DownloadHandler.

Import Stream DownloadRoute.

Ltac unfold_handler :=
  unfold run, tryCatch, mbind, M_bind, bind, lift, emit, mret, M_ret, ret.

(** The handler, one outcome per path through it. *)
Lemma GET_run (env : Env) (request : NextRequest) :
  Eff.run (GET env request) =
  match get "url" (searchParams request),
        get "formatId" (searchParams request) with
  | Some url, Some formatId =>
      if Js.isEmpty url || Js.isEmpty formatId then (Return badRequest, [])
      else
        match exec env url (options formatId) with
        | Throw e =>
            (Return (failure e),
             [Exec url (options formatId); ConsoleError "Download error:" e])
        | Return downloadStream =>
            (Return (streaming (openStream downloadStream)),
             [Exec url (options formatId)])
        end
  | _, _ => (Return badRequest, [])
  end.
Proof.
  unfold GET, Eff.run. unfold_handler.
  destruct (get "url" (searchParams request)) as [url|]; [|reflexivity].
  destruct (get "formatId" (searchParams request)) as [formatId|];
    [|reflexivity].
  destruct (Js.isEmpty url || Js.isEmpty formatId); [reflexivity|].
  cbn [app].
  destruct (exec env url (options formatId)); reflexivity.
Qed.

Lemma GET_total (env : Env) (request : NextRequest) :
  exists response, fst (Eff.run (GET env request)) = Return response.
Proof.
  rewrite GET_run.
  destruct (get "url" (searchParams request)) as [url|]; [|eauto].
  destruct (get "formatId" (searchParams request)) as [formatId|]; [|eauto].
  destruct (Js.isEmpty url || Js.isEmpty formatId); [eauto|].
  destruct (exec env url (options formatId)); eauto.
Qed.

(** C7: the handler answers 400 exactly when the [url] or the [formatId]
    parameter is missing or empty; the answer then carries the JSON error
    body, and nothing was spawned: the effect log is empty. *)
Theorem download_bad_request (env : Env) (request : NextRequest) :
  exists response log,
    Eff.run (GET env request) = (Return response, log)
    /\ (status response = 400%Z
        <-> Wire.missingOrEmpty (get "url" (searchParams request))
            \/ Wire.missingOrEmpty (get "formatId" (searchParams request)))
    /\ (status response = 400%Z ->
        response = badRequest
        /\ headers response = [("Content-Type", "application/json")]
        /\ body response = ErrorJson "URL and Format ID are required"
        /\ log = []).
Proof.
  rewrite GET_run. unfold Wire.missingOrEmpty.
  destruct (get "url" (searchParams request)) as [url|].
  2:{ do 2 eexists. split; [reflexivity|]. split; [|now intros _].
      split; [now left; left | reflexivity]. }
  destruct (get "formatId" (searchParams request)) as [formatId|].
  2:{ do 2 eexists. split; [reflexivity|]. split; [|now intros _].
      split; [now right; left | reflexivity]. }
  destruct (Js.isEmpty url) eqn:U; cbn [orb].
  { apply isEmpty_spec in U. subst url.
    do 2 eexists. split; [reflexivity|]. split; [|now intros _].
    split; [now left; right | reflexivity]. }
  destruct (Js.isEmpty formatId) eqn:F.
  { apply isEmpty_spec in F. subst formatId.
    do 2 eexists. split; [reflexivity|]. split; [|now intros _].
    split; [now right; right | reflexivity]. }
  apply isEmpty_false in U, F.
  assert (N : ~ ((Some url = None \/ Some url = Some "")
                 \/ (Some formatId = None \/ Some formatId = Some ""))).
  { intros [[H|H]|[H|H]]; try discriminate H; injection H as ->;
      [now elim U | now elim F]. }
  destruct (exec env url (options formatId));
    do 2 eexists; (split; [reflexivity|]); cbn [status streaming failure];
    (split; [split; [discriminate | intros H; now elim N] | discriminate]).
Qed.

(** The selector determines the format id it was built from. *)
Lemma options_format_injective (formatId formatId' : string) :
  format (options formatId) = format (options formatId') ->
  formatId = formatId'.
Proof. cbn [format options]. apply append_inj_r. Qed.

(** C6: for a request whose [url] and [formatId] are present and not empty,
    the handler spawns the tool once, on that url, with the format selector
    [formatId] followed by [+ba] and the output target [-]; the format id
    is used as received. *)
Theorem download_format_selector
  (env : Env) (request : NextRequest) (url formatId : string) :
  get "url" (searchParams request) = Some url ->
  get "formatId" (searchParams request) = Some formatId ->
  url <> "" ->
  formatId <> "" ->
  exists response selector rest,
    Eff.run (GET env request) = (Return response, Exec url selector :: rest)
    /\ format selector = formatId +:+ "+ba"
    /\ output selector = "-"
    /\ (forall url' selector', ~ In (Exec url' selector') rest).
Proof.
  intros U F NU NF. rewrite GET_run, U, F.
  apply isEmpty_false in NU, NF. rewrite NU, NF. cbn [orb].
  destruct (exec env url (options formatId)) as [p|e].
  - exists (streaming (openStream p)), (options formatId), [].
    repeat split. intros ? ? [].
  - exists (failure e), (options formatId), [ConsoleError "Download error:" e].
    repeat split. intros ? ? [H|[]]. discriminate H.
Qed.

Lemma download_format_selector_witness :
  exists response selector rest,
    Eff.run (GET Samples.spawning Samples.download137)
    = (Return response, Exec Samples.watchUrl selector :: rest)
    /\ format selector = "137" +:+ "+ba"
    /\ output selector = "-"
    /\ (forall url' selector', ~ In (Exec url' selector') rest).
Proof.
  apply (download_format_selector Samples.spawning Samples.download137
           Samples.watchUrl "137");
    [reflexivity | reflexivity | discriminate | discriminate].
Defined.

End DownloadHandler.

(** ** Sessions: how the returned stream evolves *)

Section Sessions.

Import Stream DownloadRoute Traces.

Lemma run_cons (a : Action) (trace : list Action) (s : Session) :
  run (a :: trace) s = run trace (step a s).
Proof. reflexivity. Qed.

Lemma run_app (t1 t2 : list Action) (s : Session) :
  run (t1 ++ t2) s = run t2 (run t1 s).
Proof. unfold run. apply fold_left_app. Qed.

Ltac open_session s :=
  destruct s as [[st q cr] [p l co un] d]; cbn in *.

(** No step touches the process: the handler has no code that kills it or
    destroys its stdout. *)
Lemma step_process (a : Action) (s : Session) :
  downloadStream (world (step a s)) = downloadStream (world s).
Proof.
  open_session s. destruct a; cbn.
  - destruct l; [|reflexivity]. unfold onData, enqueue.
    now destruct (canCloseOrEnqueue _).
  - destruct l; [|reflexivity]. unfold onEnd, close.
    now destruct (canCloseOrEnqueue _).
  - now destruct l.
  - destruct st; [destruct q|..]; reflexivity.
  - reflexivity.
Qed.

Lemma run_process (trace : list Action) (s : Session) :
  downloadStream (world (run trace s)) = downloadStream (world s).
Proof.
  revert s. induction trace as [|a trace IH]; intros s; [reflexivity|].
  now rewrite run_cons, IH, step_process.
Qed.

(** Once the stream is closed or errored, no step changes the controller
    or delivers anything. *)
Lemma step_settled (a : Action) (s : Session) :
  isReadable (controller s) = false ->
  controller (step a s) = controller s /\ delivered (step a s) = delivered s.
Proof.
  open_session s. unfold isReadable. cbn. intros R.
  destruct st; [discriminate R| |]; destruct a; cbn; try destruct l;
    cbn; auto;
    unfold onData, onEnd, enqueue, close, canCloseOrEnqueue; cbn;
    destruct cr; cbn; auto.
Qed.

Lemma run_settled (trace : list Action) (s : Session) :
  isReadable (controller s) = false ->
  controller (run trace s) = controller s
  /\ delivered (run trace s) = delivered s.
Proof.
  revert s. induction trace as [|a trace IH]; intros s R; [now split|].
  rewrite run_cons. destruct (step_settled a s R) as [C D].
  destruct (IH (step a s)) as [C' D']; [now rewrite C|].
  split; congruence.
Qed.

Lemma step_drained (a : Action) (s : Session) :
  drained (controller s) -> drained (controller (step a s)).
Proof.
  intros D. destruct (isReadable (controller s)) eqn:R.
  - clear D. open_session s. unfold isReadable in R. cbn in R.
    destruct st; try discriminate R. unfold drained, isReadable.
    destruct a; cbn.
    + destruct l; cbn; [|discriminate]. unfold onData, enqueue, canCloseOrEnqueue.
      cbn. destruct cr; cbn; discriminate.
    + destruct l; cbn; [|discriminate]. unfold onEnd, close, canCloseOrEnqueue.
      cbn. destruct cr; cbn; [discriminate|]. destruct q; cbn; [reflexivity|discriminate].
    + destruct l; cbn; [reflexivity|discriminate].
    + destruct q as [|x [|y q]]; cbn; try discriminate.
      destruct cr; cbn; [reflexivity|discriminate].
    + reflexivity.
  - destruct (step_settled a s R) as [C _]. now rewrite C.
Qed.

Lemma run_drained (trace : list Action) (s : Session) :
  drained (controller s) -> drained (controller (run trace s)).
Proof.
  revert s. induction trace as [|a trace IH]; intros s D; [exact D|].
  rewrite run_cons. apply IH. now apply step_drained.
Qed.

(** After a cancel the stream is not readable. *)
Lemma cancel_settles (s : Session) :
  isReadable (controller (step ClientCancel s)) = false.
Proof.
  open_session s. unfold isReadable. cbn. destruct st; reflexivity.
Qed.

(** A cancel delivers nothing. *)
Lemma cancel_delivers_nothing (s : Session) :
  delivered (step ClientCancel s) = delivered s.
Proof. reflexivity. Qed.

(** While stdout produces and the client reads, every chunk emitted is
    either delivered already or queued, in the order of emission, and no
    listener fails. *)
Lemma step_flowing (a : Action) (s : Session) :
  isDataOrRead a = true ->
  flowing s ->
  flowing (step a s)
  /\ delivered (step a s) ++ queue (controller (step a s))
     = (delivered s ++ queue (controller s)) ++ chunks [a]
  /\ uncaught (world (step a s)) = uncaught (world s).
Proof.
  unfold flowing. open_session s. intros A (L & S & C). subst l st cr.
  destruct a; try discriminate A; cbn.
  - unfold onData, enqueue, canCloseOrEnqueue. cbn.
    repeat split. now rewrite app_assoc.
  - destruct q as [|x [|y q]]; cbn; repeat split;
      rewrite ?app_nil_r, <- ?app_assoc; reflexivity.
Qed.

Lemma chunks_app (t1 t2 : list Action) :
  chunks (t1 ++ t2) = chunks t1 ++ chunks t2.
Proof.
  induction t1 as [|a t1 IH]; [reflexivity|].
  destruct a; cbn; now rewrite ?IH.
Qed.

Lemma run_flowing (trace : list Action) (s : Session) :
  forallb isDataOrRead trace = true ->
  flowing s ->
  flowing (run trace s)
  /\ delivered (run trace s) ++ queue (controller (run trace s))
     = (delivered s ++ queue (controller s)) ++ chunks trace
  /\ uncaught (world (run trace s)) = uncaught (world s).
Proof.
  revert s. induction trace as [|a trace IH]; intros s A F.
  - cbn. now rewrite app_nil_r.
  - cbn [forallb] in A. apply andb_true_iff in A as [A A'].
    destruct (step_flowing a s A F) as (F1 & D1 & U1).
    destruct (IH (step a s) A' F1) as (F2 & D2 & U2).
    rewrite run_cons. split; [exact F2|]. split; [|congruence].
    rewrite D2, D1, <- app_assoc. f_equal.
    change (a :: trace) with ([a] ++ trace). now rewrite chunks_app.
Qed.

(** The end of stdout on a flowing session requests the close. *)
Lemma end_closing (s : Session) :
  flowing s ->
  closing (controller (step StdoutEnd s))
  /\ delivered (step StdoutEnd s) = delivered s
  /\ queue (controller (step StdoutEnd s)) = queue (controller s)
  /\ uncaught (world (step StdoutEnd s)) = uncaught (world s).
Proof.
  unfold flowing, closing. open_session s. intros (L & S & C). subst l st cr.
  unfold onEnd, close, canCloseOrEnqueue. cbn.
  destruct q; cbn; repeat split; [now left | right; split; [reflexivity | discriminate]].
Qed.

(** Reading after the end takes the queued chunks, one per read, and the
    stream closes with the last one. *)
Lemma read_closing (s : Session) :
  closing (controller s) ->
  closing (controller (step ClientRead s))
  /\ delivered (step ClientRead s) ++ queue (controller (step ClientRead s))
     = delivered s ++ queue (controller s)
  /\ length (queue (controller (step ClientRead s)))
     = pred (length (queue (controller s)))
  /\ uncaught (world (step ClientRead s)) = uncaught (world s).
Proof.
  unfold closing. open_session s.
  intros (C & [[S Q] | [S Q]]); subst cr st.
  - subst q. cbn. repeat split. now left.
  - destruct q as [|x [|y q]]; [now elim Q | |]; cbn; repeat split;
      rewrite <- ?app_assoc; try reflexivity.
    + now left.
    + right. split; [reflexivity | discriminate].
Qed.

Lemma run_closing (trace : list Action) (s : Session) :
  forallb isRead trace = true ->
  closing (controller s) ->
  closing (controller (run trace s))
  /\ delivered (run trace s) ++ queue (controller (run trace s))
     = delivered s ++ queue (controller s)
  /\ length (queue (controller (run trace s)))
     = length (queue (controller s)) - length trace
  /\ uncaught (world (run trace s)) = uncaught (world s).
Proof.
  revert s. induction trace as [|a trace IH]; intros s A C.
  - cbn. split; [exact C|]. split; [reflexivity|]. split; [lia | reflexivity].
  - cbn [forallb] in A. apply andb_true_iff in A as [A A'].
    destruct a; try discriminate A.
    destruct (read_closing s C) as (C1 & D1 & L1 & U1).
    destruct (IH (step ClientRead s) A' C1) as (C2 & D2 & L2 & U2).
    rewrite run_cons. split; [exact C2|]. split; [congruence|].
    split; [|congruence]. rewrite L2, L1. cbn [length]. lia.
Qed.

(** An error of stdout on a flowing session errors the stream. *)
Lemma error_settles (err : Js.thrown) (s : Session) :
  flowing s ->
  state (controller (step (StdoutError err) s)) = Errored err
  /\ delivered (step (StdoutError err) s) = delivered s.
Proof.
  unfold flowing. open_session s. intros (L & S & C). subst l st cr.
  now cbn.
Qed.

End Sessions.

(** ** The stream the handler returns *)

Section Bridge.

Import Stream DownloadRoute Traces.

Lemma openStream_piped (p : Subprocess) :
  stdout p <> None ->
  openStream p =
  {| controller := fresh;
     world := {| downloadStream := p;
                 listening := true;
                 console := [];
                 uncaught := [] |};
     delivered := [] |}.
Proof.
  intros S. unfold openStream, construct. cbn. unfold start. cbn.
  destruct (stdout p); [reflexivity | now elim S].
Qed.

Lemma openStream_pipeless (p : Subprocess) :
  stdout p = None ->
  openStream p =
  {| controller := {| state := Errored failedToGet;
                      queue := [];
                      closeRequested := false |};
     world := {| downloadStream := p;
                 listening := false;
                 console := [];
                 uncaught := [] |};
     delivered := [] |}.
Proof.
  intros S. unfold openStream, construct. cbn. unfold start. cbn.
  now rewrite S.
Qed.

Lemma openStream_process (p : Subprocess) :
  downloadStream (world (openStream p)) = p.
Proof.
  unfold openStream, construct. cbn. unfold start. cbn.
  now destruct (stdout p).
Qed.

Lemma openStream_drained (p : Subprocess) :
  drained (controller (openStream p)).
Proof.
  unfold drained, openStream, construct. cbn. unfold start. cbn.
  destruct (stdout p); cbn; [discriminate | intros _; reflexivity].
Qed.

Lemma openStream_delivered (p : Subprocess) : delivered (openStream p) = [].
Proof.
  unfold openStream, construct. cbn. unfold start. cbn.
  now destruct (stdout p).
Qed.

(** Without a stdout nothing ever happens to the stream. *)
Lemma pipeless_stays (p : Subprocess) (trace : list Action) :
  stdout p = None ->
  state (controller (run trace (openStream p))) = Errored failedToGet
  /\ delivered (run trace (openStream p)) = [].
Proof.
  intros S. rewrite (openStream_pipeless p S).
  edestruct (run_settled trace) as [C D]; [|rewrite C, D; now split].
  reflexivity.
Qed.

(** The answer of the handler to a request with both parameters. *)
Lemma GET_spawns (env : Env) (request : NextRequest) (url formatId : string) :
  get "url" (searchParams request) = Some url ->
  get "formatId" (searchParams request) = Some formatId ->
  url <> "" ->
  formatId <> "" ->
  Eff.run (GET env request) =
  match exec env url (options formatId) with
  | Throw e =>
      (Return (failure e),
       [Exec url (options formatId); ConsoleError "Download error:" e])
  | Return p =>
      (Return (streaming (openStream p)), [Exec url (options formatId)])
  end.
Proof.
  intros U F NU NF. rewrite GET_run, U, F.
  apply isEmpty_false in NU, NF. now rewrite NU, NF.
Qed.

(** C2, as the code has it: for a request with a non-empty url and format
    id, the answer is 500 exactly when the spawn call itself throws.  When
    the process is spawned but has no stdout, the answer is the success
    response, status 200 with the download headers, and what signals the
    failure is its body: the stream was errored during construction with
    "Failed to get download stream.", stays so, and delivers no chunk. *)
Theorem download_without_stdout
  (env : Env) (request : NextRequest) (url formatId : string) :
  get "url" (searchParams request) = Some url ->
  get "formatId" (searchParams request) = Some formatId ->
  url <> "" ->
  formatId <> "" ->
  exists response log,
    Eff.run (GET env request) = (Return response, log)
    /\ (status response = 500%Z
        <-> exists e, exec env url (options formatId) = Throw e)
    /\ (forall p,
          exec env url (options formatId) = Return p ->
          stdout p = None ->
          exists stream,
            body response = StreamBody stream
            /\ status response = 200%Z
            /\ headers response = downloadHeaders
            /\ forall trace,
                 state (controller (run trace stream)) = Errored failedToGet
                 /\ delivered (run trace stream) = []).
Proof.
  intros U F NU NF. rewrite (GET_spawns env request url formatId U F NU NF).
  destruct (exec env url (options formatId)) as [p|e] eqn:X.
  - do 2 eexists. split; [reflexivity|]. split.
    + split; [discriminate | intros [e H]; discriminate H].
    + intros p' H S. injection H as <-.
      exists (openStream p). repeat split; now apply pipeless_stays.
  - do 2 eexists. split; [reflexivity|]. split.
    + split; [now exists e | reflexivity].
    + intros p H. discriminate H.
Qed.

Lemma download_without_stdout_witness :
  exists response log,
    Eff.run (GET Samples.spawningPipeless Samples.download137)
    = (Return response, log)
    /\ (status response = 500%Z
        <-> exists e,
              exec Samples.spawningPipeless Samples.watchUrl (options "137")
              = Throw e)
    /\ (forall p,
          exec Samples.spawningPipeless Samples.watchUrl (options "137")
          = Return p ->
          stdout p = None ->
          exists stream,
            body response = StreamBody stream
            /\ status response = 200%Z
            /\ headers response = downloadHeaders
            /\ forall trace,
                 state (controller (run trace stream)) = Errored failedToGet
                 /\ delivered (run trace stream) = []).
Proof.
  apply (download_without_stdout Samples.spawningPipeless Samples.download137
           Samples.watchUrl "137");
    [reflexivity | reflexivity | discriminate | discriminate].
Defined.

(** C2 as stated fails: url and format id are there, the spawned process
    has no stdout, and the answer is status 200 with the download headers,
    not 500. *)
Lemma download_without_stdout_counterexample :
  get "url" (searchParams Samples.download137) = Some Samples.watchUrl
  /\ get "formatId" (searchParams Samples.download137) = Some "137"
  /\ exec Samples.spawningPipeless Samples.watchUrl (options "137")
     = Return Samples.pipeless
  /\ stdout Samples.pipeless = None
  /\ exists response,
       fst (Eff.run (GET Samples.spawningPipeless Samples.download137))
       = Return response
       /\ status response = 200%Z
       /\ status response <> 500%Z
       /\ headers response =
          [("Content-Type", "video/mp4");
           ("Content-Disposition",
            "attachment; filename=" +:+ dquote +:+ "video.mp4" +:+ dquote)].
Proof.
  repeat split.
  exists (streaming (openStream Samples.pipeless)).
  repeat split. discriminate.
Qed.

Lemma openStream_flowing (p : Subprocess) :
  stdout p <> None -> flowing (openStream p).
Proof. intros S. rewrite (openStream_piped p S). now repeat split. Qed.

(** C3, as the code has it: when the client cancels the response body, the
    returned stream stops being readable (it closes if it was readable),
    its queue is dropped and no further chunk is delivered, whatever
    happens later; the process is left exactly as it was spawned: the
    handler gives the stream no cancel method, so nothing kills the process
    or closes its stdout. *)
Theorem cancel_leaves_process_running
  (env : Env) (request : NextRequest) (url formatId : string)
  (p : Subprocess) (before after : list Action) :
  get "url" (searchParams request) = Some url ->
  get "formatId" (searchParams request) = Some formatId ->
  url <> "" ->
  formatId <> "" ->
  exec env url (options formatId) = Return p ->
  exists stream,
    fst (Eff.run (GET env request)) = Return (streaming stream)
    /\ onCancel source = None
    /\ downloadStream (world (run (before ++ ClientCancel :: after) stream)) = p
    /\ isReadable (controller (run (before ++ ClientCancel :: after) stream))
       = false
    /\ (isReadable (controller (run before stream)) = true ->
        state (controller (run (before ++ ClientCancel :: after) stream))
        = Closed)
    /\ queue (controller (run (before ++ ClientCancel :: after) stream)) = []
    /\ delivered (run (before ++ ClientCancel :: after) stream)
       = delivered (run before stream).
Proof.
  intros U F NU NF X.
  rewrite (GET_spawns env request url formatId U F NU NF), X.
  exists (openStream p). split; [reflexivity|]. split; [reflexivity|].
  split; [now rewrite run_process, openStream_process|].
  rewrite run_app, run_cons.
  set (s := run before (openStream p)).
  destruct (run_settled after (step ClientCancel s) (cancel_settles s))
    as [C D].
  rewrite C, D. split; [apply cancel_settles|]. split; [|split].
  - unfold isReadable. destruct s as [[st q cr] w d]. cbn.
    now destruct st.
  - apply step_drained; [|apply cancel_settles].
    apply run_drained, openStream_drained.
  - reflexivity.
Qed.

Lemma cancel_leaves_process_running_witness :
  exists stream,
    fst (Eff.run (GET Samples.spawning Samples.download137))
    = Return (streaming stream)
    /\ onCancel source = None
    /\ downloadStream
         (world (run ([StdoutData Samples.chunkA; StdoutData Samples.chunkB]
                      ++ ClientCancel :: [StdoutData Samples.chunkC; ClientRead])
                   stream))
       = Samples.piped
    /\ isReadable
         (controller
            (run ([StdoutData Samples.chunkA; StdoutData Samples.chunkB]
                  ++ ClientCancel :: [StdoutData Samples.chunkC; ClientRead])
               stream))
       = false
    /\ (isReadable
          (controller
             (run [StdoutData Samples.chunkA; StdoutData Samples.chunkB] stream))
        = true ->
        state
          (controller
             (run ([StdoutData Samples.chunkA; StdoutData Samples.chunkB]
                   ++ ClientCancel :: [StdoutData Samples.chunkC; ClientRead])
                stream))
        = Closed)
    /\ queue
         (controller
            (run ([StdoutData Samples.chunkA; StdoutData Samples.chunkB]
                  ++ ClientCancel :: [StdoutData Samples.chunkC; ClientRead])
               stream))
       = []
    /\ delivered
         (run ([StdoutData Samples.chunkA; StdoutData Samples.chunkB]
               ++ ClientCancel :: [StdoutData Samples.chunkC; ClientRead])
            stream)
       = delivered
           (run [StdoutData Samples.chunkA; StdoutData Samples.chunkB] stream).
Proof.
  apply (cancel_leaves_process_running Samples.spawning Samples.download137
           Samples.watchUrl "137" Samples.piped
           [StdoutData Samples.chunkA; StdoutData Samples.chunkB]
           [StdoutData Samples.chunkC; ClientRead]);
    [reflexivity | reflexivity | discriminate | discriminate | reflexivity].
Defined.

(** C3 as stated fails: the client cancels after the first chunk, before
    the end of the data; the process is not killed and its stdout is not
    destroyed, and the chunk stdout emits next finds the controller closed
    and fails in the listener. *)
Lemma cancel_counterexample :
  fst (Eff.run (GET Samples.spawning Samples.download137))
  = Return (streaming (openStream Samples.piped))
  /\ killed (downloadStream
               (world (run [StdoutData Samples.chunkA; ClientCancel]
                         (openStream Samples.piped))))
     = false
  /\ stdout (downloadStream
               (world (run [StdoutData Samples.chunkA; ClientCancel]
                         (openStream Samples.piped))))
     = Some {| destroyed := false |}
  /\ uncaught (world (run [StdoutData Samples.chunkA; ClientCancel;
                           StdoutData Samples.chunkB]
                        (openStream Samples.piped)))
     = [invalidState].
Proof. repeat split. Qed.

(** C5: when the process has a stdout, the returned stream relays it.
    While stdout emits chunks and the client reads, the chunks delivered
    followed by the chunks queued are the chunks emitted, unchanged and in
    order.  After the end of stdout, once the client has read on, the
    stream is closed and the chunks delivered, hence the bytes, are exactly
    those emitted.  An error of stdout errors the stream with that error,
    for good, the client having received a prefix of what was emitted. *)
Theorem stream_relays_stdout
  (env : Env) (request : NextRequest) (url formatId : string) (p : Subprocess) :
  get "url" (searchParams request) = Some url ->
  get "formatId" (searchParams request) = Some formatId ->
  url <> "" ->
  formatId <> "" ->
  exec env url (options formatId) = Return p ->
  stdout p <> None ->
  exists stream,
    fst (Eff.run (GET env request)) = Return (streaming stream)
    /\ (forall produced,
          forallb isDataOrRead produced = true ->
          delivered (run produced stream)
          ++ queue (controller (run produced stream))
          = chunks produced
          /\ state (controller (run produced stream)) = Readable
          /\ uncaught (world (run produced stream)) = [])
    /\ (forall produced reads,
          forallb isDataOrRead produced = true ->
          forallb isRead reads = true ->
          length (chunks produced) <= length reads ->
          state (controller (run (produced ++ StdoutEnd :: reads) stream))
          = Closed
          /\ delivered (run (produced ++ StdoutEnd :: reads) stream)
             = chunks produced
          /\ bytes (delivered (run (produced ++ StdoutEnd :: reads) stream))
             = bytes (chunks produced)
          /\ uncaught (world (run (produced ++ StdoutEnd :: reads) stream))
             = [])
    /\ (forall produced err later,
          forallb isDataOrRead produced = true ->
          state (controller
                   (run (produced ++ StdoutError err :: later) stream))
          = Errored err
          /\ delivered (run (produced ++ StdoutError err :: later) stream)
             `prefix_of` chunks produced).
Proof.
  intros U F NU NF X S.
  rewrite (GET_spawns env request url formatId U F NU NF), X.
  exists (openStream p). split; [reflexivity|].
  pose proof (openStream_flowing p S) as F0.
  assert (E0 : delivered (openStream p) ++ queue (controller (openStream p))
               = []) by now rewrite (openStream_piped p S).
  assert (U0 : uncaught (world (openStream p)) = [])
    by now rewrite (openStream_piped p S).
  split; [|split].
  - intros produced A.
    destruct (run_flowing produced _ A F0) as ((_ & R & _) & D & N).
    rewrite D, E0, N. now repeat split.
  - intros produced reads A B L.
    destruct (run_flowing produced _ A F0) as (F1 & D1 & N1).
    rewrite E0 in D1. cbn [app] in D1. rewrite U0 in N1.
    rewrite run_app, run_cons.
    set (s1 := run produced (openStream p)) in *.
    destruct (end_closing s1 F1) as (C2 & D2 & Q2 & N2).
    destruct (run_closing reads _ B C2) as (C3 & D3 & L3 & N3).
    set (s3 := run reads (step StdoutEnd s1)) in *.
    rewrite D2, Q2, D1 in D3. rewrite Q2 in L3.
    assert (Q : queue (controller s3) = []).
    { apply length_zero_iff_nil. rewrite L3.
      apply (f_equal (@length _)) in D1. rewrite length_app in D1. lia. }
    rewrite Q, app_nil_r in D3.
    destruct C3 as (_ & [[C3 _] | [_ C3]]); [|now elim C3].
    rewrite D3. repeat split; [exact C3 | congruence].
  - intros produced err later A.
    destruct (run_flowing produced _ A F0) as (F1 & D1 & _).
    rewrite E0 in D1. cbn [app] in D1.
    rewrite run_app, run_cons.
    set (s1 := run produced (openStream p)) in *.
    destruct (error_settles err s1 F1) as (E & D).
    destruct (run_settled later (step (StdoutError err) s1)) as [C' D'].
    { unfold isReadable. now rewrite E. }
    rewrite C', D', E, D. split; [reflexivity|].
    exists (queue (controller s1)). now rewrite D1.
Qed.

Lemma stream_relays_stdout_witness :
  stdout Samples.piped <> None
  /\ exists stream,
       fst (Eff.run (GET Samples.spawning Samples.download137))
       = Return (streaming stream)
       /\ (forall produced,
             forallb isDataOrRead produced = true ->
             delivered (run produced stream)
             ++ queue (controller (run produced stream))
             = chunks produced
             /\ state (controller (run produced stream)) = Readable
             /\ uncaught (world (run produced stream)) = [])
       /\ (forall produced reads,
             forallb isDataOrRead produced = true ->
             forallb isRead reads = true ->
             length (chunks produced) <= length reads ->
             state (controller (run (produced ++ StdoutEnd :: reads) stream))
             = Closed
             /\ delivered (run (produced ++ StdoutEnd :: reads) stream)
                = chunks produced
             /\ bytes (delivered (run (produced ++ StdoutEnd :: reads) stream))
                = bytes (chunks produced)
             /\ uncaught (world (run (produced ++ StdoutEnd :: reads) stream))
                = [])
       /\ (forall produced err later,
             forallb isDataOrRead produced = true ->
             state (controller
                      (run (produced ++ StdoutError err :: later) stream))
             = Errored err
             /\ delivered (run (produced ++ StdoutError err :: later) stream)
                `prefix_of` chunks produced).
Proof.
  split; [discriminate|].
  apply (stream_relays_stdout Samples.spawning Samples.download137
           Samples.watchUrl "137" Samples.piped);
    [reflexivity | reflexivity | discriminate | discriminate | reflexivity
    | discriminate].
Defined.

(** The relay on a concrete run: two chunks, a read in between, the end,
    two more reads. *)
Example relay_two_chunks :
  let s := run [StdoutData Samples.chunkA; ClientRead;
                StdoutData Samples.chunkB; StdoutEnd; ClientRead; ClientRead]
             (openStream Samples.piped) in
  delivered s = [Samples.chunkA; Samples.chunkB]
  /\ state (controller s) = Closed.
Proof. now split. Qed.

End Bridge.

(** ** Further facts about sessions *)

Section SessionFacts.

Import Stream DownloadRoute Traces Events.

Ltac open_session s :=
  destruct s as [[st q cr] [p l co un] d]; cbn in *.

(** A response with a stream body comes from a spawn that returned. *)
Lemma GET_stream
  (env : Env) (request : NextRequest) (response : Response Body)
  (stream : Session) :
  fst (Eff.run (GET env request)) = Return response ->
  body response = StreamBody stream ->
  exists url formatId p,
    get "url" (searchParams request) = Some url
    /\ get "formatId" (searchParams request) = Some formatId
    /\ url <> "" /\ formatId <> ""
    /\ exec env url (options formatId) = Return p
    /\ stream = openStream p
    /\ response = streaming stream.
Proof.
  rewrite GET_run. intros R B.
  destruct (get "url" (searchParams request)) as [url|];
    [|injection R as <-; discriminate B].
  destruct (get "formatId" (searchParams request)) as [formatId|];
    [|injection R as <-; discriminate B].
  destruct (Js.isEmpty url) eqn:U; [injection R as <-; discriminate B|].
  destruct (Js.isEmpty formatId) eqn:F; [injection R as <-; discriminate B|].
  cbn [orb] in R.
  destruct (exec env url (options formatId)) as [p|e] eqn:X;
    [|injection R as <-; discriminate B].
  injection R as <-. cbn in B. injection B as <-.
  apply isEmpty_false in U, F. now exists url, formatId, p.
Qed.

(** Either the session is flowing and everything emitted is delivered or
    queued, or it is sealed and what is delivered or queued is a prefix of
    what was emitted. *)
Lemma step_accounted (a : Action) (s : Session) (emitted : list Chunk) :
  (flowing s /\ delivered s ++ queue (controller s) = emitted)
  \/ (sealed s /\ delivered s ++ queue (controller s) `prefix_of` emitted) ->
  (flowing (step a s)
   /\ delivered (step a s) ++ queue (controller (step a s))
      = emitted ++ chunks [a])
  \/ (sealed (step a s)
      /\ delivered (step a s) ++ queue (controller (step a s))
         `prefix_of` emitted ++ chunks [a]).
Proof.
  unfold flowing, sealed, canCloseOrEnqueue, isReadable.
  open_session s. intros [((L & S & C) & E) | (S & P)].
  - subst l st cr emitted. destruct a; cbn.
    + left. unfold onData, enqueue, canCloseOrEnqueue. cbn.
      repeat split. now rewrite app_assoc.
    + right. unfold onEnd, close, canCloseOrEnqueue. cbn.
      split; [reflexivity|]. now rewrite app_nil_r.
    + right. split; [reflexivity|].
      rewrite !app_nil_r. now apply prefix_app_r.
    + destruct q as [|x [|y q]]; cbn; left; repeat split;
        rewrite ?app_nil_r, <- ?app_assoc; reflexivity.
    + right. split; [reflexivity|].
      rewrite !app_nil_r. now apply prefix_app_r.
  - right.
    assert (P' : forall k, d ++ q `prefix_of` emitted ++ k)
      by (intros k; now apply prefix_app_r).
    assert (D : forall k, d `prefix_of` emitted ++ k).
    { intros k. etransitivity; [|apply P']. now apply prefix_app_r. }
    assert (D0 : d `prefix_of` emitted).
    { etransitivity; [|exact P]. now apply prefix_app_r. }
    destruct a; cbn.
    + destruct l; cbn; [|auto].
      unfold onData, enqueue, canCloseOrEnqueue, isReadable. cbn.
      rewrite S. cbn. auto.
    + destruct l; cbn; [|rewrite app_nil_r; auto].
      unfold onEnd, close, canCloseOrEnqueue, isReadable. cbn.
      rewrite S. cbn. rewrite app_nil_r. auto.
    + rewrite (app_nil_r emitted).
      destruct l; cbn; [|auto]. unfold error, isReadable. cbn.
      destruct st; cbn; [|auto|auto].
      split; [now rewrite andb_false_r|]. now rewrite app_nil_r.
    + rewrite (app_nil_r emitted).
      destruct st; cbn; [|auto|auto].
      destruct q as [|x [|y q]]; cbn; [auto| |].
      * destruct cr; cbn; [|discriminate S].
        split; [reflexivity|]. now rewrite app_nil_r.
      * split; [exact S|]. now rewrite <- app_assoc.
    + rewrite (app_nil_r emitted).
      unfold cancel, isReadable. cbn. destruct st; cbn; [|auto|auto].
      split; [now rewrite andb_false_r|]. now rewrite app_nil_r.
Qed.

Lemma run_accounted (trace : list Action) (s : Session) (emitted : list Chunk) :
  (flowing s /\ delivered s ++ queue (controller s) = emitted)
  \/ (sealed s /\ delivered s ++ queue (controller s) `prefix_of` emitted) ->
  delivered (run trace s) ++ queue (controller (run trace s))
  `prefix_of` emitted ++ chunks trace.
Proof.
  revert s emitted. induction trace as [|a trace IH]; intros s emitted H.
  - cbn. rewrite app_nil_r. destruct H as [[_ <-] | [_ P]]; [reflexivity | exact P].
  - rewrite run_cons. change (a :: trace) with ([a] ++ trace).
    rewrite chunks_app, app_assoc. apply IH. now apply step_accounted.
Qed.

Lemma openStream_accounted (p : Subprocess) :
  (flowing (openStream p)
   /\ delivered (openStream p) ++ queue (controller (openStream p)) = [])
  \/ (sealed (openStream p)
      /\ delivered (openStream p) ++ queue (controller (openStream p))
         `prefix_of` []).
Proof.
  destruct (stdout p) eqn:S.
  - left. split; [apply openStream_flowing; congruence|].
    rewrite openStream_piped by congruence. reflexivity.
  - right. rewrite (openStream_pipeless p S). now split.
Qed.

Lemma GET_stream_flowing
  (env : Env) (request : NextRequest) (response : Response Body)
  (stream : Session) :
  fst (Eff.run (GET env request)) = Return response ->
  body response = StreamBody stream ->
  isReadable (controller stream) = true ->
  flowing stream
  /\ delivered stream = [] /\ queue (controller stream) = []
  /\ uncaught (world stream) = [] /\ console (world stream) = [].
Proof.
  intros R B A.
  destruct (GET_stream env request response stream R B)
    as (url & formatId & p & _ & _ & _ & _ & _ & -> & _).
  destruct (stdout p) eqn:S.
  - rewrite openStream_piped by congruence. now repeat split.
  - rewrite (openStream_pipeless p S) in A. discriminate A.
Qed.

(** What the client has received is, at every moment and whatever happens,
    a prefix of what stdout emitted: no chunk is altered, reordered,
    repeated or made up. *)
Theorem delivered_prefix_of_emitted
  (env : Env) (request : NextRequest) (response : Response Body)
  (stream : Session) (trace : list Action) :
  fst (Eff.run (GET env request)) = Return response ->
  body response = StreamBody stream ->
  delivered (run trace stream) `prefix_of` chunks trace.
Proof.
  intros R B.
  destruct (GET_stream env request response stream R B)
    as (url & formatId & p & _ & _ & _ & _ & _ & -> & _).
  etransitivity;
    [|apply (run_accounted trace _ [] (openStream_accounted p))].
  now apply prefix_app_r.
Qed.

Lemma delivered_prefix_of_emitted_witness :
  delivered
    (run [StdoutData Samples.chunkA; ClientRead; StdoutData Samples.chunkB;
          StdoutError (Js.ErrorObject "EPIPE"); StdoutData Samples.chunkC;
          ClientRead]
       (openStream Samples.piped))
  `prefix_of`
  chunks [StdoutData Samples.chunkA; ClientRead; StdoutData Samples.chunkB;
          StdoutError (Js.ErrorObject "EPIPE"); StdoutData Samples.chunkC;
          ClientRead].
Proof.
  apply (delivered_prefix_of_emitted Samples.spawning Samples.download137
           (streaming (openStream Samples.piped)) (openStream Samples.piped));
    reflexivity.
Defined.

(** Whatever happens to a session, the process is the one the spawn
    returned, as it was returned: no event, read, error or cancel makes the
    route kill it or destroy its stdout. *)
Theorem process_left_as_spawned
  (env : Env) (request : NextRequest) (response : Response Body)
  (stream : Session) (trace : list Action) :
  fst (Eff.run (GET env request)) = Return response ->
  body response = StreamBody stream ->
  exists url formatId,
    exec env url (options formatId)
    = Return (downloadStream (world (run trace stream))).
Proof.
  intros R B.
  destruct (GET_stream env request response stream R B)
    as (url & formatId & p & _ & _ & _ & _ & X & -> & _).
  exists url, formatId. now rewrite run_process, openStream_process.
Qed.

Lemma process_left_as_spawned_witness :
  exists url formatId,
    exec Samples.spawning url (options formatId)
    = Return (downloadStream
                (world (run [StdoutData Samples.chunkA;
                             StdoutError (Js.ErrorObject "EPIPE"); ClientCancel]
                          (openStream Samples.piped)))).
Proof.
  apply (process_left_as_spawned Samples.spawning Samples.download137
           (streaming (openStream Samples.piped)) (openStream Samples.piped));
    reflexivity.
Defined.

(** A stream that has closed or errored stays as it is: nothing that
    happens afterwards changes its state or delivers a chunk. *)
Theorem settled_is_final (s : Session) (earlier later : list Action) :
  isReadable (controller (run earlier s)) = false ->
  controller (run (earlier ++ later) s) = controller (run earlier s)
  /\ delivered (run (earlier ++ later) s) = delivered (run earlier s).
Proof. intros R. rewrite run_app. now apply run_settled. Qed.

Lemma settled_is_final_witness :
  controller
    (run ([StdoutData Samples.chunkA; StdoutError (Js.ErrorObject "EPIPE")]
          ++ [StdoutData Samples.chunkB; StdoutEnd; ClientRead; ClientCancel])
       (openStream Samples.piped))
  = controller
      (run [StdoutData Samples.chunkA; StdoutError (Js.ErrorObject "EPIPE")]
         (openStream Samples.piped))
  /\ delivered
       (run ([StdoutData Samples.chunkA; StdoutError (Js.ErrorObject "EPIPE")]
             ++ [StdoutData Samples.chunkB; StdoutEnd; ClientRead; ClientCancel])
          (openStream Samples.piped))
     = delivered
         (run [StdoutData Samples.chunkA; StdoutError (Js.ErrorObject "EPIPE")]
            (openStream Samples.piped)).
Proof.
  apply (settled_is_final (openStream Samples.piped)
           [StdoutData Samples.chunkA; StdoutError (Js.ErrorObject "EPIPE")]
           [StdoutData Samples.chunkB; StdoutEnd; ClientRead; ClientCancel]).
  reflexivity.
Defined.

Lemma step_open (a : Action) (s : Session) :
  keepsOpen a = true ->
  closeRequested (controller s) = false ->
  state (controller s) <> Closed ->
  closeRequested (controller (step a s)) = false
  /\ state (controller (step a s)) <> Closed.
Proof.
  open_session s. intros K C S. subst cr.
  destruct a; try discriminate K; cbn.
  - destruct l; cbn; [|now split].
    unfold onData, enqueue, canCloseOrEnqueue, isReadable. cbn.
    destruct st; cbn; now split.
  - destruct l; cbn; [|now split]. unfold error, isReadable. cbn.
    destruct st; cbn; now split.
  - destruct st; cbn; [|now split|now split].
    destruct q as [|x [|y q]]; cbn; now split.
Qed.

(** The stream reports a clean completion only after the end of stdout or
    a cancel: as long as neither has happened it is never closed. *)
Theorem closed_only_after_end_or_cancel
  (env : Env) (request : NextRequest) (response : Response Body)
  (stream : Session) (trace : list Action) :
  fst (Eff.run (GET env request)) = Return response ->
  body response = StreamBody stream ->
  forallb keepsOpen trace = true ->
  state (controller (run trace stream)) <> Closed.
Proof.
  intros R B K.
  destruct (GET_stream env request response stream R B)
    as (url & formatId & p & _ & _ & _ & _ & _ & -> & _).
  assert (I : closeRequested (controller (openStream p)) = false
              /\ state (controller (openStream p)) <> Closed).
  { destruct (stdout p) eqn:S.
    - rewrite openStream_piped by congruence. now split.
    - rewrite (openStream_pipeless p S). now split. }
  revert I. generalize (openStream p). clear R B.
  induction trace as [|a trace IH]; intros s [C S]; [exact S|].
  cbn [forallb] in K. apply andb_true_iff in K as [K K'].
  rewrite run_cons. apply (IH K'). now apply step_open.
Qed.

Lemma closed_only_after_end_or_cancel_witness :
  state
    (controller
       (run [StdoutData Samples.chunkA; ClientRead; ClientRead;
             StdoutData Samples.chunkB; ClientRead]
          (openStream Samples.piped)))
  <> Closed.
Proof.
  apply (closed_only_after_end_or_cancel Samples.spawning Samples.download137
           (streaming (openStream Samples.piped)) (openStream Samples.piped));
    reflexivity.
Defined.

Lemma run_data_only (cs : list Chunk) (s : Session) :
  flowing s ->
  flowing (run (List.map StdoutData cs) s)
  /\ queue (controller (run (List.map StdoutData cs) s))
     = queue (controller s) ++ cs
  /\ delivered (run (List.map StdoutData cs) s) = delivered s.
Proof.
  revert s. induction cs as [|c cs IH]; intros s F.
  - cbn. now rewrite app_nil_r.
  - cbn [List.map]. rewrite run_cons.
    assert (F1 : flowing (step (StdoutData c) s)
                 /\ queue (controller (step (StdoutData c) s))
                    = queue (controller s) ++ [c]
                 /\ delivered (step (StdoutData c) s) = delivered s).
    { unfold flowing in *. open_session s. destruct F as (-> & -> & ->).
      now cbn. }
    destruct F1 as (F1 & Q1 & D1).
    destruct (IH _ F1) as (F2 & Q2 & D2).
    split; [exact F2|]. rewrite Q2, Q1, D2, D1, <- app_assoc. now split.
Qed.

(** Nothing holds stdout back: while the client reads nothing, every chunk
    stdout emits is queued in the stream, so the queue grows with the
    download, without bound. *)
Theorem unread_chunks_pile_up
  (env : Env) (request : NextRequest) (response : Response Body)
  (stream : Session) (cs : list Chunk) :
  fst (Eff.run (GET env request)) = Return response ->
  body response = StreamBody stream ->
  isReadable (controller stream) = true ->
  queue (controller (run (List.map StdoutData cs) stream)) = cs
  /\ length (queue (controller (run (List.map StdoutData cs) stream)))
     = length cs
  /\ delivered (run (List.map StdoutData cs) stream) = []
  /\ state (controller (run (List.map StdoutData cs) stream)) = Readable.
Proof.
  intros R B A.
  destruct (GET_stream_flowing env request response stream R B A)
    as (F & D & Q & _ & _).
  destruct (run_data_only cs stream F) as ((_ & S & _) & Q' & D').
  rewrite Q in Q'. cbn [app] in Q'. rewrite Q', D', D. now repeat split.
Qed.

Lemma unread_chunks_pile_up_witness :
  queue (controller
           (run (List.map StdoutData
                   [Samples.chunkA; Samples.chunkB; Samples.chunkC])
              (openStream Samples.piped)))
  = [Samples.chunkA; Samples.chunkB; Samples.chunkC]
  /\ length (queue (controller
                      (run (List.map StdoutData
                              [Samples.chunkA; Samples.chunkB; Samples.chunkC])
                         (openStream Samples.piped))))
     = length [Samples.chunkA; Samples.chunkB; Samples.chunkC]
  /\ delivered (run (List.map StdoutData
                       [Samples.chunkA; Samples.chunkB; Samples.chunkC])
                  (openStream Samples.piped)) = []
  /\ state (controller
              (run (List.map StdoutData
                      [Samples.chunkA; Samples.chunkB; Samples.chunkC])
                 (openStream Samples.piped))) = Readable.
Proof.
  apply (unread_chunks_pile_up Samples.spawning Samples.download137
           (streaming (openStream Samples.piped)) (openStream Samples.piped)
           [Samples.chunkA; Samples.chunkB; Samples.chunkC]);
    reflexivity.
Defined.

Lemma run_flowing_console (trace : list Action) (s : Session) :
  forallb isDataOrRead trace = true ->
  flowing s ->
  console (world (run trace s)) = console (world s).
Proof.
  revert s. induction trace as [|a trace IH]; intros s P F; [reflexivity|].
  cbn [forallb] in P. apply andb_true_iff in P as [A P].
  destruct (step_flowing a s A F) as (F1 & _ & _).
  rewrite run_cons, (IH _ P F1).
  unfold flowing in F. open_session s. destruct F as (-> & -> & ->).
  destruct a; try discriminate A; cbn; [reflexivity|].
  now destruct q as [|x [|y q]].
Qed.

(** An error of stdout loses what was queued: the chunks emitted but not
    yet read when the error arrives are dropped, the client keeps what it
    had read and nothing more, and its next read is rejected with that
    error; the error was printed with the label of line 59. *)
Theorem error_drops_unread_chunks
  (env : Env) (request : NextRequest) (response : Response Body)
  (stream : Session) (produced later : list Action) (err : Js.thrown) :
  fst (Eff.run (GET env request)) = Return response ->
  body response = StreamBody stream ->
  isReadable (controller stream) = true ->
  forallb isDataOrRead produced = true ->
  delivered (run produced stream)
  ++ queue (controller (run produced stream)) = chunks produced
  /\ delivered (run (produced ++ StdoutError err :: later) stream)
     = delivered (run produced stream)
  /\ queue (controller (run (produced ++ StdoutError err :: later) stream))
     = []
  /\ read (controller (run (produced ++ StdoutError err :: later) stream))
     = (Rejected err,
        controller (run (produced ++ StdoutError err :: later) stream))
  /\ console (world (run (produced ++ [StdoutError err]) stream))
     = [("Stream error:", err)].
Proof.
  intros R B A P.
  destruct (GET_stream_flowing env request response stream R B A)
    as (F & D & Q & _ & K).
  destruct (run_flowing produced stream P F) as (F1 & D1 & _).
  rewrite D, Q in D1. cbn [app] in D1. split; [exact D1|].
  assert (K1 : console (world (run produced stream)) = [])
    by now rewrite (run_flowing_console produced stream P F).
  rewrite !run_app, !run_cons.
  set (s1 := run produced stream) in *.
  assert (E : controller (step (StdoutError err) s1)
              = {| state := Errored err; queue := [];
                   closeRequested := false |}
              /\ delivered (step (StdoutError err) s1) = delivered s1
              /\ console (world (step (StdoutError err) s1))
                 = [("Stream error:", err)]).
  { unfold flowing in F1. clearbody s1.
    destruct s1 as [[st q cr] [p l co un] d].
    cbn in *. destruct F1 as (-> & -> & ->). subst co. now cbn. }
  destruct E as (E & D2 & K2).
  destruct (run_settled later (step (StdoutError err) s1)) as [C' D'].
  { now rewrite E. }
  rewrite C', D', E, D2. cbn [run fold_left]. now rewrite K2.
Qed.

Lemma error_drops_unread_chunks_witness :
  delivered (run [StdoutData Samples.chunkA; ClientRead;
                  StdoutData Samples.chunkB] (openStream Samples.piped))
  ++ queue (controller
              (run [StdoutData Samples.chunkA; ClientRead;
                    StdoutData Samples.chunkB] (openStream Samples.piped)))
  = chunks [StdoutData Samples.chunkA; ClientRead; StdoutData Samples.chunkB]
  /\ delivered
       (run ([StdoutData Samples.chunkA; ClientRead; StdoutData Samples.chunkB]
             ++ StdoutError (Js.ErrorObject "EPIPE") :: [ClientRead])
          (openStream Samples.piped))
     = delivered (run [StdoutData Samples.chunkA; ClientRead;
                       StdoutData Samples.chunkB] (openStream Samples.piped))
  /\ queue (controller
              (run ([StdoutData Samples.chunkA; ClientRead;
                     StdoutData Samples.chunkB]
                    ++ StdoutError (Js.ErrorObject "EPIPE") :: [ClientRead])
                 (openStream Samples.piped)))
     = []
  /\ read (controller
             (run ([StdoutData Samples.chunkA; ClientRead;
                    StdoutData Samples.chunkB]
                   ++ StdoutError (Js.ErrorObject "EPIPE") :: [ClientRead])
                (openStream Samples.piped)))
     = (Rejected (Js.ErrorObject "EPIPE"),
        controller
          (run ([StdoutData Samples.chunkA; ClientRead;
                 StdoutData Samples.chunkB]
                ++ StdoutError (Js.ErrorObject "EPIPE") :: [ClientRead])
             (openStream Samples.piped)))
  /\ console
       (world (run ([StdoutData Samples.chunkA; ClientRead;
                     StdoutData Samples.chunkB]
                    ++ [StdoutError (Js.ErrorObject "EPIPE")])
                 (openStream Samples.piped)))
     = [("Stream error:", Js.ErrorObject "EPIPE")].
Proof.
  apply (error_drops_unread_chunks Samples.spawning Samples.download137
           (streaming (openStream Samples.piped)) (openStream Samples.piped)
           [StdoutData Samples.chunkA; ClientRead; StdoutData Samples.chunkB]
           [ClientRead] (Js.ErrorObject "EPIPE"));
    reflexivity.
Defined.

Lemma step_sealed (a : Action) (s : Session) :
  sealed s ->
  listening (world s) = true ->
  sealed (step a s)
  /\ listening (world (step a s)) = true
  /\ uncaught (world (step a s))
     = uncaught (world s) ++ (if feeds a then [invalidState] else []).
Proof.
  unfold sealed, canCloseOrEnqueue, isReadable. open_session s.
  intros S L. subst l. destruct a; cbn.
  - unfold onData, enqueue, canCloseOrEnqueue, isReadable. cbn.
    rewrite S. now cbn.
  - unfold onEnd, close, canCloseOrEnqueue, isReadable. cbn.
    rewrite S. now cbn.
  - rewrite app_nil_r. unfold error, isReadable. cbn.
    destruct st; cbn; [|now split|now split].
    now rewrite andb_false_r.
  - rewrite app_nil_r. destruct st; cbn; [|now split|now split].
    destruct q as [|x [|y q]]; cbn; [now split| |now split].
    destruct cr; cbn; [now split | discriminate S].
  - rewrite app_nil_r. unfold cancel, isReadable. cbn.
    destruct st; cbn; [|now split|now split]. now rewrite andb_false_r.
Qed.

Lemma run_sealed (trace : list Action) (s : Session) :
  sealed s ->
  listening (world s) = true ->
  uncaught (world (run trace s))
  = uncaught (world s) ++ repeat invalidState (countFeeds trace).
Proof.
  revert s. induction trace as [|a trace IH]; intros s S L.
  - cbn. now rewrite app_nil_r.
  - rewrite run_cons. destruct (step_sealed a s S L) as (S1 & L1 & U1).
    rewrite (IH _ S1 L1), U1, <- app_assoc. f_equal.
    unfold countFeeds. cbn [List.filter]. now destruct (feeds a).
Qed.

(** Once the stream has stopped taking chunks, because the client
    cancelled, stdout ended or stdout failed, every further chunk or end
    that stdout emits throws in its listener, where nothing catches it: one
    exception per event, and none for anything else. *)
Theorem late_events_throw
  (env : Env) (request : NextRequest) (response : Response Body)
  (stream : Session) (produced later : list Action) (stop : Action) :
  fst (Eff.run (GET env request)) = Return response ->
  body response = StreamBody stream ->
  isReadable (controller stream) = true ->
  forallb isDataOrRead produced = true ->
  isDataOrRead stop = false ->
  uncaught (world (run (produced ++ stop :: later) stream))
  = repeat invalidState (countFeeds later).
Proof.
  intros R B A P N.
  destruct (GET_stream_flowing env request response stream R B A)
    as (F & _ & _ & U & _).
  destruct (run_flowing produced stream P F) as (F1 & _ & U1).
  rewrite U in U1. rewrite run_app, run_cons.
  set (s1 := run produced stream) in *.
  assert (S : sealed (step stop s1)
              /\ listening (world (step stop s1)) = true
              /\ uncaught (world (step stop s1)) = []).
  { unfold flowing, sealed, canCloseOrEnqueue, isReadable in *.
    destruct s1 as [[st q cr] [p l co un] d]. cbn in *.
    destruct F1 as (-> & -> & ->). subst un.
    destruct stop; try discriminate N; cbn.
    - unfold onEnd, close, canCloseOrEnqueue, isReadable. now cbn.
    - now repeat split.
    - now repeat split. }
  destruct S as (S & L & U2).
  now rewrite (run_sealed later _ S L), U2.
Qed.

Lemma late_events_throw_witness :
  uncaught
    (world (run ([StdoutData Samples.chunkA; ClientRead]
                 ++ ClientCancel
                    :: [StdoutData Samples.chunkB; ClientRead;
                        StdoutData Samples.chunkC; StdoutEnd])
              (openStream Samples.piped)))
  = repeat invalidState
      (countFeeds [StdoutData Samples.chunkB; ClientRead;
                   StdoutData Samples.chunkC; StdoutEnd]).
Proof.
  apply (late_events_throw Samples.spawning Samples.download137
           (streaming (openStream Samples.piped)) (openStream Samples.piped)
           [StdoutData Samples.chunkA; ClientRead]
           [StdoutData Samples.chunkB; ClientRead;
            StdoutData Samples.chunkC; StdoutEnd]
           ClientCancel);
    reflexivity.
Defined.

End SessionFacts.

(** ** Further facts about the resolve handler *)

Section ResolveFacts.

Import VideoInfoRoute Policy Logs.

Lemma describes_needs_formats (videoInfo : Js.value) :
  (forall items, Json.member "formats" videoInfo <> Js.Arr items) ->
  exists e, describes videoInfo = Throw e.
Proof.
  intros N. destruct (describes videoInfo) as [details|e] eqn:D; [|eauto].
  apply describes_returns in D as (items & _ & M & _). now elim (N items).
Qed.



(** A playlist-like output, with no [formats] member: the answer is 500. *)
Example resolve_playlist :
  exists message,
    fst (run (POST Samples.answeringPlaylist (Samples.withUrl Samples.watchUrl)))
    = Return (NextResponse_json (ErrorJson message) 500).
Proof. eexists. reflexivity. Qed.

(** The url is checked before the tool is touched, the tool is invoked at
    most once per request, and when it is, it gets the [url] member of the
    body as it was received, truthy, with all six flags on. *)
Theorem resolve_invokes_at_most_once (env : Env) (request : Request) :
  exists response log,
    run (POST env request) = (Return response, log)
    /\ length (invocations log) <= 1
    /\ (status response = 400%Z -> log = [])
    /\ (forall call,
          In call (invocations log) ->
          allFlagsOn (flags call)
          /\ Js.truthy (target call) = true
          /\ exists payload,
               json request = Return payload
               /\ destructure "url" payload = Return (target call)).
Proof.
  rewrite POST_run.
  destruct (json request) as [payload|e].
  2:{ do 2 eexists. split; [reflexivity|]. cbn.
      repeat split; auto; try discriminate; contradiction. }
  destruct (destructure "url" payload) as [url|e] eqn:D.
  2:{ do 2 eexists. split; [reflexivity|]. cbn.
      repeat split; auto; try discriminate; contradiction. }
  destruct (Js.truthy url) eqn:U.
  2:{ do 2 eexists. split; [reflexivity|]. cbn.
      repeat split; auto; contradiction. }
  destruct (ytDlp env (invocation url)) as [videoInfo|e];
    [destruct (describes videoInfo)|];
    do 2 eexists; (split; [reflexivity|]); cbn;
    (split; [lia|]); (split; [discriminate|]);
    intros call [<-|[]]; cbn; (split; [now repeat split|]);
    (split; [exact U|]); now exists payload.
Qed.

(** Every failure the handler catches is printed once, with the label of
    line 74, and answered 500 with the thrown [Error]'s message, or the
    fallback text when what was thrown is no [Error]; nothing is printed
    for an answer of 200 or 400. *)
Theorem resolve_failures_are_logged (env : Env) (request : Request) :
  exists response log,
    run (POST env request) = (Return response, log)
    /\ (status response = 500%Z ->
        exists e,
          printed log = [("Error fetching video info:", e)]
          /\ body response =
             ErrorJson (match e with
                        | Js.ErrorObject message => message
                        | Js.NonError _ => fallbackMessage
                        end))
    /\ (status response <> 500%Z -> printed log = []).
Proof.
  rewrite POST_run.
  destruct (json request) as [payload|e].
  2:{ do 2 eexists. split; [reflexivity|]. cbn. split; [|now intros H].
      intros _. now exists e. }
  destruct (destructure "url" payload) as [url|e].
  2:{ do 2 eexists. split; [reflexivity|]. cbn. split; [|now intros H].
      intros _. now exists e. }
  destruct (Js.truthy url).
  2:{ do 2 eexists. split; [reflexivity|]. cbn. split; [discriminate|].
      reflexivity. }
  destruct (ytDlp env (invocation url)) as [videoInfo|e];
    [destruct (describes videoInfo) as [details|e]|];
    do 2 eexists; (split; [reflexivity|]); cbn.
  - split; [discriminate | reflexivity].
  - split; [|now intros H]. intros _. now exists e.
  - split; [|now intros H]. intros _. now exists e.
Qed.

(** The handler checks the url for truthiness only, not for being a
    string: a falsy [url] member of any type ([null], [false], [0], [NaN],
    the empty string, or none at all) is answered 400 without touching the
    tool, and a truthy one of any type is handed to the tool as it is. *)
Theorem resolve_checks_truthiness_only
  (env : Env) (request : Request) (payload url : Js.value) :
  json request = Return payload ->
  destructure "url" payload = Return url ->
  (Js.truthy url = false ->
   run (POST env request)
   = (Return (NextResponse_json (ErrorJson "URL is required") 400), []))
  /\ (Js.truthy url = true ->
      exists response rest,
        run (POST env request)
        = (Return response, YtDlp (invocation url) :: rest)
        /\ target (invocation url) = url
        /\ status response <> 400%Z).
Proof.
  intros J D. rewrite POST_run, J, D. split; intros U; rewrite U.
  - reflexivity.
  - destruct (ytDlp env (invocation url)) as [videoInfo|e];
      [destruct (describes videoInfo)|]; do 2 eexists;
      (split; [reflexivity|]); split; (reflexivity || discriminate).
Qed.

Lemma resolve_checks_truthiness_only_witness :
  (Js.truthy (Js.Num 0%float) = false ->
   run (POST Samples.answering
          {| json := Return (Js.Obj [("url", Js.Num 0%float)]) |})
   = (Return (NextResponse_json (ErrorJson "URL is required") 400), []))
  /\ (Js.truthy (Js.Num 0%float) = true ->
      exists response rest,
        run (POST Samples.answering
               {| json := Return (Js.Obj [("url", Js.Num 0%float)]) |})
        = (Return response, YtDlp (invocation (Js.Num 0%float)) :: rest)
        /\ target (invocation (Js.Num 0%float)) = Js.Num 0%float
        /\ status response <> 400%Z).
Proof.
  apply (resolve_checks_truthiness_only Samples.answering
           {| json := Return (Js.Obj [("url", Js.Num 0%float)]) |}
           (Js.Obj [("url", Js.Num 0%float)]) (Js.Num 0%float));
    reflexivity.
Defined.

(** A body that is not JSON, or is the JSON [null], is not answered 400:
    the failure to read the url lands in the [catch] block, the answer is
    500 and the tool is not touched; for a body that is not JSON the error
    text is the parser's message. *)
Theorem resolve_unreadable_body (env : Env) (request : Request) :
  (exists e, json request = Throw e) \/ json request = Return Js.Null ->
  exists response log,
    run (POST env request) = (Return response, log)
    /\ status response = 500%Z
    /\ invocations log = []
    /\ (forall message,
          json request = Throw (Js.ErrorObject message) ->
          body response = ErrorJson message).
Proof.
  intros [[e J] | J]; rewrite POST_run, J; cbn; do 2 eexists;
    (split; [reflexivity|]); cbn; repeat split.
  - intros message H. now injection H as ->.
  - intros message H. discriminate H.
Qed.

Lemma resolve_unreadable_body_witness :
  exists response log,
    run (POST Samples.answering {| json := Return Js.Null |})
    = (Return response, log)
    /\ status response = 500%Z
    /\ invocations log = []
    /\ (forall message,
          Return Js.Null = Throw (Js.ErrorObject message) ->
          body response = ErrorJson message).
Proof.
  apply (resolve_unreadable_body Samples.answering
           {| json := Return Js.Null |}).
  now right.
Defined.

(** The specification's exact allowlist is within the code's: a record
    that is combined, or video-only with a resolution tag equal to one of
    the three, is returned at its place. *)
Theorem exact_allowlist_is_returned (pre post : list Format) (f : Format) :
  claimedPolicy f ->
  policy f
  /\ filteredFormats (pre ++ f :: post)
     = filteredFormats pre ++ project f :: filteredFormats post.
Proof.
  intros C.
  assert (P : policy f).
  { destruct C as [C | [V E]]; [now left | right]. split; [exact V|].
    unfold mentionsHighRes, exactlyHighRes, occursIn in *.
    destruct E as [E | [E | E]]; rewrite E;
      [left | right; left | right; right]; now exists "", "". }
  split; [exact P|].
  apply keep_policy in P.
  now rewrite filteredFormats_app, filteredFormats_cons, P.
Qed.

Lemma exact_allowlist_is_returned_witness :
  claimedPolicy Samples.videoOnly1080
  /\ policy Samples.videoOnly1080
  /\ filteredFormats ([Samples.audioOnly] ++ Samples.videoOnly1080 :: [])
     = filteredFormats [Samples.audioOnly]
       ++ project Samples.videoOnly1080 :: filteredFormats [].
Proof.
  assert (C : claimedPolicy Samples.videoOnly1080).
  { right. split; [split; [discriminate | reflexivity]|]. now left. }
  split; [exact C|].
  exact (exact_allowlist_is_returned [Samples.audioOnly] []
           Samples.videoOnly1080 C).
Defined.

End ResolveFacts.

(** ** Further facts about the download handler *)

Section DownloadFacts.

Import Stream DownloadRoute Logs.

(** The download handler always answers, with one of three statuses: 200
    with the stream and the download headers exactly when the spawn
    returned, 400 or 500 with a JSON error text otherwise. *)
Theorem download_response_shape (env : Env) (request : NextRequest) :
  exists response log,
    Eff.run (GET env request) = (Return response, log)
    /\ (status response = 200%Z \/ status response = 400%Z
        \/ status response = 500%Z)
    /\ (status response = 200%Z
        <-> exists stream, body response = StreamBody stream)
    /\ (status response = 200%Z -> headers response = downloadHeaders)
    /\ (status response <> 200%Z ->
        headers response = [("Content-Type", "application/json")]
        /\ exists text, body response = ErrorJson text).
Proof.
  rewrite GET_run.
  destruct (get "url" (searchParams request)) as [url|].
  2:{ do 2 eexists. split; [reflexivity|]. cbn.
      repeat split; auto; try discriminate; try (intros [? H]; discriminate H).
      now eexists. }
  destruct (get "formatId" (searchParams request)) as [formatId|].
  2:{ do 2 eexists. split; [reflexivity|]. cbn.
      repeat split; auto; try discriminate; try (intros [? H]; discriminate H).
      now eexists. }
  destruct (Js.isEmpty url || Js.isEmpty formatId).
  { do 2 eexists. split; [reflexivity|]. cbn.
    repeat split; auto; try discriminate; try (intros [? H]; discriminate H).
    now eexists. }
  destruct (exec env url (options formatId)) as [p|e];
    do 2 eexists; (split; [reflexivity|]); cbn.
  - split; [auto|]. split; [split; [intros _; now eexists | reflexivity]|].
    split; [reflexivity|]. intros N. now elim N.
  - repeat split; auto; try discriminate; try (intros [? H]; discriminate H).
    now eexists.
Qed.

(** An answer of 500 means the spawn call threw: the error text is the
    thrown [Error]'s message, or "Failed to start download." when what was
    thrown is no [Error]; the failure was printed once with the label of
    line 72, after the one attempt to spawn. *)
Theorem download_spawn_failure
  (env : Env) (request : NextRequest) (response : Response Body)
  (log : list Effect) :
  Eff.run (GET env request) = (Return response, log) ->
  status response = 500%Z ->
  exists url formatId e,
    exec env url (options formatId) = Throw e
    /\ body response =
       ErrorJson (match e with
                  | Js.ErrorObject message => message
                  | Js.NonError _ => "Failed to start download."
                  end)
    /\ log = [Exec url (options formatId); ConsoleError "Download error:" e].
Proof.
  rewrite GET_run. intros R S.
  destruct (get "url" (searchParams request)) as [url|];
    [|injection R as <- _; discriminate S].
  destruct (get "formatId" (searchParams request)) as [formatId|];
    [|injection R as <- _; discriminate S].
  destruct (Js.isEmpty url || Js.isEmpty formatId);
    [injection R as <- _; discriminate S|].
  destruct (exec env url (options formatId)) as [p|e] eqn:X;
    [injection R as <- _; discriminate S|].
  injection R as <- <-. now exists url, formatId, e.
Qed.

Lemma download_spawn_failure_witness :
  exists url formatId e,
    exec Samples.notSpawning url (options formatId) = Throw e
    /\ body (failure (Js.ErrorObject "spawn ENOENT")) =
       ErrorJson (match e with
                  | Js.ErrorObject message => message
                  | Js.NonError _ => "Failed to start download."
                  end)
    /\ [Exec Samples.watchUrl (options "137");
        ConsoleError "Download error:" (Js.ErrorObject "spawn ENOENT")]
       = [Exec url (options formatId); ConsoleError "Download error:" e].
Proof.
  apply (download_spawn_failure Samples.notSpawning Samples.download137
           (failure (Js.ErrorObject "spawn ENOENT"))
           [Exec Samples.watchUrl (options "137");
            ConsoleError "Download error:" (Js.ErrorObject "spawn ENOENT")]);
    reflexivity.
Defined.

(** Every streamed answer carries the same two headers, whatever format
    was asked for: the content type video/mp4 and the attachment file name
    video.mp4. *)
Theorem download_headers_are_fixed
  (env : Env) (request : NextRequest) (response : Response Body)
  (stream : Session) :
  fst (Eff.run (GET env request)) = Return response ->
  body response = StreamBody stream ->
  headersGet "Content-Type" (headers response) = Some "video/mp4"
  /\ headersGet "Content-Disposition" (headers response)
     = Some ("attachment; filename=" +:+ dquote +:+ "video.mp4" +:+ dquote)
  /\ length (headers response) = 2.
Proof.
  rewrite GET_run. intros R B.
  destruct (get "url" (searchParams request)) as [url|];
    [|injection R as <-; discriminate B].
  destruct (get "formatId" (searchParams request)) as [formatId|];
    [|injection R as <-; discriminate B].
  destruct (Js.isEmpty url || Js.isEmpty formatId);
    [injection R as <-; discriminate B|].
  destruct (exec env url (options formatId)) as [p|e];
    [|injection R as <-; discriminate B].
  injection R as <-. now repeat split.
Qed.

Lemma download_headers_are_fixed_witness :
  headersGet "Content-Type" (headers (streaming (openStream Samples.piped)))
  = Some "video/mp4"
  /\ headersGet "Content-Disposition"
       (headers (streaming (openStream Samples.piped)))
     = Some ("attachment; filename=" +:+ dquote +:+ "video.mp4" +:+ dquote)
  /\ length (headers (streaming (openStream Samples.piped))) = 2.
Proof.
  apply (download_headers_are_fixed Samples.spawning Samples.download137
           (streaming (openStream Samples.piped)) (openStream Samples.piped));
    reflexivity.
Defined.

(** The handler spawns at most one process per request, on the first [url]
    parameter of the query and for its first [formatId] parameter, with
    warnings off, certificate checks off, free formats preferred and DASH
    manifests skipped. *)
Theorem download_spawns_at_most_once (env : Env) (request : NextRequest) :
  exists response log,
    Eff.run (GET env request) = (Return response, log)
    /\ length (spawns log) <= 1
    /\ (forall url selector,
          In (url, selector) (spawns log) ->
          get "url" (searchParams request) = Some url
          /\ (exists formatId,
                get "formatId" (searchParams request) = Some formatId
                /\ selector = options formatId)
          /\ noWarnings selector = true
          /\ noCheckCertificates selector = true
          /\ preferFreeFormats selector = true
          /\ youtubeSkipDashManifest selector = true).
Proof.
  rewrite GET_run.
  assert (Q : forall response : Response Body,
            status response = 400%Z ->
            exists (r : Response Body) (log : list Effect),
              (Return response, @nil Effect) = (Return r, log)
              /\ length (spawns log) <= 1
              /\ (forall url selector,
                    In (url, selector) (spawns log) ->
                    get "url" (searchParams request) = Some url
                    /\ (exists formatId,
                          get "formatId" (searchParams request) = Some formatId
                          /\ selector = options formatId)
                    /\ noWarnings selector = true
                    /\ noCheckCertificates selector = true
                    /\ preferFreeFormats selector = true
                    /\ youtubeSkipDashManifest selector = true)).
  { intros response S. exists response, []. split; [reflexivity|]. cbn.
    split; [lia|]. intros ? ? []. }
  destruct (get "url" (searchParams request)) as [url|] eqn:U;
    [|now apply Q].
  destruct (get "formatId" (searchParams request)) as [formatId|] eqn:F;
    [|now apply Q].
  destruct (Js.isEmpty url || Js.isEmpty formatId); [now apply Q|].
  clear Q.
  destruct (exec env url (options formatId)) as [p|e];
    do 2 eexists; (split; [reflexivity|]); cbn;
    (split; [lia|]).
  - intros u o [H|[]]. injection H as <- <-.
    repeat split. now exists formatId.
  - intros u o [H|[]]. injection H as <- <-.
    repeat split. now exists formatId.
Qed.

End DownloadFacts.

(** ** The page *)

Section PageFacts.

Import Home Network.

Ltac unfold_handler :=
  unfold run, tryCatch, mbind, M_bind, bind, lift, emit, throw, mret, M_ret, ret.

Lemma dropPrefix_spec (prefix s rest : string) :
  dropPrefix prefix s = Some rest <-> s = prefix +:+ rest.
Proof.
  revert s. induction prefix as [|a prefix IH]; intros s; cbn [dropPrefix].
  - rewrite append_nil. split; [now intros [= ->] | now intros ->].
  - rewrite append_cons. destruct s as [|b s]; [split; discriminate|].
    destruct (Ascii.eqb a b) eqn:E.
    + apply Ascii.eqb_eq in E as ->. rewrite IH.
      split; [now intros -> | now intros [= ->]].
    + apply Ascii.eqb_neq in E. split; [discriminate|].
      intros [= -> _]. now elim E.
Qed.

Lemma append_assoc (a b c : string) : (a +:+ b) +:+ c = a +:+ b +:+ c.
Proof.
  induction a as [|x a IH]; [reflexivity|].
  now rewrite !append_cons, IH.
Qed.

(** The url test accepts exactly the strings made of an optional
    [http://] or [https://], an optional [www.], one of [youtube.com],
    [youtu.be] and [youtube], a slash, and a rest that is not empty and has
    no line terminator; what the rest is does not matter. *)
Theorem url_test_accepts (url : string) :
  isYoutubeUrl url = true
  <-> exists scheme www host rest,
        In scheme ["https://"; "http://"; ""]
        /\ In www ["www."; ""]
        /\ In host ["youtube.com"; "youtu.be"; "youtube"]
        /\ url = scheme +:+ www +:+ host +:+ "/" +:+ rest
        /\ rest <> ""
        /\ hasLineTerminator rest = false.
Proof.
  unfold isYoutubeUrl. rewrite existsb_exists. unfold heads. split.
  - intros (head & H & T).
    apply in_flat_map in H as (scheme & Hs & H).
    apply in_flat_map in H as (www & Hw & H).
    apply in_map_iff in H as (host & <- & Hh).
    destruct (dropPrefix _ url) as [rest|] eqn:D; [|discriminate T].
    apply dropPrefix_spec in D.
    unfold anyToEnd in T. apply andb_true_iff in T as [N L].
    apply negb_true_iff in N, L. apply isEmpty_false in N.
    exists scheme, www, host, rest. repeat split; try assumption.
    now rewrite D, !append_assoc.
  - intros (scheme & www & host & rest & Hs & Hw & Hh & -> & N & L).
    exists (scheme +:+ www +:+ host +:+ "/"). split.
    + apply in_flat_map. exists scheme. split; [exact Hs|].
      apply in_flat_map. exists www. split; [exact Hw|].
      apply in_map_iff. now exists host.
    + replace (dropPrefix _ _) with (Some rest).
      * unfold anyToEnd. apply isEmpty_false in N. now rewrite N, L.
      * symmetry. apply dropPrefix_spec. now rewrite !append_assoc.
Qed.

Lemma isYoutubeUrl_not_empty (url : string) :
  isYoutubeUrl url = true -> Js.isEmpty url = false.
Proof. intros T. destruct url; [discriminate T | reflexivity]. Qed.

(** What the [catch] block of lines 77-82 leaves. *)
Lemma handleFetchDetails_run (env : Env) (st : State) :
  run (handleFetchDetails env st) =
  let request := Fetch "/api/video-info" (Js.Obj [("url", Js.Str (url st))]) in
  let caught e :=
    {| url := url st; videoDetails := Js.Null; isLoading := false;
       error := Some (match e with
                      | Js.ErrorObject message => message
                      | Js.NonError _ => "An unknown error occurred."
                      end);
       downloadingMessage := None |} in
  if Js.isEmpty (url st) || negb (isYoutubeUrl (url st)) then
    (Return {| url := url st; videoDetails := Js.Null;
               isLoading := isLoading st;
               error := Some "Please enter a valid YouTube URL.";
               downloadingMessage := None |}, [])
  else
    (Return
       match fetch env "/api/video-info" (Js.Obj [("url", Js.Str (url st))]) with
       | Throw e => caught e
       | Return response =>
           match json response with
           | Throw e => caught e
           | Return data =>
               if ok response then
                 {| url := url st; videoDetails := data; isLoading := false;
                    error := None; downloadingMessage := None |}
               else
                 match Json.property "error" data with
                 | Throw e => caught e
                 | Return error =>
                     match newError env
                             (orValue error
                                (Js.Str "Failed to fetch video details.")) with
                     | Return err => caught err
                     | Throw e => caught e
                     end
                 end
           end
       end,
     [request]).
Proof.
  unfold handleFetchDetails. unfold_handler.
  cbn [url videoDetails isLoading error downloadingMessage setVideoDetails
       setError setDownloadingMessage setIsLoading app].
  destruct (Js.isEmpty (url st) || negb (isYoutubeUrl (url st)));
    [reflexivity|].
  cbv zeta.
  destruct (fetch env _ _) as [[[] [data|e]]|e]; cbn [negb ok json];
    try reflexivity.
  destruct (Json.property "error" data) as [member|e]; [|reflexivity].
  destruct (newError env _); reflexivity.
Qed.

(** For an empty url, or one that fails the url test, no request is made:
    the details and the download message are cleared and the error says to
    enter a valid YouTube URL; the loading flag is not touched. *)
Theorem fetch_rejects_invalid_url (env : Env) (st : State) :
  url st = "" \/ isYoutubeUrl (url st) = false ->
  run (handleFetchDetails env st)
  = (Return {| url := url st;
               videoDetails := Js.Null;
               isLoading := isLoading st;
               error := Some "Please enter a valid YouTube URL.";
               downloadingMessage := None |},
     []).
Proof.
  intros H. rewrite handleFetchDetails_run. cbn zeta.
  replace (Js.isEmpty (url st) || negb (isYoutubeUrl (url st))) with true;
    [reflexivity|].
  symmetry. apply orb_true_iff. destruct H as [H|H].
  - left. now apply isEmpty_spec.
  - right. now rewrite H.
Qed.

Lemma fetch_rejects_invalid_url_witness :
  run (handleFetchDetails (over Samples.answering)
         (typed "https://vimeo.com/76979871"))
  = (Return {| url := "https://vimeo.com/76979871";
               videoDetails := Js.Null;
               isLoading := false;
               error := Some "Please enter a valid YouTube URL.";
               downloadingMessage := None |},
     []).
Proof.
  apply (fetch_rejects_invalid_url (over Samples.answering)
           (typed "https://vimeo.com/76979871")).
  right. reflexivity.
Defined.


(** An answer that is ok with the body [null]: the page ends with neither
    details nor an error. *)
Example fetch_null_body :
  fst (run (handleFetchDetails answeringNull (typed Samples.watchUrl)))
  = Return {| url := Samples.watchUrl;
              videoDetails := Js.Null;
              isLoading := false;
              error := None;
              downloadingMessage := None |}.
Proof. reflexivity. Qed.

(** Every request the page sends passes the resolve handler's url check:
    whatever tool runs behind it, the handler does not answer it 400 and
    invokes the tool once, on the url as typed. *)
Theorem page_request_passes_url_check
  (env : Env) (backend : VideoInfoRoute.Env) (st st' : State)
  (log : list Effect) (path : string) (payload : Js.value) :
  run (handleFetchDetails env st) = (Return st', log) ->
  In (Fetch path payload) log ->
  path = "/api/video-info"
  /\ exists response served,
       run (VideoInfoRoute.POST backend {| VideoInfoRoute.json := Return payload |})
       = (Return response, served)
       /\ status response <> 400%Z
       /\ Logs.invocations served
          = [VideoInfoRoute.invocation (Js.Str (url st))].
Proof.
  intros R I. rewrite handleFetchDetails_run in R. cbn zeta in R.
  destruct (Js.isEmpty (url st)) eqn:E; cbn [orb] in R;
    [injection R as _ <-; destruct I|].
  destruct (isYoutubeUrl (url st)) eqn:T; cbn [negb] in R;
    [|injection R as _ <-; destruct I].
  injection R as _ <-.
  destruct I as [I|[]]. injection I as <- <-. split; [reflexivity|].
  rewrite POST_run. cbn.
  apply isYoutubeUrl_not_empty in T. rewrite T. cbn.
  destruct (VideoInfoRoute.ytDlp backend _) as [videoInfo|e];
    [destruct (VideoInfoRoute.describes videoInfo)|]; do 2 eexists;
    (split; [reflexivity|]); split; (discriminate || reflexivity).
Qed.

Lemma page_request_passes_url_check_witness :
  "/api/video-info" = "/api/video-info"
  /\ exists response served,
       run (VideoInfoRoute.POST Samples.failing
              {| VideoInfoRoute.json :=
                   Return (Js.Obj [("url", Js.Str Samples.watchUrl)]) |})
       = (Return response, served)
       /\ status response <> 400%Z
       /\ Logs.invocations served
          = [VideoInfoRoute.invocation (Js.Str (url (typed Samples.watchUrl)))].
Proof.
  apply (page_request_passes_url_check (over Samples.answering) Samples.failing
           (typed Samples.watchUrl)
           PageSamples.loaded
           [Fetch "/api/video-info" (Js.Obj [("url", Js.Str Samples.watchUrl)])]);
    [reflexivity | now left].
Defined.

Lemma over_reaches (backend : VideoInfoRoute.Env) : reaches (over backend) backend.
Proof. intros payload response log R. cbn. now rewrite R. Qed.

(** The page and the resolve handler together, for a url that passes the
    test.  The page ends with the url as typed, the loading flag off and no
    download message.  When the tool returns and lines 46-72 of the handler
    complete on its output, the page ends with the descriptor as it comes
    through JSON and no error.  When the tool throws, or its output makes
    lines 46-72 throw (it has no list of formats, as for a playlist), the
    page ends without details and with an error: the thrown [Error]'s
    message, or "Failed to fetch video details." when the message is empty,
    or the handler's fallback text when what was thrown is no [Error]. *)
Theorem resolve_end_to_end
  (env : Env) (backend : VideoInfoRoute.Env) (st : State) :
  reaches env backend ->
  isYoutubeUrl (url st) = true ->
  exists st',
    fst (run (handleFetchDetails env st)) = Return st'
    /\ url st' = url st
    /\ isLoading st' = false
    /\ downloadingMessage st' = None
    /\ match VideoInfoRoute.ytDlp backend
               (VideoInfoRoute.invocation (Js.Str (url st))) with
       | Return videoInfo =>
           match VideoInfoRoute.describes videoInfo with
           | Return details =>
               videoDetails st'
               = throughJson (bodyValue (VideoInfoRoute.DetailsJson details))
               /\ error st' = None
           | Throw thrown =>
               videoDetails st' = Js.Null /\ error st' = Some (shownFor thrown)
           end
           /\ ((forall items,
                  Json.member "formats" videoInfo <> Js.Arr items) ->
               videoDetails st' = Js.Null /\ error st' <> None)
       | Throw thrown =>
           videoDetails st' = Js.Null /\ error st' = Some (shownFor thrown)
       end.
Proof.
  intros C T. rewrite handleFetchDetails_run. cbn zeta.
  pose proof (isYoutubeUrl_not_empty _ T) as N. rewrite N, T. cbn [orb negb fst].
  pose proof (POST_run backend
                {| VideoInfoRoute.json :=
                     Return (Js.Obj [("url", Js.Str (url st))]) |}) as P.
  cbn in P. rewrite N in P. cbn in P.
  assert (F : forall thrown,
            received (VideoInfoRoute.failure thrown)
            = {| ok := false;
                 json := Return (Js.Obj [("error",
                                          Js.Str (match thrown with
                                                  | Js.ErrorObject message => message
                                                  | Js.NonError _ =>
                                                      VideoInfoRoute.fallbackMessage
                                                  end))]) |}).
  { intros thrown. now destruct thrown. }
  assert (G : forall details,
            received (VideoInfoRoute.descriptor details)
            = {| ok := true;
                 json := Return (throughJson
                                   (bodyValue
                                      (VideoInfoRoute.DetailsJson details))) |})
    by reflexivity.
  assert (S : forall thrown,
            newError env
              (orValue
                 (Js.Str (match thrown with
                          | Js.ErrorObject message => message
                          | Js.NonError _ => VideoInfoRoute.fallbackMessage
                          end))
                 (Js.Str "Failed to fetch video details."))
            = Return (Js.ErrorObject (shownFor thrown))).
  { intros [message|v]; unfold orValue, shownFor, orString; cbn;
      [now destruct (Js.isEmpty message) | reflexivity]. }
  destruct (VideoInfoRoute.ytDlp backend _) as [videoInfo|thrown].
  - destruct (VideoInfoRoute.describes videoInfo) as [details|thrown] eqn:D.
    + rewrite (C _ _ _ P), G. cbn [json ok].
      eexists. split; [reflexivity|].
      cbn [url videoDetails isLoading error downloadingMessage].
      do 3 (split; [reflexivity|]). split; [now split|].
      intros M. destruct (describes_needs_formats videoInfo M) as (e & E).
      congruence.
    + rewrite (C _ _ _ P), F. cbn [json ok Json.property Js.lookupMember].
      cbn [String.eqb Ascii.eqb Bool.eqb]. rewrite S.
      eexists. split; [reflexivity|].
      cbn [url videoDetails isLoading error downloadingMessage].
      repeat split; discriminate.
  - rewrite (C _ _ _ P), F. cbn [json ok Json.property Js.lookupMember].
    cbn [String.eqb Ascii.eqb Bool.eqb]. rewrite S.
    eexists. split; [reflexivity|].
    cbn [url videoDetails isLoading error downloadingMessage].
    repeat split.
Qed.

Lemma resolve_end_to_end_witness :
  exists st',
    fst (run (handleFetchDetails (over Samples.answering)
                (typed Samples.watchUrl)))
    = Return st'
    /\ url st' = url (typed Samples.watchUrl)
    /\ isLoading st' = false
    /\ downloadingMessage st' = None
    /\ match VideoInfoRoute.ytDlp Samples.answering
               (VideoInfoRoute.invocation
                  (Js.Str (url (typed Samples.watchUrl)))) with
       | Return videoInfo =>
           match VideoInfoRoute.describes videoInfo with
           | Return details =>
               videoDetails st'
               = throughJson (bodyValue (VideoInfoRoute.DetailsJson details))
               /\ error st' = None
           | Throw thrown =>
               videoDetails st' = Js.Null /\ error st' = Some (shownFor thrown)
           end
           /\ ((forall items,
                  Json.member "formats" videoInfo <> Js.Arr items) ->
               videoDetails st' = Js.Null /\ error st' <> None)
       | Throw thrown =>
           videoDetails st' = Js.Null /\ error st' = Some (shownFor thrown)
       end.
Proof.
  apply (resolve_end_to_end (over Samples.answering) Samples.answering
           (typed Samples.watchUrl));
    [apply over_reaches | reflexivity].
Defined.

(** The page over a tool that answers as for a playlist: an error, no
    details. *)
Example resolve_playlist_end_to_end :
  exists message,
    fst (run (handleFetchDetails (over Samples.answeringPlaylist)
                (typed Samples.watchUrl)))
    = Return {| url := Samples.watchUrl;
                videoDetails := Js.Null;
                isLoading := false;
                error := Some message;
                downloadingMessage := None |}.
Proof. eexists. reflexivity. Qed.

(** Every row of the table has a size to show: its size cell is computed
    from the exact size when that is there and not zero, and from the
    approximate size otherwise, and is never "N/A" or "0 Bytes"; the rows
    are the formats with such a size, in the order received. *)
Theorem table_rows_have_sizes (details : VideoDetails) (r : Row) :
  In r (table details) ->
  exists format bytes,
    In format (vd_formats details)
    /\ r = row format
    /\ sizeCell r = Scaled bytes
    /\ Js.truthyNumber bytes = true
    /\ Some bytes = (if Js.truthyOptNumber (vf_filesize format)
                     then vf_filesize format
                     else vf_filesize_approx format).
Proof.
  unfold table, Page.tableRows. intros I.
  apply in_map_iff in I as (format & <- & I).
  apply filter_In in I as [I S].
  unfold Page.hasSize in S.
  assert (E : exists bytes,
             orNumber (vf_filesize format) (vf_filesize_approx format)
             = Some bytes
             /\ Js.truthyNumber bytes = true).
  { unfold orNumber.
    destruct (Js.truthyOptNumber (vf_filesize format)) eqn:X.
    - destruct (vf_filesize format) as [b|]; [|discriminate X]. now exists b.
    - cbn in S. destruct (vf_filesize_approx format) as [b|]; [|discriminate S].
      now exists b. }
  destruct E as (bytes & E & T). exists format, bytes.
  split; [exact I|]. split; [reflexivity|].
  assert (Z : PrimFloat.eqb bytes 0%float = false).
  { pose proof T as T'. unfold Js.truthyNumber in T'.
    apply negb_true_iff, orb_false_iff in T'. tauto. }
  split; [cbn [row sizeCell]; rewrite E; unfold formatFileSize; now rewrite Z|].
  split; [exact T|].
  unfold orNumber in E. now destruct (Js.truthyOptNumber (vf_filesize format)).
Qed.

Lemma table_rows_have_sizes_witness :
  In (row (VideoInfoRoute.project Samples.combined360))
    (table PageSamples.sampleDetails)
  /\ exists format bytes,
       In format (vd_formats PageSamples.sampleDetails)
       /\ row (VideoInfoRoute.project Samples.combined360) = row format
       /\ sizeCell (row (VideoInfoRoute.project Samples.combined360))
          = Scaled bytes
       /\ Js.truthyNumber bytes = true
       /\ Some bytes = (if Js.truthyOptNumber (vf_filesize format)
                        then vf_filesize format
                        else vf_filesize_approx format).
Proof.
  assert (I : In (row (VideoInfoRoute.project Samples.combined360))
                (table PageSamples.sampleDetails)) by (left; reflexivity).
  split; [exact I|].
  exact (table_rows_have_sizes PageSamples.sampleDetails _ I).
Defined.

End PageFacts.

(** ** Percent-encoding and the download address *)

Section UriFacts.

Import Uri.

Lemma decode_piece (c : ascii) (r : string) :
  percentDecode ((if isUnreserved c then String c "" else escape c) +:+ r)
  = String c (percentDecode r).
Proof. destruct c as [[] [] [] [] [] [] [] []]; reflexivity. Qed.

Lemma safe_piece (c : ascii) :
  allSafe (if isUnreserved c then String c "" else escape c) = true.
Proof. destruct c as [[] [] [] [] [] [] [] []]; reflexivity. Qed.

Lemma allSafe_app (a b : string) :
  allSafe (a +:+ b) = allSafe a && allSafe b.
Proof.
  induction a as [|x a IH]; [reflexivity|].
  rewrite append_cons. cbn [allSafe]. now rewrite IH, andb_assoc.
Qed.


Lemma allSafe_lacks (sep : ascii) (s : string) :
  isSafe sep = false -> allSafe s = true -> lacks sep s = true.
Proof.
  intros N. induction s as [|c s IH]; [reflexivity|]. cbn [allSafe lacks].
  intros H. apply andb_true_iff in H as [C S]. rewrite (IH S), andb_true_r.
  apply negb_true_iff, Ascii.eqb_neq. intros ->. congruence.
Qed.

Lemma encode_allSafe (s : string) : allSafe (encodeURIComponent s) = true.
Proof.
  induction s as [|c s IH]; [reflexivity|]. cbn [encodeURIComponent].
  now rewrite allSafe_app, safe_piece, IH.
Qed.




Lemma plusToSpace_lacks (s : string) :
  lacks "+" s = true -> plusToSpace s = s.
Proof.
  induction s as [|c s IH]; [reflexivity|]. cbn [lacks plusToSpace].
  intros H. apply andb_true_iff in H as [C S].
  apply negb_true_iff in C. now rewrite C, (IH S).
Qed.

Lemma decode_encode (s : string) : percentDecode (encodeURIComponent s) = s.
Proof.
  induction s as [|c s IH]; [reflexivity|].
  cbn [encodeURIComponent]. now rewrite decode_piece, IH.
Qed.

Lemma encode_lacks (sep : ascii) (s : string) :
  isSafe sep = false -> lacks sep (encodeURIComponent s) = true.
Proof. intros N. apply allSafe_lacks; [exact N | apply encode_allSafe]. Qed.

(** Decoding undoes [encodeURIComponent]: what the query parser reads back
    from an encoded component is the component, byte for byte; and an
    encoded component has none of the characters the query syntax gives a
    meaning to ([&], [=], [+], [#], [?]). *)
Theorem decode_encodeURIComponent (s : string) :
  percentDecode (plusToSpace (encodeURIComponent s)) = s
  /\ lacks "&" (encodeURIComponent s) = true
  /\ lacks "=" (encodeURIComponent s) = true
  /\ lacks "+" (encodeURIComponent s) = true
  /\ lacks "#" (encodeURIComponent s) = true
  /\ lacks "?" (encodeURIComponent s) = true.
Proof.
  split.
  - rewrite plusToSpace_lacks by now apply encode_lacks.
    apply decode_encode.
  - repeat split; now apply encode_lacks.
Qed.




Lemma encode_returns (s : string) :
  hasLoneSurrogate s = false -> encode s = Return (encodeURIComponent s).
Proof. unfold encode. now intros ->. Qed.

Lemma encode_throws (s : string) :
  hasLoneSurrogate s = true -> exists message, encode s = Throw (Js.ErrorObject message).
Proof. unfold encode. intros ->. now eexists. Qed.

End UriFacts.

(** ** The download button *)

Section DownloadButton.

Import Home HomeDownload.

Ltac unfold_handler :=
  unfold run, tryCatch, mbind, M_bind, bind, lift, emit, throw, mret, M_ret, ret.

(** [handleDownload], one outcome per path through it. *)
Lemma handleDownload_run (formatId ext formatNote : string) (st : State) :
  run (handleDownload formatId ext formatNote st) =
  let caught e :=
    {| url := url st;
       videoDetails := videoDetails st;
       isLoading := isLoading st;
       error := Some (match e with
                      | Js.ErrorObject message => message
                      | Js.NonError _ => "Download failed. Please try again."
                      end);
       downloadingMessage := None |} in
  if Js.truthy (videoDetails st) then
    match buildDownloadUrl (url st) formatId with
    | Throw e => (Return (caught e), [])
    | Return href =>
        match buildDownloadName (videoDetails st) ext with
        | Throw e => (Return (caught e), [])
        | Return download =>
            (Return {| url := url st;
                       videoDetails := videoDetails st;
                       isLoading := isLoading st;
                       error := None;
                       downloadingMessage :=
                         Some ("Downloading: " +:+ formatNote
                               +:+ "... Please wait.") |},
             [Navigate href download; SetTimeout 2000])
        end
    end
  else (Return st, []).
Proof.
  unfold handleDownload. unfold_handler.
  destruct (Js.truthy (videoDetails st)); [|reflexivity].
  cbn [negb url videoDetails isLoading error downloadingMessage
       setDownloadingMessage setError app].
  destruct (buildDownloadUrl (url st) formatId) as [href|e]; [|reflexivity].
  destruct (buildDownloadName (videoDetails st) ext); reflexivity.
Qed.

Lemma buildDownloadUrl_returns (url formatId : string) :
  Uri.hasLoneSurrogate url = false ->
  buildDownloadUrl url formatId = Return (downloadUrl url formatId).
Proof.
  intros W. unfold buildDownloadUrl. now rewrite (encode_returns url W).
Qed.

Lemma buildDownloadUrl_throws (url formatId : string) :
  Uri.hasLoneSurrogate url = true ->
  exists message,
    buildDownloadUrl url formatId = Throw (Js.ErrorObject message).
Proof.
  intros W. unfold buildDownloadUrl.
  destruct (encode_throws url W) as (message & ->). now exists message.
Qed.

Lemma buildDownloadName_returns (details : Js.value) (ext title : string) :
  Js.truthy details = true ->
  Json.member "title" details = Js.Str title ->
  buildDownloadName details ext = Return (sanitize title +:+ "." +:+ ext).
Proof.
  intros T M. unfold buildDownloadName.
  destruct details; try discriminate T; cbn in M; try discriminate M.
  cbn [Json.property]. unfold Json.member in M. now rewrite M.
Qed.

Lemma buildDownloadName_throws (details : Js.value) (ext : string) :
  (forall title, Json.member "title" details <> Js.Str title) ->
  exists message,
    buildDownloadName details ext = Throw (Js.ErrorObject message).
Proof.
  intros N. unfold buildDownloadName.
  destruct (Json.property "title" details) as [title|e] eqn:P.
  - pose proof (property_member _ _ _ P) as ->.
    cbn [mbind completion_bind].
    destruct (Json.member "title" details) as [| |b|n|s|ms|items] eqn:M;
      try (eexists; reflexivity).
    now elim (N s).
  - destruct details; cbn in P; try discriminate P;
      injection P as <-; eexists; reflexivity.
Qed.

Lemma string_length_ind (P : string -> Prop) :
  (forall s, (forall t, String.length t < String.length s -> P t) -> P s) ->
  forall s, P s.
Proof.
  intros H s. remember (String.length s) as n eqn:E.
  revert s E. induction n as [n IH] using lt_wf_ind. intros s ->.
  apply H. intros t L. now apply (IH (String.length t)).
Qed.

Lemma sanitize_clean (s : string) :
  asciiClean (sanitize s) /\ sanitize (sanitize s) = sanitize s.
Proof.
  induction s as [s IH] using string_length_ind.
  destruct s as [|c rest]; [split; [constructor | reflexivity]|].
  cbn [sanitize].
  destruct (Ascii.nat_of_ascii c <? 128) eqn:A.
  { destruct (IH rest) as [C I]; [cbn; lia|].
    destruct (keptAscii c) eqn:K; [|now split]. split.
    - constructor; [now intros _ | exact C].
    - cbn [sanitize]. now rewrite A, K, I. }
  apply Nat.ltb_ge in A.
  destruct (Ascii.nat_of_ascii c <? 224) eqn:B.
  { destruct rest as [|b rest']; [split; [constructor | reflexivity]|].
    destruct (IH rest') as [C I]; [cbn; lia|].
    destruct (isSpace2 c b) eqn:S; [|now split]. split.
    - unfold isSpace2 in S. apply andb_true_iff in S as [_ S].
      apply Nat.eqb_eq in S.
      constructor; [intros L; lia|]. constructor; [intros L; lia | exact C].
    - cbn [sanitize]. apply Nat.ltb_ge in A. now rewrite A, B, S, I. }
  destruct (Ascii.nat_of_ascii c <? 240) eqn:D.
  { destruct rest as [|b1 [|b2 rest']]; try (split; [constructor | reflexivity]).
    destruct (IH rest') as [C I]; [cbn; lia|].
    destruct (isSpace3 c b1 b2) eqn:S; [|now split]. split.
    - assert (G : 128 <= Ascii.nat_of_ascii b1 /\ 128 <= Ascii.nat_of_ascii b2).
      { unfold isSpace3 in S.
        repeat (apply orb_true_iff in S as [S|S]);
          repeat (apply andb_true_iff in S as [S ?]);
          repeat match goal with
                 | H : (_ =? _) = true |- _ => apply Nat.eqb_eq in H
                 | H : (_ <=? _) = true |- _ => apply Nat.leb_le in H
                 | H : _ || _ = true |- _ => apply orb_true_iff in H as [H|H]
                 | H : _ && _ = true |- _ => apply andb_true_iff in H as [H ?]
                 end; lia. }
      constructor; [intros L; lia|]. constructor; [intros L; lia|].
      constructor; [intros L; lia | exact C].
    - cbn [sanitize]. apply Nat.ltb_ge in A. now rewrite A, B, D, S, I. }
  destruct rest as [|b1 [|b2 [|b3 rest']]]; try (split; [constructor | reflexivity]).
  apply IH. cbn. lia.
Qed.

(** Pressing a download button changes neither the url, the details nor
    the loading flag.  Without details nothing happens at all.  With
    details, a url that [encodeURIComponent] accepts and a title that is a
    string, the page shows the "Downloading" message for the row's label,
    clears the error, navigates once and arms one timer of two seconds;
    the file name suggested is the title cleaned, a dot and the extension
    of the format, where cleaning leaves no ASCII character but letters,
    digits and white space, and cleaning twice changes nothing more.  With
    details but a url that has a lone surrogate, or a title that is no
    string, the [catch] block runs: nothing is navigated to, no timer is
    armed, the message is cleared and an error is shown. *)
Theorem download_button_outcome (formatId ext formatNote : string) (st : State) :
  exists st' log,
    run (handleDownload formatId ext formatNote st) = (Return st', log)
    /\ url st' = url st
    /\ videoDetails st' = videoDetails st
    /\ isLoading st' = isLoading st
    /\ (Js.truthy (videoDetails st) = false -> st' = st /\ log = [])
    /\ (forall title,
          Js.truthy (videoDetails st) = true ->
          Uri.hasLoneSurrogate (url st) = false ->
          Json.member "title" (videoDetails st) = Js.Str title ->
          exists href stem,
            log = [Navigate href (stem +:+ "." +:+ ext); SetTimeout 2000]
            /\ stem = sanitize title
            /\ asciiClean stem
            /\ sanitize stem = stem
            /\ downloadingMessage st'
               = Some ("Downloading: " +:+ formatNote +:+ "... Please wait.")
            /\ error st' = None)
    /\ (Js.truthy (videoDetails st) = true ->
        Uri.hasLoneSurrogate (url st) = true
        \/ (forall title, Json.member "title" (videoDetails st) <> Js.Str title) ->
        log = []
        /\ downloadingMessage st' = None
        /\ exists message, error st' = Some message).
Proof.
  rewrite handleDownload_run. cbv zeta.
  destruct (Js.truthy (videoDetails st)) eqn:T.
  2:{ do 2 eexists. split; [reflexivity|]. repeat split; discriminate. }
  destruct (Uri.hasLoneSurrogate (url st)) eqn:W.
  { destruct (buildDownloadUrl_throws (url st) formatId W) as (message & ->).
    do 2 eexists. split; [reflexivity|].
    cbn [url videoDetails isLoading error downloadingMessage].
    do 3 (split; [reflexivity|]). split; [discriminate|].
    split; [discriminate|]. intros _ _. repeat split. now exists message. }
  rewrite (buildDownloadUrl_returns (url st) formatId W).
  destruct (buildDownloadName (videoDetails st) ext) as [download|e] eqn:B.
  - do 2 eexists. split; [reflexivity|].
    cbn [url videoDetails isLoading error downloadingMessage].
    do 3 (split; [reflexivity|]). split; [discriminate|]. split.
    + intros title _ _ M.
      rewrite (buildDownloadName_returns _ ext title T M) in B.
      injection B as <-.
      destruct (sanitize_clean title) as [C I].
      exists (downloadUrl (url st) formatId), (sanitize title).
      now repeat split.
    + intros _ [H|H]; [discriminate H|].
      destruct (buildDownloadName_throws _ ext H) as (message & E).
      congruence.
  - do 2 eexists. split; [reflexivity|].
    cbn [url videoDetails isLoading error downloadingMessage].
    do 3 (split; [reflexivity|]). split; [discriminate|]. split.
    + intros title _ _ M.
      rewrite (buildDownloadName_returns _ ext title T M) in B.
      discriminate B.
    + intros _ _. repeat split. eexists. reflexivity.
Qed.

Lemma download_button_outcome_witness :
  exists st' log,
    run (handleDownload "18" "mp4" "360p" PageSamples.loaded) = (Return st', log)
    /\ url st' = url PageSamples.loaded
    /\ videoDetails st' = videoDetails PageSamples.loaded
    /\ isLoading st' = isLoading PageSamples.loaded
    /\ (Js.truthy (videoDetails PageSamples.loaded) = false ->
        st' = PageSamples.loaded /\ log = [])
    /\ (forall title,
          Js.truthy (videoDetails PageSamples.loaded) = true ->
          Uri.hasLoneSurrogate (url PageSamples.loaded) = false ->
          Json.member "title" (videoDetails PageSamples.loaded) = Js.Str title ->
          exists href stem,
            log = [Navigate href (stem +:+ "." +:+ "mp4"); SetTimeout 2000]
            /\ stem = sanitize title
            /\ asciiClean stem
            /\ sanitize stem = stem
            /\ downloadingMessage st'
               = Some ("Downloading: " +:+ "360p" +:+ "... Please wait.")
            /\ error st' = None)
    /\ (Js.truthy (videoDetails PageSamples.loaded) = true ->
        Uri.hasLoneSurrogate (url PageSamples.loaded) = true
        \/ (forall title,
              Json.member "title" (videoDetails PageSamples.loaded)
              <> Js.Str title) ->
        log = []
        /\ downloadingMessage st' = None
        /\ exists message, error st' = Some message).
Proof.
  exact (download_button_outcome "18" "mp4" "360p" PageSamples.loaded).
Defined.

(** The button on the sample page, with the sample url, with a url that
    ends in a lone surrogate, and with details that have no title. *)
Example download_button_samples :
  snd (run (handleDownload "18" "mp4" "360p" PageSamples.loaded))
  = [Navigate
       "/api/download?url=https%3A%2F%2Fwww.youtube.com%2Fwatch%3Fv%3DdQw4w9WgXcQ&formatId=18"
       "Sample.mp4";
     SetTimeout 2000]
  /\ snd (run (handleDownload "18" "mp4" "360p" PageSamples.loadedUnpaired)) = []
  /\ snd (run (handleDownload "18" "mp4" "360p" PageSamples.loadedUntitled)) = [].
Proof. repeat split. Qed.



End DownloadButton.
